(** * Candidate-application intake: file validation and submission pipelines

    A shallow embedding of the file validators ([src/lib/validation.js] and
    the [fileValidation] module), of the cached database connection
    ([connectDB]) and of the two submission handlers
    ([src/app/api/applications/route.js] and
    [src/app/api/applications-v2/route.js]), followed by the properties
    established about them.

    Conventions.  A JavaScript string is a [string]: a sequence of code
    units, here below 256.  A JavaScript number that holds a size, an index
    or a status is a [Z].  The bytes of an [ArrayBuffer] are a [list Z].
    Code that throws returns [Throw]; code that touches the database, the
    connection cache or the object store threads a [World]. *)

From Stdlib Require Import ZArith List String Ascii Bool Lia.
From Stdlib Require Import Numbers.DecimalString.
Import ListNotations.

Set Warnings "-register-all".

Local Open Scope string_scope.
Local Open Scope Z_scope.

(* ================================================================== *)
(** ** JavaScript string and array primitives used by the sources *)
(* ================================================================== *)

Module Js.

Definition chars (s : string) : list ascii := list_ascii_of_string s.
Definition str (l : list ascii) : string := string_of_list_ascii l.

Definition code (c : ascii) : Z := Z.of_nat (nat_of_ascii c).

Definition inRange (lo hi : Z) (c : ascii) : bool :=
  (lo <=? code c) && (code c <=? hi).

(** Canonicalisation of the [i] flag of a regular expression without the
    [u] flag: only the ASCII letters fold onto one another. *)
Definition foldCase (c : ascii) : ascii :=
  if inRange 65 90 c then ascii_of_nat (nat_of_ascii c + 32) else c.

(** [String.prototype.toLowerCase] on code units below 256: the ASCII
    capitals and the Latin-1 capitals (all of 0xC0..0xDE but 0xD7). *)
Definition lowerChar (c : ascii) : ascii :=
  if inRange 65 90 c || (inRange 192 222 c && negb (code c =? 215))
  then ascii_of_nat (nat_of_ascii c + 32) else c.

Definition toLowerCase (s : string) : string := str (map lowerChar (chars s)).

(** White space and line terminators below 256, as [trim] strips them. *)
Definition isSpace (c : ascii) : bool :=
  inRange 9 13 c || (code c =? 32) || (code c =? 160).

Fixpoint trimStartL (l : list ascii) : list ascii :=
  match l with
  | c :: r => if isSpace c then trimStartL r else l
  | [] => []
  end.

Definition trimL (l : list ascii) : list ascii :=
  rev (trimStartL (rev (trimStartL l))).

(** [String.prototype.trim] *)
Definition trim (s : string) : string := str (trimL (chars s)).

Fixpoint prefixL (p l : list ascii) : bool :=
  match p, l with
  | [], _ => true
  | a :: p', b :: l' => Ascii.eqb a b && prefixL p' l'
  | _ :: _, [] => false
  end.

Fixpoint includesL (needle hay : list ascii) : bool :=
  prefixL needle hay ||
  match hay with
  | [] => false
  | _ :: r => includesL needle r
  end.

(** [String.prototype.startsWith], [includes], [endsWith] *)
Definition startsWith (s p : string) : bool := prefixL (chars p) (chars s).
Definition includes (s needle : string) : bool :=
  includesL (chars needle) (chars s).
Definition endsWith (s p : string) : bool :=
  prefixL (rev (chars p)) (rev (chars s)).

(** [String.prototype.lastIndexOf] for a one-character needle: -1 when the
    character does not occur. *)
Fixpoint lastIndexOfL (c : ascii) (l : list ascii) : Z :=
  match l with
  | [] => -1
  | x :: r =>
      let k := lastIndexOfL c r in
      if 0 <=? k then k + 1 else if Ascii.eqb x c then 0 else -1
  end.

Definition clamp (len i : Z) : Z := Z.max 0 (Z.min i len).

(** [String.prototype.substring(start, end)]: both indices are clamped to
    [0, length] and swapped when out of order. *)
Definition substringL (l : list ascii) (i j : Z) : list ascii :=
  let len := Z.of_nat (List.length l) in
  let a := clamp len i in
  let b := clamp len j in
  let lo := Z.min a b in
  let hi := Z.max a b in
  firstn (Z.to_nat (hi - lo)) (skipn (Z.to_nat lo) l).

(** [substring(start)]: up to the end of the string. *)
Definition substringFromL (l : list ascii) (i : Z) : list ascii :=
  substringL l i (Z.of_nat (List.length l)).

(** [Array.prototype.includes] on an array of strings *)
Definition arrayIncludes (xs : list string) (x : string) : bool :=
  existsb (String.eqb x) xs.

(** [Array.prototype.join] *)
Definition join (sep : string) (xs : list string) : string :=
  String.concat sep xs.

(** [Array.prototype.every] with the index passed to the callback. *)
Fixpoint everyFrom {A} (p : A -> nat -> bool) (i : nat) (xs : list A) : bool :=
  match xs with
  | [] => true
  | x :: r => p x i && everyFrom p (S i) r
  end.

Definition every {A} (p : A -> nat -> bool) (xs : list A) : bool :=
  everyFrom p 0%nat xs.

(** [Array.prototype.some] *)
Definition some {A} (p : A -> bool) (xs : list A) : bool := existsb p xs.

(** Decimal digits of a non-negative integer. *)
Definition digits (n : Z) : string :=
  NilZero.string_of_uint (N.to_uint (Z.to_N n)).

(** [(bytes / (1024 * 1024)).toFixed(0)] and [.toFixed(2)] for a
    non-negative integer [bytes]: the quotient by a power of two is exact,
    and [toFixed] picks the nearest scaled integer, the larger on a tie. *)
Definition mibFixed0 (bytes : Z) : string :=
  digits ((2 * bytes + 1048576) / 2097152).

Definition mibFixed2 (bytes : Z) : string :=
  let n := (200 * bytes + 1048576) / 2097152 in
  let frac := n mod 100 in
  digits (n / 100) ++ "." ++ (if frac <? 10 then "0" else "") ++ digits frac.

(** Value of a digit in the given radix. *)
Definition digitValue (radix : Z) (c : ascii) : option Z :=
  let v :=
    if inRange 48 57 c then code c - 48
    else if inRange 97 122 c then code c - 87
    else if inRange 65 90 c then code c - 55
    else radix in
  if v <? radix then Some v else None.

Fixpoint parseDigits (radix : Z) (acc : option Z) (l : list ascii) : option Z :=
  match l with
  | [] => acc
  | c :: r =>
      match digitValue radix c with
      | Some v =>
          parseDigits radix
            (Some (radix * match acc with Some a => a | None => 0 end + v)) r
      | None => acc
      end
  end.

(** [parseInt(string)] without a radix: leading white space, an optional
    sign, an optional [0x] prefix, then the longest run of digits; [None]
    is [NaN].  The result is the integer the digits denote; the Number
    that [parseInt] returns is the double nearest to it, which is that
    integer itself up to 2^53. *)
Definition parseIntL (l : list ascii) : option Z :=
  let l := trimStartL l in
  let '(sign, l) :=
    match l with
    | "-"%char :: r => (-1, r)
    | "+"%char :: r => (1, r)
    | _ => (1, l)
    end in
  let '(radix, l) :=
    match l with
    | "0"%char :: "x"%char :: r => (16, r)
    | "0"%char :: "X"%char :: r => (16, r)
    | _ => (10, l)
    end in
  option_map (Z.mul sign) (parseDigits radix None l).

(** The first element of [s.split(',')]. *)
Fixpoint beforeCommaL (l : list ascii) : list ascii :=
  match l with
  | [] => []
  | c :: r => if Ascii.eqb c "," then [] else c :: beforeCommaL r
  end.

(** What [table[key]] reads from an object literal: a value of the
    literal, a property inherited from [Object.prototype], or
    [undefined].  An inherited property is a function (under [__proto__],
    the prototype object itself): it is truthy, it is no array, no number
    and no record of the literal, and it reads as [NaN] in a comparison. *)
Inductive Lookup (A : Type) : Type :=
| Own (a : A)
| Inherited
| Undefined.
Arguments Own {A} a.
Arguments Inherited {A}.
Arguments Undefined {A}.

(** The property names of [Object.prototype]. *)
Definition objectPrototypeKeys : list string :=
  ["constructor"; "__defineGetter__"; "__defineSetter__"; "hasOwnProperty";
   "__lookupGetter__"; "__lookupSetter__"; "isPrototypeOf";
   "propertyIsEnumerable"; "toString"; "valueOf"; "__proto__";
   "toLocaleString"].

Definition lookup {A} (table : list (string * A)) (key : string) : Lookup A :=
  match find (fun entry => String.eqb (fst entry) key) table with
  | Some entry => Own (snd entry)
  | None => if arrayIncludes objectPrototypeKeys key then Inherited else Undefined
  end.

End Js.

(* ================================================================== *)
(** ** Values shared by the validators and the handlers *)
(* ================================================================== *)

(** A [File] of the Web API: its name, declared MIME type, size in bytes
    and content. *)
Record File : Type := mkFile {
  name : string;
  type : string;
  size : Z;
  arrayBuffer : list Z
}.

(** What [FormData.get] returns: [null], a string or a file. *)
Inductive FormValue : Type :=
| FVNull
| FVString (s : string)
| FVFile (f : File).

(** The size a browser reports is the length of the content. *)
Definition wellFormedFile (f : File) : Prop :=
  size f = Z.of_nat (List.length (arrayBuffer f)).

(** The result object of the validators:
    [{ valid, error?, sanitizedName?, buffer? }]. *)
Record Validation : Type := mkValidation {
  valid : bool;
  error : option string;
  sanitizedName : option string;
  buffer : option (list Z)
}.

Definition invalid (msg : string) : Validation :=
  mkValidation false (Some msg) None None.

Definition dquote : string := String (ascii_of_nat 34) EmptyString.

(** The character class [[a-zA-Z0-9._-]] of both sanitizers. *)
Definition safeChar (c : ascii) : bool :=
  Js.inRange 97 122 c || Js.inRange 65 90 c || Js.inRange 48 57 c ||
  Ascii.eqb c "." || Ascii.eqb c "_" || Ascii.eqb c "-".

(** [.replace(/\.\.\//g, '')]: one pass from the left that drops every
    match of [../] and resumes after it. *)
Fixpoint stripTraversal (l : list ascii) : list ascii :=
  match l with
  | [] => []
  | c :: r =>
      match r with
      | d :: s :: r' =>
          if Ascii.eqb c "." && Ascii.eqb d "." && Ascii.eqb s "/"
          then stripTraversal r'
          else c :: stripTraversal r
      | _ => c :: stripTraversal r
      end
  end.

(** [.replace(/[^a-zA-Z0-9._-]/g, '_')] *)
Definition replaceUnsafe (l : list ascii) : list ascii :=
  map (fun c => if safeChar c then c else "_"%char) l.

(** Magic numbers, the same table in both validators. *)
Definition FILE_SIGNATURES (mimeType : string) : Js.Lookup (list (list Z)) :=
  Js.lookup [("image/jpeg", [[0xFF; 0xD8; 0xFF]]);
             ("image/png", [[0x89; 0x50; 0x4E; 0x47]]);
             ("image/webp", [[0x52; 0x49; 0x46; 0x46]]);
             ("application/pdf", [[0x25; 0x50; 0x44; 0x46]])]
            mimeType.

(** [signature.every((byte, index) => uint8Array[index] === byte)]: an
    index past the end reads [undefined], which equals no byte. *)
Definition signatureMatches (uint8Array : list Z) (signature : list Z) : bool :=
  Js.every (fun byte index =>
              match nth_error uint8Array index with
              | Some b => b =? byte
              | None => false
              end) signature.

(* ================================================================== *)
(** ** Thrown values *)
(* ================================================================== *)

(** [error.code] is a number for the database driver and a string for the
    network layer. *)
Inductive ErrCode : Type :=
| CodeNum (n : Z)
| CodeStr (s : string).

(** The fields of a thrown [Error] that the sources read: [name],
    [message], [code], [codeName], and the messages under [errors] of a
    Mongoose [ValidationError]. *)
Record JsError : Type := mkError {
  errName : string;
  errMessage : string;
  errCode : option ErrCode;
  errCodeName : option string;
  errErrors : list string
}.

Inductive Result (A : Type) : Type :=
| Ok (a : A)
| Throw (e : JsError).
Arguments Ok {A} a.
Arguments Throw {A} e.

Definition TypeError (msg : string) : JsError :=
  mkError "TypeError" msg None None [].

(* ================================================================== *)
(** ** Requests, responses and the world the handlers run in *)
(* ================================================================== *)

(** The JSON bodies the handlers build.  [JId] is a database ObjectId.  The
    [timestamp] members (the current time) are left out. *)
Inductive Json : Type :=
| JNull
| JBool (b : bool)
| JNum (n : Z)
| JStr (s : string)
| JId (oid : nat)
| JObj (members : list (string * Json)).

Definition member (key : string) (j : Json) : option Json :=
  match j with
  | JObj members =>
      option_map snd (find (fun m => String.eqb (fst m) key) members)
  | _ => None
  end.

Definition jtext (o : option string) : Json :=
  match o with
  | Some s => JStr s
  | None => JNull
  end.

(** JavaScript truthiness of such a value. *)
Definition jsonTruthy (j : Json) : bool :=
  match j with
  | JNull => false
  | JBool b => b
  | JNum n => negb (n =? 0)
  | JStr s => negb (String.eqb s "")
  | JId _ | JObj _ => true
  end.

(** A member whose value may be [undefined]: serialisation leaves such a
    member out. *)
Definition optionalText (key : string) (o : option string) : list (string * Json) :=
  match o with
  | Some s => [(key, JStr s)]
  | None => []
  end.

(** [NextResponse.json(body, { status })] *)
Record Response : Type := mkResponse {
  status : Z;
  body : Json
}.

Definition FormData : Type := list (string * FormValue).

(** [formData.get(key)]: the first entry under [key], else [null]. *)
Definition formGet (formData : FormData) (key : string) : FormValue :=
  match find (fun e => String.eqb (fst e) key) formData with
  | Some e => snd e
  | None => FVNull
  end.

(** A request: its headers and what [request.formData()] resolves to. *)
Record Request : Type := mkRequest {
  headers : list (string * string);
  formData : Result FormData
}.

(** [request.headers.get(name)]: header names compare without case. *)
Definition headerGet (request : Request) (key : string) : option string :=
  option_map snd
    (find (fun h => String.eqb (Js.toLowerCase (fst h)) key) (headers request)).

(** JavaScript truthiness of a form value and of an optional string. *)
Definition truthy (v : FormValue) : bool :=
  match v with
  | FVNull => false
  | FVString s => negb (String.eqb s "")
  | FVFile _ => true
  end.

Definition nonEmpty (o : option string) : option string :=
  match o with
  | Some s => if String.eqb s "" then None else Some s
  | None => None
  end.

(** [parseInt(formData.get(key))]: [null] and a file read as the strings
    [null] and [[object File]], which hold no digit. *)
Definition parseInt (v : FormValue) : option Z :=
  match v with
  | FVString s => Js.parseIntL (Js.chars s)
  | FVNull | FVFile _ => None
  end.

(** [formData.get(key) || ''] *)
Definition orEmpty (v : FormValue) : FormValue :=
  if truthy v then v else FVString "".

(** The data URI handed to the object store,
    [data:<type>;base64,<content>]: its MIME type and the encoded bytes. *)
Record DataUri : Type := mkDataUri {
  uriType : string;
  uriBytes : list Z
}.

(** The fields the handlers collect for [new Application(...)].  Text
    entries are what [formData.get] returned; [age] and [yearOfPassing] are
    the results of [parseInt] ([None] for [NaN]); [careerGap] keeps the raw
    entry, its [parseFloat(...) || 0] being floating point. *)
Record ApplicationData : Type := mkApplicationData {
  fullName : FormValue;
  age : option Z;
  gender : FormValue;
  mobileNumber : FormValue;
  emailAddress : FormValue;
  city : FormValue;
  state : FormValue;
  highestQualification : FormValue;
  specialization : FormValue;
  collegeName : FormValue;
  yearOfPassing : option Z;
  careerGap : FormValue;
  roleAppliedFor : FormValue;
  primarySkillSet : FormValue;
  totalExperience : FormValue;
  linkedinUrl : FormValue;
  githubUrl : FormValue;
  photographUrl : string;
  resumeUrl : string;
  availability : FormValue;
  declarationAccepted : bool
}.

(** An application document as Mongoose holds it, restricted to the paths
    the handlers read back and the uniquely indexed [emailAddress]. *)
Record ApplicationDoc : Type := mkApplicationDoc {
  _id : nat;
  docFullName : option string;
  docEmailAddress : option string;
  docRoleAppliedFor : option string;
  docPhotographUrl : string;
  docResumeUrl : string;
  docStatus : string;
  docSubmittedAt : Z
}.

(** One element of the array passed to [FileUpload.create]. *)
Record FileUploadData : Type := mkFileUploadData {
  cloudinaryUrl : string;
  cloudinaryPublicId : string;
  originalFileName : string;
  sanitizedFileName : option string;
  fileType : string;
  fileCategory : string;
  fileSize : Z;
  uploadedBy : FormValue;
  uploadPurpose : string;
  relatedEntityId : nat;
  relatedEntityType : string;
  uploadSource : string;
  uploadIPAddress : string;
  userAgent : string
}.

(** The mongoose instance a connection attempt resolved to. *)
Inductive Mongoose : Type :=
| MongooseInstance (attempt : nat).

(** [global.mongoose = { conn, promise }]; the promise is named by the
    number of the [mongoose.connect] call that created it. *)
Record Cache : Type := mkCache {
  conn : option Mongoose;
  promise : option nat
}.

(** Calls that leave the process. *)
Inductive Event : Type :=
| EvConnect (attempt : nat)
| EvUpload (folder resourceType : string)
| EvFindOne
| EvSaveApplication
| EvFileUploadCreate.

Record World : Type := mkWorld {
  applications : list ApplicationDoc;
  fileUploads : list FileUploadData;
  storedObjects : list string;
  cached : Cache;
  connectCalls : nat;
  nextId : nat;
  trace : list Event
}.

(** What the process reads from its environment and what the external
    services answer: the URL parser, the database server, the object store,
    Mongoose's validation of a document against [ApplicationSchema], and
    the outcome of [FileUpload.create].  [castErrorMessage] is the message
    of the [CastError] Mongoose throws for a file given as a filter value
    (it holds the file as [util.inspect] prints it); [findOneError] and
    [saveError] are what the database answers when the duplicate query,
    for a normalised address, or the insert of a document fails for a
    reason of its own (the network, the server). *)
Record Env : Type := mkEnv {
  NODE_ENV : option string;
  NEXT_PUBLIC_APP_URL : option string;
  CLOUDINARY_FOLDER_PREFIX : option string;
  urlOrigin : string -> option string;
  mongooseConnect : nat -> Mongoose + JsError;
  cloudinaryUpload : DataUri -> string -> string -> (string * string) + string;
  castErrorMessage : File -> string;
  findOneError : option string -> option JsError;
  schemaErrors : ApplicationData -> list string;
  saveError : ApplicationDoc -> option JsError;
  fileUploadCreate : list FileUploadData -> option JsError;
  now : Z
}.

Definition setApplications (w : World) (x : list ApplicationDoc) : World :=
  mkWorld x (fileUploads w) (storedObjects w) (cached w) (connectCalls w)
          (nextId w) (trace w).
Definition setFileUploads (w : World) (x : list FileUploadData) : World :=
  mkWorld (applications w) x (storedObjects w) (cached w) (connectCalls w)
          (nextId w) (trace w).
Definition setStoredObjects (w : World) (x : list string) : World :=
  mkWorld (applications w) (fileUploads w) x (cached w) (connectCalls w)
          (nextId w) (trace w).
Definition setCached (w : World) (x : Cache) : World :=
  mkWorld (applications w) (fileUploads w) (storedObjects w) x (connectCalls w)
          (nextId w) (trace w).
Definition setConnectCalls (w : World) (x : nat) : World :=
  mkWorld (applications w) (fileUploads w) (storedObjects w) (cached w) x
          (nextId w) (trace w).
Definition setNextId (w : World) (x : nat) : World :=
  mkWorld (applications w) (fileUploads w) (storedObjects w) (cached w)
          (connectCalls w) x (trace w).
Definition emit (w : World) (ev : Event) : World :=
  mkWorld (applications w) (fileUploads w) (storedObjects w) (cached w)
          (connectCalls w) (nextId w) (trace w ++ [ev]).

(* ================================================================== *)
(** ** The handler monad: state, early [return] and [throw] *)
(* ================================================================== *)

Inductive Outcome (A : Type) : Type :=
| Next (a : A)
| Return (r : Response)
| Thrown (e : JsError).
Arguments Next {A} a.
Arguments Return {A} r.
Arguments Thrown {A} e.

Definition M (A : Type) : Type := World -> Outcome A * World.

Definition ret {A} (a : A) : M A := fun w => (Next a, w).

Definition bind {A B} (m : M A) (k : A -> M B) : M B :=
  fun w =>
    match m w with
    | (Next a, w') => k a w'
    | (Return r, w') => (Return r, w')
    | (Thrown e, w') => (Thrown e, w')
    end.

Definition respond {A} (r : Response) : M A := fun w => (Return r, w).
Definition throw {A} (e : JsError) : M A := fun w => (Thrown e, w).

(** [try { m } catch (e) { handler e }] *)
Definition tryCatch {A} (m : M A) (handler : JsError -> M A) : M A :=
  fun w =>
    match m w with
    | (Thrown e, w') => handler e w'
    | other => other
    end.

(** [if (cond) return r;] *)
Definition returnIf (cond : bool) (r : Response) : M unit :=
  if cond then respond r else ret tt.

Definition liftResult {A} (r : Result A) : M A :=
  match r with
  | Ok a => ret a
  | Throw e => throw e
  end.

Notation "x <- c1 ;; c2" := (bind c1 (fun x => c2))
  (at level 61, c1 at next level, right associativity).
Notation "c1 ;; c2" := (bind c1 (fun _ => c2))
  (at level 61, right associativity).

(* ================================================================== *)
(** ** [src/lib/validation.js] *)
(* ================================================================== *)

Module Validation.

Definition ALLOWED_MIME_TYPES (category : string) : Js.Lookup (list string) :=
  Js.lookup [("IMAGE", ["image/jpeg"; "image/png"; "image/webp"]);
             ("PDF", ["application/pdf"])]
            category.

Definition FILE_SIZE_LIMITS (category : string) : Js.Lookup Z :=
  Js.lookup [("IMAGE", 5 * 1024 * 1024); ("PDF", 10 * 1024 * 1024)] category.

(** [validateMimeType]; an inherited property has no [includes]. *)
Definition validateMimeType (file : File) (category : string) : Result Validation :=
  match ALLOWED_MIME_TYPES category with
  | Js.Undefined => Ok (invalid "Invalid category")
  | Js.Inherited => Throw (TypeError "allowedTypes.includes is not a function")
  | Js.Own allowedTypes =>
      if negb (Js.arrayIncludes allowedTypes (type file))
      then Ok (invalid ("Invalid MIME type. Allowed: " ++ Js.join ", " allowedTypes))
      else Ok (mkValidation true None None None)
  end.

(** [validateFileSize]; against an inherited property [file.size > maxSize]
    compares with [NaN] and is false. *)
Definition validateFileSize (file : File) (category : string) : Validation :=
  match FILE_SIZE_LIMITS category with
  | Js.Undefined => invalid "Invalid category"
  | Js.Inherited =>
      if size file =? 0 then invalid "File is empty"
      else mkValidation true None None None
  | Js.Own maxSize =>
      if size file =? 0 then invalid "File is empty"
      else if size file >? maxSize
      then invalid ("File size " ++ Js.mibFixed2 (size file) ++
                    "MB exceeds limit of " ++ Js.mibFixed0 maxSize ++ "MB")
      else mkValidation true None None None
  end.

(** [validateFileSignature]; an inherited property has no [some]. *)
Definition validateFileSignature (buffer : list Z) (mimeType : string) : Result bool :=
  match FILE_SIGNATURES mimeType with
  | Js.Undefined => Ok true
  | Js.Inherited => Throw (TypeError "signatures.some is not a function")
  | Js.Own signatures => Ok (Js.some (signatureMatches buffer) signatures)
  end.

Definition sanitizeFilename (filename : string) : string :=
  Js.str (Js.substringL (replaceUnsafe (stripTraversal (Js.chars filename))) 0 100).

(** [/^https?:\/\//i.test(value)] on a string. *)
Definition containsExternalUrl (value : string) : bool :=
  let folded := map Js.foldCase (Js.chars value) in
  Js.prefixL (Js.chars "http://") folded || Js.prefixL (Js.chars "https://") folded.

(** [validateFile]; what a check throws rejects the promise. *)
Definition validateFile (file : FormValue) (category : string) : Result Validation :=
  match file with
  | FVNull | FVString _ => Ok (invalid "No valid file provided")
  | FVFile file =>
      if containsExternalUrl (name file) then Ok (invalid "External URLs not allowed")
      else
        match validateMimeType file category with
        | Throw e => Throw e
        | Ok mimeValidation =>
            if negb (valid mimeValidation) then Ok mimeValidation
            else
              let sizeValidation := validateFileSize file category in
              if negb (valid sizeValidation) then Ok sizeValidation
              else
                let buffer := arrayBuffer file in
                match validateFileSignature buffer (type file) with
                | Throw e => Throw e
                | Ok signatureValid =>
                    if negb signatureValid
                    then Ok (invalid "File content does not match declared type")
                    else Ok (mkValidation true None
                               (Some (sanitizeFilename (name file))) (Some buffer))
                end
        end
  end.

(** [validateOrigin(request)]; [new URL(...)] throws on an invalid URL. *)
Definition validateOrigin (env : Env) (request : Request) : Result Validation :=
  let origin := headerGet request "origin" in
  let referer := headerGet request "referer" in
  match nonEmpty (NEXT_PUBLIC_APP_URL env) with
  | None => Throw (mkError "Error" "NEXT_PUBLIC_APP_URL not configured" None None [])
  | Some appUrl =>
      if match NODE_ENV env with
         | Some e => String.eqb e "production"
         | None => false
         end
      then
        match nonEmpty origin, nonEmpty referer with
        | None, None => Ok (invalid "Missing origin and referer headers")
        | Some requestOrigin, _ =>
            match urlOrigin env appUrl with
            | None => Throw (TypeError "Invalid URL")
            | Some allowedOrigin =>
                if negb (String.eqb requestOrigin allowedOrigin)
                then Ok (invalid "Unauthorized origin")
                else Ok (mkValidation true None None None)
            end
        | None, Some referer =>
            match urlOrigin env referer with
            | None => Throw (TypeError "Invalid URL")
            | Some requestOrigin =>
                match urlOrigin env appUrl with
                | None => Throw (TypeError "Invalid URL")
                | Some allowedOrigin =>
                    if negb (String.eqb requestOrigin allowedOrigin)
                    then Ok (invalid "Unauthorized origin")
                    else Ok (mkValidation true None None None)
                end
            end
        end
      else Ok (mkValidation true None None None)
  end.

Definition validateContentType (request : Request) : Validation :=
  let contentType :=
    match nonEmpty (headerGet request "content-type") with
    | Some c => c
    | None => ""
    end in
  if negb (Js.includes contentType "multipart/form-data")
  then invalid "Content-Type must be multipart/form-data"
  else mkValidation true None None None.

(** [validateFormData]: the first string entry that holds a URL outside
    the three link fields stops the loop. *)
Fixpoint validateFormData (formData : FormData) : Validation :=
  match formData with
  | [] => mkValidation true None None None
  | (key, value) :: entries =>
      match value with
      | FVString s =>
          if containsExternalUrl s &&
             negb (Js.arrayIncludes ["linkedinUrl"; "githubUrl"; "portfolioUrl"] key)
          then invalid ("Field " ++ dquote ++ key ++ dquote ++
                        " contains unauthorized URL")
          else validateFormData entries
      | _ => validateFormData entries
      end
  end.

End Validation.

(* ================================================================== *)
(** ** The [fileValidation] module ([src/unnamed/part_003], first part) *)
(* ================================================================== *)

Module FileValidation.

Record Config : Type := mkConfig {
  allowedTypes : list string;
  allowedExtensions : list string;
  maxSize : Z;
  label : string
}.

Definition FILE_CONFIG (category : string) : Js.Lookup Config :=
  Js.lookup [("image",
              mkConfig ["image/jpeg"; "image/jpg"; "image/png"; "image/webp"]
                       [".jpg"; ".jpeg"; ".png"; ".webp"]
                       (5 * 1024 * 1024) "Image");
             ("pdf",
              mkConfig ["application/pdf"] [".pdf"]
                       (10 * 1024 * 1024) "PDF Document")]
            category.

(** [validateFileType]; an inherited property has no [allowedTypes]. *)
Definition validateFileType (file : File) (category : string) : Result Validation :=
  match FILE_CONFIG category with
  | Js.Undefined => Ok (invalid ("Invalid file category: " ++ category))
  | Js.Inherited =>
      Throw (TypeError "Cannot read properties of undefined (reading 'includes')")
  | Js.Own config =>
      if negb (Js.arrayIncludes (allowedTypes config) (type file))
      then Ok (invalid ("Invalid file type. Please upload " ++ label config ++
                        " files only. Allowed formats: " ++
                        Js.join ", " (allowedExtensions config)))
      else
        let fileName := Js.toLowerCase (name file) in
        let hasValidExtension :=
          Js.some (fun ext => Js.endsWith fileName ext) (allowedExtensions config) in
        if negb hasValidExtension
        then Ok (invalid ("Invalid file extension. Allowed extensions: " ++
                          Js.join ", " (allowedExtensions config)))
        else Ok (mkValidation true None None None)
  end.

(** [validateFileSize]; an inherited property has no [maxSize], and
    [file.size > undefined] is false. *)
Definition validateFileSize (file : File) (category : string) : Validation :=
  match FILE_CONFIG category with
  | Js.Undefined => invalid ("Invalid file category: " ++ category)
  | Js.Inherited =>
      if size file =? 0
      then invalid "File is empty. Please select a valid file."
      else mkValidation true None None None
  | Js.Own config =>
      if size file >? maxSize config
      then invalid ("File size exceeds limit. Maximum allowed: " ++
                    Js.mibFixed0 (maxSize config) ++ "MB. Your file: " ++
                    Js.mibFixed2 (size file) ++ "MB")
      else if size file =? 0
      then invalid "File is empty. Please select a valid file."
      else mkValidation true None None None
  end.

(** [validateFileSignature]; an inherited property has no [some]. *)
Definition validateFileSignature (arrayBuffer : list Z) (mimeType : string)
    : Result bool :=
  match FILE_SIGNATURES mimeType with
  | Js.Undefined => Ok true
  | Js.Inherited => Throw (TypeError "signatures.some is not a function")
  | Js.Own signatures => Ok (Js.some (signatureMatches arrayBuffer) signatures)
  end.

Definition sanitizeFileNameL (fileName : list ascii) : list ascii :=
  let sanitized := stripTraversal fileName in
  let sanitized := replaceUnsafe sanitized in
  if Z.of_nat (List.length sanitized) >? 100
  then
    let ext := Js.substringFromL sanitized (Js.lastIndexOfL "." sanitized) in
    Js.substringL sanitized 0 (100 - Z.of_nat (List.length ext)) ++ ext
  else sanitized.

Definition sanitizeFileName (fileName : string) : string :=
  Js.str (sanitizeFileNameL (Js.chars fileName)).

(** [validateFile(file, category, arrayBuffer = null)] on a [File]; the
    signature step runs only when a buffer is passed. *)
Definition validateFile (file : File) (category : string)
    (arrayBuffer : option (list Z)) : Result Validation :=
  match validateFileType file category with
  | Throw e => Throw e
  | Ok typeValidation =>
      if negb (valid typeValidation) then Ok typeValidation
      else
        let sizeValidation := validateFileSize file category in
        if negb (valid sizeValidation) then Ok sizeValidation
        else
          match
            match arrayBuffer with
            | Some arrayBuffer => validateFileSignature arrayBuffer (type file)
            | None => Ok true
            end
          with
          | Throw e => Throw e
          | Ok signatureValid =>
              if negb signatureValid
              then Ok (invalid ("File content does not match the file extension. " ++
                                "The file may be corrupted or renamed."))
              else Ok (mkValidation true None
                         (Some (sanitizeFileName (name file))) None)
          end
  end.

(** [validateFileClient]: reads the content, then validates with it. *)
Definition validateFileClient (file : File) (category : string) : Result Validation :=
  validateFile file category (Some (arrayBuffer file)).

(** [validateOrigin(request)] of this module; [urlHostname] is
    [new URL(...).hostname], which throws ([None]) on an invalid URL. *)
Definition validateOrigin (urlHostname : string -> option string) (env : Env)
    (request : Request) : Result Validation :=
  let origin := headerGet request "origin" in
  let referer := headerGet request "referer" in
  let appUrl :=
    match nonEmpty (NEXT_PUBLIC_APP_URL env) with
    | Some u => u
    | None => "http://localhost:3000"
    end in
  let refererCheck :=
    if match nonEmpty referer with Some _ => false | None => true end &&
       match NODE_ENV env with
       | Some e => String.eqb e "production"
       | None => false
       end
    then Ok (invalid "Unauthorized: Direct uploads are not allowed")
    else Ok (mkValidation true None None None) in
  match nonEmpty origin with
  | Some origin =>
      if negb (String.eqb origin appUrl)
      then
        match urlHostname origin with
        | None => Throw (TypeError "Invalid URL")
        | Some originHost =>
            match urlHostname appUrl with
            | None => Throw (TypeError "Invalid URL")
            | Some appHost =>
                if negb (String.eqb originHost appHost) &&
                   negb (String.eqb originHost "localhost") &&
                   negb (String.eqb originHost "127.0.0.1")
                then Ok (invalid ("Unauthorized: File uploads are only " ++
                                  "allowed from the website UI"))
                else refererCheck
            end
        end
      else refererCheck
  | None => refererCheck
  end.

(** [getAllowedFileTypes(category)]; an inherited property has no
    [allowedExtensions]. *)
Definition getAllowedFileTypes (category : string) : Result string :=
  match FILE_CONFIG category with
  | Js.Own config => Ok (Js.join "," (allowedExtensions config))
  | Js.Inherited =>
      Throw (TypeError "Cannot read properties of undefined (reading 'join')")
  | Js.Undefined => Ok ""
  end.

End FileValidation.

(* ================================================================== *)
(** ** The [mongodb] module ([src/unnamed/part_003], second part) *)
(* ================================================================== *)

Module Mongodb.

(** The categories [classifyDatabaseError] assigns. *)
Inductive Category : Type :=
| AUTHENTICATION
| NETWORK
| TIMEOUT
| VALIDATION
| UNKNOWN.

Record Classification : Type := mkClassification {
  category : Category;
  errorCode : string;
  httpStatus : Z;
  message : option string;
  hint : option string
}.

Definition codeIsNum (c : option ErrCode) (n : Z) : bool :=
  match c with
  | Some (CodeNum m) => m =? n
  | _ => false
  end.

Definition codeIsStr (c : option ErrCode) (s : string) : bool :=
  match c with
  | Some (CodeStr t) => String.eqb t s
  | _ => false
  end.

(** [classifyDatabaseError(error)]; [None] is a thrown value that is
    falsy ([null], [undefined]). *)
Definition classifyDatabaseError (error : option JsError) : Classification :=
  match error with
  | None => mkClassification UNKNOWN "UNKNOWN_ERROR" 500 None None
  | Some error =>
  let errorMessage := Js.toLowerCase (errMessage error) in
  let errorCode := errCode error in
  let codeName :=
    match errCodeName error with
    | Some s => Js.toLowerCase s
    | None => ""
    end in
  if codeIsNum errorCode 8000 ||
     Js.includes codeName "atlasauthenticationerror" ||
     Js.includes errorMessage "bad auth" ||
     Js.includes errorMessage "authentication failed" ||
     Js.includes errorMessage "unauthorized"
  then mkClassification AUTHENTICATION "AUTH_FAILED" 401
         (Some "MongoDB authentication failed. Invalid username or password.")
         (Some "Check MongoDB Atlas Database Access credentials")
  else if Js.includes errorMessage "econnrefused" ||
          Js.includes errorMessage "enotfound" ||
          Js.includes errorMessage "network" ||
          Js.includes errorMessage "ip whitelist" ||
          codeIsStr errorCode "ECONNREFUSED" ||
          codeIsStr errorCode "ENOTFOUND"
  then mkClassification NETWORK "NETWORK_ERROR" 503
         (Some "Cannot connect to MongoDB server. Check network and firewall.")
         (Some "Verify MongoDB Atlas cluster is running and IP whitelist includes your location")
  else if Js.includes errorMessage "timeout" ||
          Js.includes errorMessage "timed out" ||
          codeIsStr errorCode "ETIMEDOUT"
  then mkClassification TIMEOUT "CONNECTION_TIMEOUT" 504
         (Some "MongoDB connection timed out.")
         (Some "Check MongoDB Atlas cluster status and network connectivity")
  else if Js.includes errorMessage "duplicate" ||
          Js.includes errorMessage "validation" ||
          codeIsNum errorCode 11000 ||
          String.eqb (errName error) "ValidationError"
  then mkClassification VALIDATION "VALIDATION_ERROR" 400
         (Some "Data validation failed.")
         (Some "Check that all required fields are valid and no duplicate emails exist")
  else mkClassification UNKNOWN "UNKNOWN_ERROR" 500
         (Some "Database operation failed.")
         (Some "Check server logs for details")
  end.

(** [getErrorType(category)]: every category has an entry in [mapping]. *)
Definition getErrorType (category : Category) : string :=
  match category with
  | AUTHENTICATION => "DATABASE_AUTH"
  | NETWORK => "DATABASE_CONNECTION"
  | TIMEOUT => "DATABASE_CONNECTION"
  | VALIDATION => "DATABASE_WRITE"
  | UNKNOWN => "DATABASE_WRITE"
  end.

(** [createErrorResponse(error, location)], as it is serialised: a member
    whose value is [undefined] is left out.  The [timestamp] member, which
    holds the time of the call, is not part of the model. *)
Definition createErrorResponse (error : option JsError) (location : string) : Json :=
  let classification := classifyDatabaseError error in
  JObj ([("success", JBool false);
         ("errorType", JStr (getErrorType (category classification)))]
        ++ optionalText "message" (message classification)
        ++ [("location", JStr location)]
        ++ optionalText "hint" (hint classification)).

Definition getHttpStatus (error : option JsError) : Z :=
  let s := httpStatus (classifyDatabaseError error) in
  if s =? 0 then 500 else s.

(** [connectDB], for one caller at a time.  [await cached.promise] settles
    as the database server answers that attempt; a rejection first runs the
    [.catch] handler attached to the promise, then the [catch] block around
    the [await]. *)
Definition connectDB (env : Env) : M Mongoose :=
  fun w =>
    match conn (cached w) with
    | Some c => (Next c, w)
    | None =>
        let '(attempt, w) :=
          match promise (cached w) with
          | None =>
              let attempt := connectCalls w in
              let w := emit (setConnectCalls w (S attempt)) (EvConnect attempt) in
              (attempt, setCached w (mkCache (conn (cached w)) (Some attempt)))
          | Some pending => (pending, w)
          end in
        match mongooseConnect env attempt with
        | inl mongooseInstance =>
            (Next mongooseInstance,
             setCached w (mkCache (Some mongooseInstance) (promise (cached w))))
        | inr error =>
            (* the [.catch] handler of the promise *)
            let w := setCached w (mkCache (conn (cached w)) None) in
            (* the [catch] block around the [await] *)
            let w := setCached w (mkCache (conn (cached w)) None) in
            let w := setCached w (mkCache None (promise (cached w))) in
            (Thrown error, w)
        end
    end.

(** [disconnectDB]; [disconnect] is what [mongoose.disconnect()] settles
    to ([Some error] when it rejects). *)
Definition disconnectDB (disconnect : option JsError) : M unit :=
  fun w =>
    match conn (cached w) with
    | Some _ =>
        match disconnect with
        | Some error => (Thrown error, w)
        | None =>
            let w := setCached w (mkCache None (promise (cached w))) in
            let w := setCached w (mkCache (conn (cached w)) None) in
            (Next tt, w)
        end
    | None => (Next tt, w)
    end.

End Mongodb.

(* ================================================================== *)
(** ** [src/lib/errorHandler.js] *)
(* ================================================================== *)

Module ErrorHandler.

(** The members of [ErrorCodes]; every call of [createErrorResponse] in
    the repository passes one of them. *)
Inductive ErrorCodes : Type :=
| INVALID_REQUEST
| MISSING_FILES
| INVALID_FILE_TYPE
| FILE_SIZE_EXCEEDED
| INVALID_MIME_TYPE
| VALIDATION_FAILED
| ORIGIN_BLOCKED
| UNAUTHORIZED
| CLOUDINARY_UPLOAD_FAILED
| DATABASE_ERROR
| INTERNAL_ERROR.

(** The string a member holds. *)
Definition codeText (errorCode : ErrorCodes) : string :=
  match errorCode with
  | INVALID_REQUEST => "INVALID_REQUEST"
  | MISSING_FILES => "MISSING_FILES"
  | INVALID_FILE_TYPE => "INVALID_FILE_TYPE"
  | FILE_SIZE_EXCEEDED => "FILE_SIZE_EXCEEDED"
  | INVALID_MIME_TYPE => "INVALID_MIME_TYPE"
  | VALIDATION_FAILED => "VALIDATION_FAILED"
  | ORIGIN_BLOCKED => "ORIGIN_BLOCKED"
  | UNAUTHORIZED => "UNAUTHORIZED"
  | CLOUDINARY_UPLOAD_FAILED => "CLOUDINARY_UPLOAD_FAILED"
  | DATABASE_ERROR => "DATABASE_ERROR"
  | INTERNAL_ERROR => "INTERNAL_ERROR"
  end.

Definition ErrorMessages (errorCode : ErrorCodes) : string :=
  match errorCode with
  | INVALID_REQUEST => "Invalid request format"
  | MISSING_FILES => "Required files are missing"
  | INVALID_FILE_TYPE => "Invalid file type"
  | FILE_SIZE_EXCEEDED => "File size exceeds limit"
  | INVALID_MIME_TYPE => "Invalid MIME type"
  | VALIDATION_FAILED => "Validation failed"
  | ORIGIN_BLOCKED => "Unauthorized origin"
  | UNAUTHORIZED => "Unauthorized request"
  | CLOUDINARY_UPLOAD_FAILED => "File upload failed"
  | DATABASE_ERROR => "Database operation failed"
  | INTERNAL_ERROR => "Internal server error"
  end.

Definition ErrorStatusCodes (errorCode : ErrorCodes) : Z :=
  match errorCode with
  | INVALID_REQUEST => 400
  | MISSING_FILES => 400
  | INVALID_FILE_TYPE => 400
  | FILE_SIZE_EXCEEDED => 413
  | INVALID_MIME_TYPE => 400
  | VALIDATION_FAILED => 400
  | ORIGIN_BLOCKED => 401
  | UNAUTHORIZED => 401
  | CLOUDINARY_UPLOAD_FAILED => 500
  | DATABASE_ERROR => 500
  | INTERNAL_ERROR => 500
  end.

(** [createErrorResponse(errorCode, message = null, details = null)];
    [x || y] takes [y] for a falsy [x], and [...(details && { details })]
    adds the member for truthy details. *)
Definition createErrorResponse (errorCode : ErrorCodes) (message : option string)
    (details : option Json) : Response :=
  let statusCode :=
    if ErrorStatusCodes errorCode =? 0 then 500 else ErrorStatusCodes errorCode in
  let defaultMessage :=
    if String.eqb (ErrorMessages errorCode) "" then "An error occurred"
    else ErrorMessages errorCode in
  mkResponse statusCode
    (JObj ([("success", JBool false);
            ("error", JStr (codeText errorCode));
            ("message", JStr match nonEmpty message with
                             | Some m => m
                             | None => defaultMessage
                             end)]
           ++ match details with
              | Some d => if jsonTruthy d then [("details", d)] else []
              | None => []
              end)).

Definition createSuccessResponse (data : Json) (statusCode : Z) : Response :=
  mkResponse statusCode (JObj [("success", JBool true); ("data", data)]).

End ErrorHandler.

(* ================================================================== *)
(** ** [src/lib/cloudinary.js] *)
(* ================================================================== *)

Module Cloudinary.

(** [{ success, url, publicId }] or [{ success: false, error }]; a member
    that is absent reads as the empty string. *)
Record Upload : Type := mkUpload {
  success : bool;
  url : string;
  publicId : string;
  uploadError : option string
}.

(** [uploadToCloudinary]: one remote call, whose failure is turned into a
    result and never thrown. *)
Definition uploadToCloudinary (env : Env) (file : DataUri)
    (folder resourceType : string) : M Upload :=
  fun w =>
    let w := emit w (EvUpload folder resourceType) in
    match cloudinaryUpload env file folder resourceType with
    | inl (secure_url, public_id) =>
        (Next (mkUpload true secure_url public_id None),
         setStoredObjects w (storedObjects w ++ [public_id]))
    | inr message => (Next (mkUpload false "" "" (Some message)), w)
    end.

End Cloudinary.

(* ================================================================== *)
(** ** The [Application] model ([src/models/Application.js]) on Mongoose *)
(* ================================================================== *)

Module Application.

(** The setters of the [emailAddress] path: [lowercase: true], [trim: true]. *)
Definition emailSetters (s : string) : string := Js.trim (Js.toLowerCase s).

(** Cast of a form entry to a [String] path; a failed cast leaves the path
    unset (and validation reports it). *)
Definition castWith (setters : string -> string) (v : FormValue) : option string :=
  match v with
  | FVString s => Some (setters s)
  | FVNull | FVFile _ => None
  end.

Definition optEqb (a b : option string) : bool :=
  match a, b with
  | Some x, Some y => String.eqb x y
  | None, None => true
  | _, _ => false
  end.

(** [Application.findOne({ emailAddress })].  Mongoose casts the filter
    through the setters of the path before it queries, and refuses a value
    it cannot cast; the query itself can fail at the database. *)
Definition findOne (env : Env) (emailAddress : FormValue)
    : M (option ApplicationDoc) :=
  fun w =>
    let w := emit w EvFindOne in
    match emailAddress with
    | FVFile file =>
        (Thrown (mkError "CastError" (castErrorMessage env file) None None []), w)
    | _ =>
        let key := castWith emailSetters emailAddress in
        match findOneError env key with
        | Some error => (Thrown error, w)
        | None =>
            (Next (find (fun d => optEqb (docEmailAddress d) key) (applications w)),
             w)
        end
    end.

(** [new Application(applicationData)]: a fresh [_id], the setters and the
    defaults of the schema. *)
Definition new (env : Env) (data : ApplicationData) : M ApplicationDoc :=
  fun w =>
    (Next (mkApplicationDoc (nextId w)
             (castWith Js.trim (fullName data))
             (castWith emailSetters (emailAddress data))
             (castWith Js.trim (roleAppliedFor data))
             (photographUrl data) (resumeUrl data) "pending" (now env)),
     setNextId w (S (nextId w))).

(** [application.save()]: validation against the schema, then the insert,
    which can fail at the database and which the unique index on
    [emailAddress] can refuse. *)
Definition save (env : Env) (data : ApplicationData) (application : ApplicationDoc)
    : M unit :=
  fun w =>
    let w := emit w EvSaveApplication in
    match schemaErrors env data with
    | (_ :: _) as errors =>
        (Thrown (mkError "ValidationError"
                   ("Application validation failed: " ++ Js.join ", " errors)
                   None None errors), w)
    | [] =>
        match saveError env application with
        | Some error => (Thrown error, w)
        | None =>
            if existsb (fun d => optEqb (docEmailAddress d)
                                   (docEmailAddress application))
                       (applications w)
            then (Thrown (mkError "MongoServerError"
                            "E11000 duplicate key error index: emailAddress_1"
                            (Some (CodeNum 11000)) (Some "DuplicateKey") []), w)
            else (Next tt, setApplications w (applications w ++ [application]))
        end
    end.

End Application.

(** [FileUpload.create([...])] of [src/models/FileUpload.js]. *)
Definition FileUpload_create (env : Env) (docs : list FileUploadData) : M unit :=
  fun w =>
    let w := emit w EvFileUploadCreate in
    match fileUploadCreate env docs with
    | Some error => (Thrown error, w)
    | None => (Next tt, setFileUploads w (fileUploads w ++ docs))
    end.

(* ================================================================== *)
(** ** [src/app/api/applications/route.js] *)
(* ================================================================== *)

Module Applications.

Definition message (status : Z) (text : string) : Response :=
  mkResponse status (JObj [("success", JBool false); ("message", JStr text)]).

Definition gatherApplicationData (formData : FormData)
    (photographUpload resumeUpload : Cloudinary.Upload) : ApplicationData :=
  mkApplicationData
    (formGet formData "fullName")
    (parseInt (formGet formData "age"))
    (orEmpty (formGet formData "gender"))
    (formGet formData "mobileNumber")
    (formGet formData "emailAddress")
    (formGet formData "city")
    (formGet formData "state")
    (formGet formData "highestQualification")
    (formGet formData "specialization")
    (formGet formData "collegeName")
    (parseInt (formGet formData "yearOfPassing"))
    (formGet formData "careerGap")
    (formGet formData "roleAppliedFor")
    (formGet formData "primarySkillSet")
    (formGet formData "totalExperience")
    (orEmpty (formGet formData "linkedinUrl"))
    (orEmpty (formGet formData "githubUrl"))
    (Cloudinary.url photographUpload)
    (Cloudinary.url resumeUpload)
    (formGet formData "availability")
    (match formGet formData "declarationAccepted" with
     | FVString s => String.eqb s "true"
     | _ => false
     end).

(** The body of the outer [try] of [POST]. *)
Definition handle (env : Env) (request : Request) : M Response :=
  (* Step 1: connect *)
  tryCatch (Mongodb.connectDB env ;; ret tt)
    (fun dbError =>
       respond (mkResponse (Mongodb.getHttpStatus (Some dbError))
                  (Mongodb.createErrorResponse (Some dbError)
                     "MongoClient.connect"))) ;;
  (* Step 2: parse *)
  formData <- liftResult (formData request) ;;
  let photograph := formGet formData "photograph" in
  let resume := formGet formData "resume" in
  (* Step 3: required files, their types and sizes *)
  returnIf (negb (truthy photograph) || negb (truthy resume))
    (message 400 "Photograph and resume are required") ;;
  match photograph with
  | FVFile photograph =>
      returnIf (negb (Js.startsWith (type photograph) "image/"))
        (message 400 "Photograph must be an image file") ;;
      match resume with
      | FVFile resume =>
          returnIf (negb (String.eqb (type resume) "application/pdf"))
            (message 400 "Resume must be a PDF file") ;;
          let maxImageSize := 5 * 1024 * 1024 in
          let maxPdfSize := 10 * 1024 * 1024 in
          returnIf (size photograph >? maxImageSize)
            (message 400 "Photograph size must be less than 5MB") ;;
          returnIf (size resume >? maxPdfSize)
            (message 400 "Resume size must be less than 10MB") ;;
          (* Step 4: uploads *)
          let photographBase64 := mkDataUri (type photograph) (arrayBuffer photograph) in
          let resumeBase64 := mkDataUri (type resume) (arrayBuffer resume) in
          photographUpload <-
            Cloudinary.uploadToCloudinary env photographBase64
              "socialmm/applications/photographs" "image" ;;
          returnIf (negb (Cloudinary.success photographUpload))
            (mkResponse 500
               (JObj [("success", JBool false);
                      ("message", JStr "Failed to upload photograph");
                      ("error", jtext (Cloudinary.uploadError photographUpload))])) ;;
          resumeUpload <-
            Cloudinary.uploadToCloudinary env resumeBase64
              "socialmm/applications/resumes" "raw" ;;
          returnIf (negb (Cloudinary.success resumeUpload))
            (mkResponse 500
               (JObj [("success", JBool false);
                      ("message", JStr "Failed to upload resume");
                      ("error", jtext (Cloudinary.uploadError resumeUpload))])) ;;
          (* Step 5: application data *)
          let applicationData :=
            gatherApplicationData formData photographUpload resumeUpload in
          (* Step 6: duplicate email *)
          existingApplication <-
            Application.findOne env (emailAddress applicationData) ;;
          returnIf (match existingApplication with Some _ => true | None => false end)
            (message 409 "An application with this email address already exists") ;;
          (* Step 7: save *)
          application <- Application.new env applicationData ;;
          tryCatch (Application.save env applicationData application)
            (fun saveError =>
               respond (mkResponse (Mongodb.getHttpStatus (Some saveError))
                          (Mongodb.createErrorResponse (Some saveError)
                             "insertApplication"))) ;;
          (* Step 8: success *)
          ret (mkResponse 201
                 (JObj [("success", JBool true);
                        ("message", JStr "Application submitted successfully");
                        ("applicationId", JId (_id application));
                        ("data",
                         JObj [("fullName", jtext (docFullName application));
                               ("email", jtext (docEmailAddress application));
                               ("role", jtext (docRoleAppliedFor application))])]))
      | _ => respond (message 400 "Resume must be a PDF file")
      end
  | _ =>
      throw (TypeError "Cannot read properties of undefined (reading 'startsWith')")
  end.

(** The [catch] block of the outer [try]. *)
Definition catchResponse (error : JsError) : Response :=
  if String.eqb (errName error) "ValidationError"
  then mkResponse 400
         (JObj [("success", JBool false);
                ("errorType", JStr "DATABASE_WRITE");
                ("message",
                 JStr ("Validation error: " ++ Js.join ", " (errErrors error)));
                ("location", JStr "formValidation");
                ("hint",
                 JStr "Check that all required fields are filled correctly")])
  else mkResponse (Mongodb.getHttpStatus (Some error))
         (Mongodb.createErrorResponse (Some error) "submitApplication").

(** [POST]: the body of the [try], then its [catch]. *)
Definition POST (env : Env) (request : Request) (w : World) : Response * World :=
  match handle env request w with
  | (Next r, w') => (r, w')
  | (Return r, w') => (r, w')
  | (Thrown error, w') => (catchResponse error, w')
  end.

End Applications.

(* ================================================================== *)
(** ** [src/app/api/applications-v2/route.js] *)
(* ================================================================== *)

Module ApplicationsV2.

Import ErrorHandler.

Definition ipAddressOf (request : Request) : string :=
  match nonEmpty (option_map (fun s => Js.str (Js.beforeCommaL (Js.chars s)))
                             (headerGet request "x-forwarded-for")) with
  | Some ip => ip
  | None =>
      match nonEmpty (headerGet request "x-real-ip") with
      | Some ip => ip
      | None => "unknown"
      end
  end.

(** The body of the [try] of [POST]. *)
Definition handle (env : Env) (request : Request) : M Response :=
  (* 1. content type *)
  let contentTypeValidation := Validation.validateContentType request in
  returnIf (negb (valid contentTypeValidation))
    (createErrorResponse INVALID_REQUEST (error contentTypeValidation) None) ;;
  (* 2. origin *)
  originValidation <- liftResult (Validation.validateOrigin env request) ;;
  returnIf (negb (valid originValidation))
    (createErrorResponse ORIGIN_BLOCKED (error originValidation) None) ;;
  (* 3. database *)
  Mongodb.connectDB env ;;
  (* 4. form data *)
  formData <- liftResult (formData request) ;;
  (* 5. no external URLs *)
  let formDataValidation := Validation.validateFormData formData in
  returnIf (negb (valid formDataValidation))
    (createErrorResponse INVALID_REQUEST (error formDataValidation) None) ;;
  (* 6. files *)
  let photograph := formGet formData "photograph" in
  let resume := formGet formData "resume" in
  returnIf (negb (truthy photograph) || negb (truthy resume))
    (createErrorResponse MISSING_FILES
       (Some "Both photograph and resume are required") None) ;;
  (* 7. photograph *)
  photoValidation <- liftResult (Validation.validateFile photograph "IMAGE") ;;
  returnIf (negb (valid photoValidation))
    (createErrorResponse INVALID_FILE_TYPE (error photoValidation)
       (Some (JObj [("field", JStr "photograph")]))) ;;
  (* 8. resume *)
  resumeValidation <- liftResult (Validation.validateFile resume "PDF") ;;
  returnIf (negb (valid resumeValidation))
    (createErrorResponse INVALID_FILE_TYPE (error resumeValidation)
       (Some (JObj [("field", JStr "resume")]))) ;;
  match photograph, resume, buffer photoValidation, buffer resumeValidation with
  | FVFile photograph, FVFile resume, Some photoBuffer, Some resumeBuffer =>
      (* 9. uploads *)
      let folderPrefix :=
        match nonEmpty (CLOUDINARY_FOLDER_PREFIX env) with
        | Some p => p
        | None => "uploads"
        end in
      let photographBase64 := mkDataUri (type photograph) photoBuffer in
      photographUpload <-
        Cloudinary.uploadToCloudinary env photographBase64
          (folderPrefix ++ "/applications/photographs") "image" ;;
      returnIf (negb (Cloudinary.success photographUpload))
        (createErrorResponse CLOUDINARY_UPLOAD_FAILED
           (Some "Failed to upload photograph")
           (Some (JObj [("cloudinaryError",
                         jtext (Cloudinary.uploadError photographUpload))]))) ;;
      let resumeBase64 := mkDataUri (type resume) resumeBuffer in
      resumeUpload <-
        Cloudinary.uploadToCloudinary env resumeBase64
          (folderPrefix ++ "/applications/resumes") "raw" ;;
      returnIf (negb (Cloudinary.success resumeUpload))
        (createErrorResponse CLOUDINARY_UPLOAD_FAILED
           (Some "Failed to upload resume")
           (Some (JObj [("cloudinaryError",
                         jtext (Cloudinary.uploadError resumeUpload))]))) ;;
      (* 10. duplicate email *)
      let emailAddress := formGet formData "emailAddress" in
      existingApplication <- Application.findOne env emailAddress ;;
      returnIf (match existingApplication with Some _ => true | None => false end)
        (createErrorResponse VALIDATION_FAILED
           (Some "Application with this email already exists") None) ;;
      (* 11. application data *)
      let applicationData :=
        Applications.gatherApplicationData formData photographUpload resumeUpload in
      (* 12. save *)
      application <- Application.new env applicationData ;;
      Application.save env applicationData application ;;
      (* 13. file records *)
      let userAgent :=
        match nonEmpty (headerGet request "user-agent") with
        | Some u => u
        | None => "unknown"
        end in
      let ipAddress := ipAddressOf request in
      tryCatch
        (FileUpload_create env
           [mkFileUploadData (Cloudinary.url photographUpload)
              (Cloudinary.publicId photographUpload) (name photograph)
              (sanitizedName photoValidation) (type photograph) "image"
              (size photograph) emailAddress "application_photograph"
              (_id application) "Application" "web" ipAddress userAgent;
            mkFileUploadData (Cloudinary.url resumeUpload)
              (Cloudinary.publicId resumeUpload) (name resume)
              (sanitizedName resumeValidation) (type resume) "pdf"
              (size resume) emailAddress "application_resume"
              (_id application) "Application" "web" ipAddress userAgent])
        (fun _ => ret tt) ;;
      (* 14. success *)
      ret (createSuccessResponse
             (JObj [("applicationId", JId (_id application));
                    ("fullName", jtext (docFullName application));
                    ("email", jtext (docEmailAddress application));
                    ("role", jtext (docRoleAppliedFor application));
                    ("submittedAt", JNum (docSubmittedAt application))])
             201)
  | _, _, _, _ =>
      (* not reached: a valid result comes with a file and its buffer *)
      throw (TypeError "Cannot read properties of undefined")
  end.

(** The [catch] block. *)
Definition catchResponse (env : Env) (error : JsError) : Response :=
  if String.eqb (errName error) "ValidationError"
  then createErrorResponse VALIDATION_FAILED
         (Some (Js.join ", " (errErrors error))) None
  else createErrorResponse INTERNAL_ERROR
         (Some "An unexpected error occurred")
         (if match NODE_ENV env with
             | Some e => String.eqb e "development"
             | None => false
             end
          then Some (JObj [("error", JStr (errMessage error))])
          else None).

(** [POST]: the body of the [try], then its [catch]. *)
Definition POST (env : Env) (request : Request) (w : World) : Response * World :=
  match handle env request w with
  | (Next r, w') => (r, w')
  | (Return r, w') => (r, w')
  | (Thrown error, w') => (catchResponse env error, w')
  end.

End ApplicationsV2.

(* ================================================================== *)
(** ** [src/lib/envValidator.js] *)
(* ================================================================== *)

Module EnvValidator.

Definition newline : string := String (ascii_of_nat 10) EmptyString.

(** The cross mark U+274C that opens the error text, in UTF-8. *)
Definition crossMark : string :=
  String (ascii_of_nat 226) (String (ascii_of_nat 157)
    (String (ascii_of_nat 140) EmptyString)).

Definition REQUIRED_ENV_VARS : list (string * string) :=
  [("MONGO_URI", "MongoDB connection string");
   ("CLOUDINARY_CLOUD_NAME", "Cloudinary cloud name");
   ("CLOUDINARY_API_KEY", "Cloudinary API key");
   ("CLOUDINARY_API_SECRET", "Cloudinary API secret");
   ("NEXT_PUBLIC_APP_URL", "Application URL")].

(** [!process.env[key]]: unset or empty. *)
Definition unset (processEnv : string -> option string) (key : string) : bool :=
  match nonEmpty (processEnv key) with
  | Some _ => false
  | None => true
  end.

(** The [missing] array of [validateEnv]. *)
Definition missingVars (processEnv : string -> option string) : list string :=
  map (fun entry => fst entry ++ ": " ++ snd entry)
      (filter (fun entry => unset processEnv (fst entry)) REQUIRED_ENV_VARS).

Definition Error (message : string) : JsError :=
  mkError "Error" message None None [].

(** [validateEnv()], over the process environment; [urlParses] tells
    whether [new URL(...)] accepts a string.  The warnings about the
    optional variables are console output only. *)
Definition validateEnv (processEnv : string -> option string)
    (urlParses : string -> bool) : Result unit :=
  let missing := missingVars processEnv in
  if (0 <? List.length missing)%nat
  then
    Throw (Error (Js.join newline
             ([""; crossMark ++ " FATAL: Missing required environment variables";
               ""; "Missing variables:"]
              ++ map (fun m => "  - " ++ m) missing
              ++ [""; "Setup instructions:";
                  "1. Copy .env.example to .env";
                  "2. Fill in all required values";
                  "3. Restart the application"; ""])))
  else
    match processEnv "MONGO_URI", processEnv "NEXT_PUBLIC_APP_URL" with
    | Some mongoUri, Some appUrl =>
        if negb (Js.includes mongoUri "mongodb")
        then Throw (Error "MONGO_URI must be a valid MongoDB connection string")
        else if negb (urlParses appUrl)
        then Throw (Error "NEXT_PUBLIC_APP_URL must be a valid URL")
        else Ok tt
    | _, _ =>
        (* not reached: a variable that is not missing is set *)
        Throw (TypeError "Cannot read properties of undefined")
    end.


End EnvValidator.

(* ================================================================== *)
(** * Properties *)
(* ================================================================== *)

(** ** Strings and arrays *)

Lemma chars_str (l : list ascii) : Js.chars (Js.str l) = l.
Proof. apply list_ascii_of_string_of_list_ascii. Qed.

Lemma str_chars (s : string) : Js.str (Js.chars s) = s.
Proof. apply string_of_list_ascii_of_string. Qed.

Lemma chars_append (a b : string) :
  Js.chars (a ++ b) = (Js.chars a ++ Js.chars b)%list.
Proof.
  induction a as [|c a IH]; simpl; [reflexivity|].
  unfold Js.chars in *. simpl. now rewrite IH.
Qed.

Lemma chars_length (s : string) : List.length (Js.chars s) = String.length s.
Proof.
  induction s as [|c s IH]; simpl; [reflexivity|].
  unfold Js.chars in *. simpl. now rewrite IH.
Qed.

Lemma prefixL_app (p l : list ascii) : Js.prefixL p (p ++ l) = true.
Proof.
  induction p as [|a p IH]; simpl; [reflexivity|].
  now rewrite Ascii.eqb_refl, IH.
Qed.

Lemma prefixL_split (p l : list ascii) :
  Js.prefixL p l = true -> exists r, l = (p ++ r)%list.
Proof.
  revert l; induction p as [|a p IH]; intros l H.
  - exists l; reflexivity.
  - destruct l as [|b l]; simpl in H; [discriminate|].
    apply andb_true_iff in H as [Hab Hp].
    apply Ascii.eqb_eq in Hab; subst b.
    destruct (IH _ Hp) as [r ->]. exists r; reflexivity.
Qed.

Lemma prefixL_In (p l : list ascii) (c : ascii) :
  Js.prefixL p l = true -> In c p -> In c l.
Proof.
  intros H Hc. destruct (prefixL_split _ _ H) as [r ->].
  apply in_or_app; now left.
Qed.

Lemma includesL_In (needle hay : list ascii) (c : ascii) :
  Js.includesL needle hay = true -> In c needle -> In c hay.
Proof.
  induction hay as [|h hay IH]; simpl; intros H Hc.
  - rewrite orb_false_r in H. destruct needle; [destruct Hc | discriminate].
  - apply orb_true_iff in H as [H|H].
    + exact (prefixL_In _ _ _ H Hc).
    + right; auto.
Qed.

Lemma substringL_from_0 (l : list ascii) (n : Z) :
  0 <= n -> Js.substringL l 0 n = firstn (Z.to_nat n) l.
Proof.
  intros Hn. unfold Js.substringL, Js.clamp.
  set (len := Z.of_nat (List.length l)).
  assert (Hlen : 0 <= len) by (unfold len; lia).
  replace (Z.min (Z.max 0 (Z.min 0 len)) (Z.max 0 (Z.min n len))) with 0 by lia.
  replace (Z.max (Z.max 0 (Z.min 0 len)) (Z.max 0 (Z.min n len)) - 0)
    with (Z.min n len) by lia.
  simpl. destruct (Z.le_ge_cases n len) as [H|H].
  - now rewrite Z.min_l.
  - rewrite Z.min_r by lia. unfold len. rewrite Nat2Z.id.
    rewrite firstn_all. symmetry. apply firstn_all2. lia.
Qed.

(** ** The two replacements of the sanitizers *)

Lemma safeChar_not_slash : safeChar "/" = false.
Proof. reflexivity. Qed.

Lemma replaceUnsafe_safe (l : list ascii) :
  Forall (fun c => safeChar c = true) (replaceUnsafe l).
Proof.
  induction l as [|c l IH]; simpl; constructor; auto.
  destruct (safeChar c) eqn:E; [exact E | reflexivity].
Qed.

Lemma replaceUnsafe_length (l : list ascii) :
  List.length (replaceUnsafe l) = List.length l.
Proof. apply length_map. Qed.

Lemma replaceUnsafe_fixed (l : list ascii) :
  Forall (fun c => safeChar c = true) l -> replaceUnsafe l = l.
Proof.
  induction 1 as [|c l Hc _ IH]; simpl; [reflexivity|].
  now rewrite Hc, IH.
Qed.

Lemma stripTraversal_fixed (l : list ascii) :
  ~ In "/"%char l -> stripTraversal l = l.
Proof.
  induction l as [|c l IH]; intros Hn; [reflexivity|].
  assert (Hl : ~ In "/"%char l) by (intros H; apply Hn; now right).
  simpl. destruct l as [|d [|s r]]; try (now rewrite (IH Hl)).
  destruct (Ascii.eqb s "/") eqn:E.
  - apply Ascii.eqb_eq in E; subst s. exfalso; apply Hn; simpl; auto.
  - rewrite andb_false_r. now rewrite (IH Hl).
Qed.

Lemma safe_no_slash (l : list ascii) :
  Forall (fun c => safeChar c = true) l -> ~ In "/"%char l.
Proof.
  intros H Hin. rewrite Forall_forall in H. specialize (H _ Hin).
  rewrite safeChar_not_slash in H. discriminate.
Qed.

Lemma prefixL_traversal (c d s : ascii) (r : list ascii) :
  Js.prefixL (Js.chars "../") (c :: d :: s :: r)
  = Ascii.eqb c "." && Ascii.eqb d "." && Ascii.eqb s "/".
Proof.
  change (Js.chars "../") with ["."%char; "."%char; "/"%char].
  cbn [Js.prefixL].
  rewrite (Ascii.eqb_sym "."%char c), (Ascii.eqb_sym "."%char d),
    (Ascii.eqb_sym "/"%char s).
  now rewrite andb_true_r, andb_assoc.
Qed.

(** The left-to-right pass: a name without [../] is kept, and the first
    [../] of a name is dropped with the pass resuming behind it. *)
Lemma stripTraversal_none (l : list ascii) :
  Js.includesL (Js.chars "../") l = false -> stripTraversal l = l.
Proof.
  induction l as [|c l IH]; intros H; [reflexivity|].
  cbn [Js.includesL] in H. apply orb_false_iff in H as [Hp Hi].
  specialize (IH Hi).
  cbn [stripTraversal]. destruct l as [|d [|s r]]; try (now rewrite IH).
  rewrite prefixL_traversal in Hp. rewrite Hp. now rewrite IH.
Qed.

Lemma stripTraversal_first (a b : list ascii) :
  Js.includesL (Js.chars "../") a = false ->
  stripTraversal (a ++ Js.chars "../" ++ b) = (a ++ stripTraversal b)%list.
Proof.
  change (Js.chars "../") with ["."%char; "."%char; "/"%char].
  induction a as [|c a IH]; intros H.
  - reflexivity.
  - cbn [Js.includesL] in H. apply orb_false_iff in H as [Hp Hi].
    specialize (IH Hi).
    cbn [app] in *. cbn [stripTraversal].
    destruct a as [|d [|s r]]; cbn [app] in *.
    + change (Ascii.eqb "." "/") with false.
      rewrite andb_false_r. now rewrite IH.
    + change (Ascii.eqb "." "/") with false.
      rewrite andb_false_r. now rewrite IH.
    + change ["."%char; "."%char; "/"%char] with (Js.chars "../") in Hp.
      rewrite prefixL_traversal in Hp. rewrite Hp. now rewrite IH.
Qed.

Lemma lastIndexOfL_range (c : ascii) (l : list ascii) :
  -1 <= Js.lastIndexOfL c l < Z.of_nat (List.length l).
Proof.
  induction l as [|x l IH]; cbn [Js.lastIndexOfL List.length]; [lia|].
  destruct (0 <=? Js.lastIndexOfL c l) eqn:E; [apply Z.leb_le in E; lia|].
  destruct (Ascii.eqb x c); lia.
Qed.

Lemma lastIndexOfL_nth (c : ascii) (l : list ascii) :
  0 <= Js.lastIndexOfL c l ->
  nth_error l (Z.to_nat (Js.lastIndexOfL c l)) = Some c.
Proof.
  induction l as [|x l IH]; cbn [Js.lastIndexOfL]; [lia|].
  destruct (0 <=? Js.lastIndexOfL c l) eqn:E.
  - apply Z.leb_le in E. intros _.
    replace (Z.to_nat (Js.lastIndexOfL c l + 1))
      with (S (Z.to_nat (Js.lastIndexOfL c l))) by lia.
    simpl. auto.
  - destruct (Ascii.eqb x c) eqn:Ex; [|lia].
    intros _. apply Ascii.eqb_eq in Ex. subst x. reflexivity.
Qed.

Lemma substringFromL_skipn (l : list ascii) (k : Z) :
  0 <= k <= Z.of_nat (List.length l) ->
  Js.substringFromL l k = skipn (Z.to_nat k) l.
Proof.
  intros Hk. unfold Js.substringFromL, Js.substringL, Js.clamp.
  set (len := Z.of_nat (List.length l)) in *.
  replace (Z.min (Z.max 0 (Z.min k len)) (Z.max 0 (Z.min len len))) with k by lia.
  replace (Z.max (Z.max 0 (Z.min k len)) (Z.max 0 (Z.min len len)) - k)
    with (len - k) by lia.
  apply firstn_all2. rewrite length_skipn. unfold len. lia.
Qed.

Lemma endsWith_app (h e : list ascii) :
  Js.endsWith (Js.str (h ++ e)) (Js.str e) = true.
Proof.
  unfold Js.endsWith. rewrite !chars_str, rev_app_distr. apply prefixL_app.
Qed.

(** ** [sanitizeFilename] of [validation.js] *)

Lemma sanitizeFilename_chars (x : string) :
  Js.chars (Validation.sanitizeFilename x)
  = firstn 100 (replaceUnsafe (stripTraversal (Js.chars x))).
Proof.
  unfold Validation.sanitizeFilename.
  rewrite chars_str, substringL_from_0 by lia. reflexivity.
Qed.

Lemma Forall_firstn_safe (n : nat) (l : list ascii) :
  Forall (fun c => safeChar c = true) l ->
  Forall (fun c => safeChar c = true) (firstn n l).
Proof.
  intros H. rewrite Forall_forall in *. intros c Hc. apply H.
  rewrite <- (firstn_skipn n l). apply in_or_app; now left.
Qed.

Lemma sanitizeFilename_safe (x : string) :
  Forall (fun c => safeChar c = true) (Js.chars (Validation.sanitizeFilename x)).
Proof.
  rewrite sanitizeFilename_chars. apply Forall_firstn_safe, replaceUnsafe_safe.
Qed.

Lemma sanitizeFilename_length (x : string) :
  (String.length (Validation.sanitizeFilename x) <= 100)%nat.
Proof.
  rewrite <- chars_length, sanitizeFilename_chars. apply firstn_le_length.
Qed.

Lemma sanitizeFilename_fixed (y : string) :
  Forall (fun c => safeChar c = true) (Js.chars y) ->
  (String.length y <= 100)%nat ->
  Validation.sanitizeFilename y = y.
Proof.
  intros Hsafe Hlen.
  rewrite <- (str_chars (Validation.sanitizeFilename y)), sanitizeFilename_chars.
  rewrite stripTraversal_fixed by now apply safe_no_slash.
  rewrite replaceUnsafe_fixed by assumption.
  rewrite firstn_all2 by (rewrite chars_length; lia).
  apply str_chars.
Qed.

Lemma safe_excludes (y needle : string) :
  Forall (fun c => safeChar c = true) (Js.chars y) ->
  In "/"%char (Js.chars needle) ->
  Js.includes y needle = false.
Proof.
  intros Hsafe Hin. unfold Js.includes.
  destruct (Js.includesL (Js.chars needle) (Js.chars y)) eqn:E; [|reflexivity].
  exfalso. eapply safe_no_slash; [exact Hsafe|].
  eapply includesL_In; eauto.
Qed.

(** A name of 104 characters: a hundred [a]s and the extension [.pdf]. *)
Definition longPdfName : string := Js.str (List.repeat "a"%char 100) ++ ".pdf".

(** C3, as stated, fails: a [..] that no [/] follows is kept, and the single
    pass leaves one behind on [....//]. *)
Lemma sanitizeFilename_keeps_dot_dot :
  Js.includes (Validation.sanitizeFilename "..") ".." = true /\
  Validation.sanitizeFilename "report..pdf" = "report..pdf" /\
  Validation.sanitizeFilename "....//etc" = ".._etc".
Proof. repeat split; reflexivity. Qed.

(** C3 (amended): [sanitizeFilename] of [validation.js] is idempotent, and
    its output never contains [/], never contains [../], holds only
    characters of [[A-Za-z0-9._-]] and has at most 100 characters. *)
Theorem sanitizeFilename_idempotent_safe (x : string) :
  Validation.sanitizeFilename (Validation.sanitizeFilename x)
  = Validation.sanitizeFilename x /\
  Js.includes (Validation.sanitizeFilename x) "/" = false /\
  Js.includes (Validation.sanitizeFilename x) "../" = false /\
  Forall (fun c => safeChar c = true) (Js.chars (Validation.sanitizeFilename x)) /\
  (String.length (Validation.sanitizeFilename x) <= 100)%nat.
Proof.
  pose proof (sanitizeFilename_safe x) as Hsafe.
  pose proof (sanitizeFilename_length x) as Hlen.
  repeat split; auto.
  - now apply sanitizeFilename_fixed.
  - apply safe_excludes; [assumption | simpl; auto].
  - apply safe_excludes; [assumption | simpl; auto].
Qed.

(** C4: on a name of a hundred [a]s followed by [.pdf], which needs no
    other change, [sanitizeFilename] of [validation.js] returns the
    hundred [a]s: the name is cut at 100 characters and the extension is
    lost.  [sanitizeFileName] of [fileValidation] returns, for the same
    name, 100 characters that end with [.pdf]. *)
Theorem sanitizeFilename_drops_extension :
  Js.endsWith longPdfName ".pdf" = true /\
  Validation.sanitizeFilename longPdfName = Js.str (List.repeat "a"%char 100) /\
  Js.endsWith (Validation.sanitizeFilename longPdfName) ".pdf" = false /\
  FileValidation.sanitizeFileName longPdfName
  = Js.str (List.repeat "a"%char 96) ++ ".pdf" /\
  Js.endsWith (FileValidation.sanitizeFileName longPdfName) ".pdf" = true.
Proof. repeat split; vm_compute; reflexivity. Qed.

(** What the two sanitizers do: both drop, in one pass from the left, every
    [../] and then put [_] for every character outside [[A-Za-z0-9._-]].
    [sanitizeFilename] of [validation.js] keeps the first 100 characters of
    the result.  [sanitizeFileName] of [fileValidation] returns a result of
    at most 100 characters as it is and, when the result is longer and the
    part from its last [.] on has at most 100 characters, returns exactly
    100 characters that end with that part. *)
Lemma sanitizers_shape (x : string) :
  let stripped := stripTraversal (Js.chars x) in
  let clean := replaceUnsafe stripped in
  let ext := skipn (Z.to_nat (Js.lastIndexOfL "." clean)) clean in
  (Js.includesL (Js.chars "../") (Js.chars x) = false -> stripped = Js.chars x) /\
  (forall a b, Js.includesL (Js.chars "../") a = false ->
     Js.chars x = (a ++ Js.chars "../" ++ b)%list ->
     stripped = (a ++ stripTraversal b)%list) /\
  (forall i c, nth_error stripped i = Some c ->
     nth_error clean i = Some (if safeChar c then c else "_"%char)) /\
  List.length clean = List.length stripped /\
  Js.chars (Validation.sanitizeFilename x) = firstn 100 clean /\
  ((List.length clean <= 100)%nat ->
     Js.chars (FileValidation.sanitizeFileName x) = clean) /\
  ((List.length clean > 100)%nat ->
   0 <= Js.lastIndexOfL "." clean ->
   (List.length ext <= 100)%nat ->
     hd_error ext = Some "."%char /\
     Js.chars (FileValidation.sanitizeFileName x)
       = (firstn (100 - List.length ext) clean ++ ext)%list /\
     String.length (FileValidation.sanitizeFileName x) = 100%nat /\
     Js.endsWith (FileValidation.sanitizeFileName x) (Js.str ext) = true).
Proof.
  intros stripped clean ext.
  split; [apply stripTraversal_none|].
  split; [intros a b Ha Hx; unfold stripped; rewrite Hx; now apply stripTraversal_first|].
  split; [intros i c Hi; unfold clean, replaceUnsafe;
          rewrite nth_error_map, Hi; reflexivity|].
  split; [apply replaceUnsafe_length|].
  split; [apply sanitizeFilename_chars|].
  unfold FileValidation.sanitizeFileName, FileValidation.sanitizeFileNameL.
  fold stripped. fold clean.
  split.
  - intros Hle. rewrite chars_str.
    destruct (Z.of_nat (List.length clean) >? 100) eqn:E; [|reflexivity].
    apply Z.gtb_lt in E. lia.
  - intros Hgt Hk Hext.
    pose proof (lastIndexOfL_range "." clean) as Hr.
    assert (E : (Z.of_nat (List.length clean) >? 100) = true)
      by (apply Z.gtb_lt; lia).
    rewrite E.
    rewrite substringFromL_skipn by lia. fold ext.
    rewrite substringL_from_0 by lia.
    replace (Z.to_nat (100 - Z.of_nat (List.length ext)))
      with (100 - List.length ext)%nat by lia.
    assert (Hout : Js.chars (Js.str (firstn (100 - List.length ext) clean ++ ext))
                   = (firstn (100 - List.length ext) clean ++ ext)%list)
      by apply chars_str.
    split; [|split; [exact Hout|split]].
    + unfold ext. rewrite hd_error_skipn. now apply lastIndexOfL_nth.
    + rewrite <- chars_length, Hout, length_app, length_firstn. lia.
    + apply endsWith_app.
Qed.

Lemma sanitizers_shape_longPdfName :
  String.length (FileValidation.sanitizeFileName longPdfName) = 100%nat /\
  Js.endsWith (FileValidation.sanitizeFileName longPdfName) ".pdf" = true.
Proof.
  destruct (sanitizers_shape longPdfName) as (_ & _ & _ & _ & _ & _ & H).
  destruct H as (_ & _ & Hlen & Hends);
    [vm_compute; lia | vm_compute; discriminate | vm_compute; lia |].
  split; [exact Hlen | exact Hends].
Qed.

(** ** [validateFile] of [validation.js], step by step *)

(** A result that is a valid validation, a result that is an invalid one
    (neither holds of a throw), and a signature check that returned
    [true]. *)
Definition accepts (r : Result Validation) : bool :=
  match r with
  | Ok v => valid v
  | Throw _ => false
  end.

Definition refuses (r : Result Validation) : bool :=
  match r with
  | Ok v => negb (valid v)
  | Throw _ => false
  end.

Definition passes (r : Result bool) : bool :=
  match r with
  | Ok b => b
  | Throw _ => false
  end.

Lemma accepts_Ok (r : Result Validation) :
  accepts r = true <-> exists v, r = Ok v /\ valid v = true.
Proof.
  destruct r as [v|e]; cbn [accepts].
  - split; [intros H; now exists v | now intros (v' & [= <-] & H)].
  - split; [discriminate | now intros (v' & [=] & _)].
Qed.

Lemma lookup_cases {A} (table : list (string * A)) (key : string) :
  (exists a, In (key, a) table /\ Js.lookup table key = Js.Own a) \/
  (In key Js.objectPrototypeKeys /\ Js.lookup table key = Js.Inherited) \/
  (~ In key Js.objectPrototypeKeys /\ Js.lookup table key = Js.Undefined).
Proof.
  unfold Js.lookup.
  destruct (find (fun entry => String.eqb (fst entry) key) table) as [[k a]|] eqn:E.
  - left. exists a. apply find_some in E as [Hin Hk]. cbn [fst snd] in *.
    apply String.eqb_eq in Hk. subst k. auto.
  - right. destruct (Js.arrayIncludes Js.objectPrototypeKeys key) eqn:Ek.
    + left. split; [|reflexivity].
      unfold Js.arrayIncludes in Ek. apply existsb_exists in Ek as (x & Hx & Ex).
      apply String.eqb_eq in Ex. now subst x.
    + right. split; [|reflexivity]. intros Hin.
      assert (Js.arrayIncludes Js.objectPrototypeKeys key = true).
      { unfold Js.arrayIncludes. apply existsb_exists. exists key.
        split; [exact Hin | apply String.eqb_refl]. }
      congruence.
Qed.

Lemma validateFile_steps (file : File) (category : string) :
  accepts (Validation.validateFile (FVFile file) category)
  = negb (Validation.containsExternalUrl (name file))
    && accepts (Validation.validateMimeType file category)
    && valid (Validation.validateFileSize file category)
    && passes (Validation.validateFileSignature (arrayBuffer file) (type file)).
Proof.
  unfold Validation.validateFile.
  destruct (Validation.containsExternalUrl (name file)); [reflexivity|].
  destruct (Validation.validateMimeType file category) as [mimeValidation|e];
    [|reflexivity].
  cbn [accepts negb andb].
  destruct (valid mimeValidation) eqn:Em; cbn [negb andb accepts]; [|exact Em].
  destruct (valid (Validation.validateFileSize file category)) eqn:Es;
    cbn [negb andb accepts]; [|exact Es].
  destruct (Validation.validateFileSignature (arrayBuffer file) (type file))
    as [[|]|e]; reflexivity.
Qed.

(** Where no check throws, a file that is not accepted is answered with an
    invalid result. *)
Lemma validateFile_refuses (file : File) (category : string) :
  Validation.ALLOWED_MIME_TYPES category <> Js.Inherited ->
  FILE_SIGNATURES (type file) <> Js.Inherited ->
  refuses (Validation.validateFile (FVFile file) category)
  = negb (accepts (Validation.validateFile (FVFile file) category)).
Proof.
  intros Hm Hs. unfold Validation.validateFile.
  destruct (Validation.containsExternalUrl (name file)); [reflexivity|].
  unfold Validation.validateMimeType.
  destruct (Validation.ALLOWED_MIME_TYPES category) as [allowed| |];
    [|congruence|reflexivity].
  destruct (Js.arrayIncludes allowed (type file)); cbn [negb valid invalid];
    [|reflexivity].
  destruct (valid (Validation.validateFileSize file category)) eqn:Es;
    cbn [negb refuses accepts]; [|now rewrite Es].
  unfold Validation.validateFileSignature.
  destruct (FILE_SIGNATURES (type file)) as [signatures| |];
    [|congruence|reflexivity].
  destruct (Js.some _ signatures); reflexivity.
Qed.

Lemma size_limits (category : string) (maxSize : Z) :
  Validation.FILE_SIZE_LIMITS category = Js.Own maxSize ->
  category = "IMAGE" /\ maxSize = 5 * 1024 * 1024 \/
  category = "PDF" /\ maxSize = 10 * 1024 * 1024.
Proof.
  unfold Validation.FILE_SIZE_LIMITS. intros H.
  destruct (lookup_cases [("IMAGE", 5 * 1024 * 1024); ("PDF", 10 * 1024 * 1024)]
              category) as [(a & Hin & E)|[[_ E]|[_ E]]]; rewrite E in H;
    try discriminate.
  injection H as <-.
  destruct Hin as [[= <- <-]|[[= <- <-]|[]]]; auto.
Qed.

Lemma validateFileSize_valid (file : File) (category : string) (maxSize : Z) :
  Validation.FILE_SIZE_LIMITS category = Js.Own maxSize ->
  valid (Validation.validateFileSize file category)
  = negb (size file =? 0) && negb (size file >? maxSize).
Proof.
  intros H. unfold Validation.validateFileSize. rewrite H.
  destruct (size file =? 0); [reflexivity|].
  destruct (size file >? maxSize); reflexivity.
Qed.

Lemma validateFileSize_empty (file : File) (category : string) :
  size file = 0 -> valid (Validation.validateFileSize file category) = false.
Proof.
  intros H. unfold Validation.validateFileSize.
  destruct (Validation.FILE_SIZE_LIMITS category); rewrite ?H; reflexivity.
Qed.

(** The two tables of [validation.js] have the same keys. *)
Lemma limit_has_allow_list (category : string) (maxSize : Z) :
  Validation.FILE_SIZE_LIMITS category = Js.Own maxSize ->
  exists allowed, Validation.ALLOWED_MIME_TYPES category = Js.Own allowed.
Proof.
  intros H. destruct (size_limits _ _ H) as [[-> _]|[-> _]]; eexists; reflexivity.
Qed.

(** A file stopped by the size check is answered with an invalid result
    unless [validateMimeType] throws. *)
Lemma validateFile_size_refused (file : File) (category : string) :
  valid (Validation.validateFileSize file category) = false ->
  accepts (Validation.validateFile (FVFile file) category) = false /\
  (Validation.ALLOWED_MIME_TYPES category <> Js.Inherited ->
   refuses (Validation.validateFile (FVFile file) category) = true).
Proof.
  intros Hs. split.
  - rewrite validateFile_steps, Hs. now rewrite andb_false_r.
  - intros Hm. unfold Validation.validateFile.
    destruct (Validation.containsExternalUrl (name file)); [reflexivity|].
    unfold Validation.validateMimeType.
    destruct (Validation.ALLOWED_MIME_TYPES category) as [allowed| |];
      [|congruence|reflexivity].
    destruct (Js.arrayIncludes allowed (type file)); cbn [negb valid invalid];
      [|reflexivity].
    rewrite Hs. cbn [negb refuses]. now rewrite Hs.
Qed.

(** The categories for which [ALLOWED_MIME_TYPES[category]] is a property
    inherited from [Object.prototype]. *)
Lemma ALLOWED_MIME_TYPES_inherited (category : string) :
  Validation.ALLOWED_MIME_TYPES category = Js.Inherited <->
  In category Js.objectPrototypeKeys.
Proof.
  unfold Validation.ALLOWED_MIME_TYPES.
  destruct (lookup_cases [("IMAGE", ["image/jpeg"; "image/png"; "image/webp"]);
                          ("PDF", ["application/pdf"])] category)
    as [(a & Hin & E)|[[Hk E]|[Hk E]]]; rewrite E.
  - split; [discriminate|]. intros Hk. exfalso.
    destruct Hin as [[= <- _]|[[= <- _]|[]]]; cbn in Hk;
      repeat (destruct Hk as [Hk|Hk]; [discriminate|]); exact Hk.
  - tauto.
  - split; [discriminate | contradiction].
Qed.

Lemma validateFile_throws (file : File) (category : string) :
  In category Js.objectPrototypeKeys ->
  Validation.containsExternalUrl (name file) = false ->
  Validation.validateFile (FVFile file) category
  = Throw (TypeError "allowedTypes.includes is not a function").
Proof.
  intros Hk Hurl. apply ALLOWED_MIME_TYPES_inherited in Hk.
  unfold Validation.validateFile, Validation.validateMimeType.
  now rewrite Hurl, Hk.
Qed.

(** C2: the size check answers a file of size 0 with an invalid result
    whatever the category, and [validateFile] never accepts such a file: it
    returns an invalid result for it under IMAGE, under PDF and under every
    other category that is no property name of [Object.prototype], and
    under such a name it throws (or refuses the name of the file).  Under a
    category with a ceiling (5 MiB for IMAGE, 10 MiB for PDF) a file above
    the ceiling is answered with an invalid result by both, a file of
    exactly the ceiling passes the size check (and is accepted exactly when
    the other checks pass), and one byte more fails. *)
Theorem validate_size_ceiling (file : File) (category : string) :
  (size file = 0 ->
     valid (Validation.validateFileSize file category) = false /\
     accepts (Validation.validateFile (FVFile file) category) = false /\
     (category = "IMAGE" \/ category = "PDF" \/
      ~ In category Js.objectPrototypeKeys ->
      refuses (Validation.validateFile (FVFile file) category) = true) /\
     (In category Js.objectPrototypeKeys ->
      Validation.containsExternalUrl (name file) = false ->
      Validation.validateFile (FVFile file) category
      = Throw (TypeError "allowedTypes.includes is not a function"))) /\
  (forall maxSize, Validation.FILE_SIZE_LIMITS category = Js.Own maxSize ->
     (category = "IMAGE" /\ maxSize = 5 * 1024 * 1024 \/
      category = "PDF" /\ maxSize = 10 * 1024 * 1024) /\
     (size file > maxSize ->
        valid (Validation.validateFileSize file category) = false /\
        refuses (Validation.validateFile (FVFile file) category) = true) /\
     (size file = maxSize ->
        valid (Validation.validateFileSize file category) = true /\
        accepts (Validation.validateFile (FVFile file) category)
        = negb (Validation.containsExternalUrl (name file))
          && accepts (Validation.validateMimeType file category)
          && passes (Validation.validateFileSignature (arrayBuffer file)
                       (type file))) /\
     (size file = maxSize + 1 ->
        valid (Validation.validateFileSize file category) = false /\
        refuses (Validation.validateFile (FVFile file) category) = true)).
Proof.
  split.
  - intros H0. pose proof (validateFileSize_empty file category H0) as Hs.
    destruct (validateFile_size_refused file category Hs) as [Hacc Href].
    split; [exact Hs|]. split; [exact Hacc|].
    split; [|apply validateFile_throws].
    intros [-> | [-> | Hm]]; apply Href; [discriminate | discriminate |].
    now rewrite ALLOWED_MIME_TYPES_inherited.
  - intros maxSize Hmax.
    pose proof (size_limits _ _ Hmax) as Hcases.
    pose proof (validateFileSize_valid file _ _ Hmax) as Hsize.
    destruct (limit_has_allow_list _ _ Hmax) as [allowed Hallowed].
    assert (Hpos : 0 < maxSize) by (destruct Hcases as [[_ ->]|[_ ->]]; lia).
    assert (Hover : size file > maxSize ->
              valid (Validation.validateFileSize file category) = false /\
              refuses (Validation.validateFile (FVFile file) category) = true).
    { intros Hgt.
      assert (Hs : valid (Validation.validateFileSize file category) = false).
      { rewrite Hsize. replace (size file >? maxSize) with true
          by (symmetry; apply Z.gtb_lt; lia).
        now rewrite andb_false_r. }
      split; [exact Hs|].
      apply (validateFile_size_refused file category Hs). congruence. }
    split; [exact Hcases|]. split; [exact Hover|]. split.
    + intros Heq.
      assert (Hs : valid (Validation.validateFileSize file category) = true).
      { rewrite Hsize, Heq.
        replace (maxSize =? 0) with false by (symmetry; apply Z.eqb_neq; lia).
        replace (maxSize >? maxSize) with false
          by (symmetry; rewrite Z.gtb_ltb; apply Z.ltb_ge; lia).
        reflexivity. }
      split; [exact Hs|]. rewrite validateFile_steps, Hs.
      now rewrite andb_true_r.
    + intros Heq. apply Hover. lia.
Qed.

(** A PNG of [n] bytes: the signature, then zeros. *)
Definition pngOfSize (n : Z) : File :=
  mkFile "me.png" "image/png" n
    ([0x89; 0x50; 0x4E; 0x47] ++ List.repeat 0 (Z.to_nat (n - 4))).

Lemma pngOfSize_wellFormed (n : Z) : 4 <= n -> wellFormedFile (pngOfSize n).
Proof.
  intros Hn. unfold wellFormedFile, pngOfSize. cbn [size arrayBuffer].
  rewrite length_app, repeat_length. cbn [List.length]. lia.
Qed.

(** A PNG of exactly 5 MiB is valid under IMAGE, one byte more is not, and
    an empty PDF is not valid under PDF. *)
Lemma validate_size_ceiling_witness :
  (wellFormedFile (pngOfSize (5 * 1024 * 1024)) /\
   accepts (Validation.validateFile (FVFile (pngOfSize (5 * 1024 * 1024))) "IMAGE")
   = true) /\
  (wellFormedFile (pngOfSize (5 * 1024 * 1024 + 1)) /\
   refuses (Validation.validateFile (FVFile (pngOfSize (5 * 1024 * 1024 + 1)))
              "IMAGE")
   = true) /\
  refuses (Validation.validateFile
             (FVFile (mkFile "cv.pdf" "application/pdf" 0 [])) "PDF") = true.
Proof.
  split; [|split].
  - split; [apply pngOfSize_wellFormed; lia|].
    destruct (validate_size_ceiling (pngOfSize (5 * 1024 * 1024)) "IMAGE")
      as [_ H].
    destruct (H (5 * 1024 * 1024) eq_refl) as (_ & _ & Hat & _).
    rewrite (proj2 (Hat eq_refl)). reflexivity.
  - split; [apply pngOfSize_wellFormed; lia|].
    destruct (validate_size_ceiling (pngOfSize (5 * 1024 * 1024 + 1)) "IMAGE")
      as [_ H].
    destruct (H (5 * 1024 * 1024) eq_refl) as (_ & _ & _ & Hover).
    exact (proj2 (Hover eq_refl)).
  - destruct (validate_size_ceiling (mkFile "cv.pdf" "application/pdf" 0 []) "PDF")
      as [H _].
    destruct (H eq_refl) as (_ & _ & Href & _). apply Href. right; left. reflexivity.
Defined.

(** ** The MIME allow-lists *)

Lemma arrayIncludes_In (xs : list string) (x : string) :
  Js.arrayIncludes xs x = true <-> In x xs.
Proof.
  unfold Js.arrayIncludes. rewrite existsb_exists. split.
  - intros (y & Hy & E). apply String.eqb_eq in E. now subst y.
  - intros H. exists x. split; [exact H | apply String.eqb_refl].
Qed.

Lemma validateMimeType_valid (file : File) (category : string) (allowed : list string) :
  Validation.ALLOWED_MIME_TYPES category = Js.Own allowed ->
  accepts (Validation.validateMimeType file category)
  = Js.arrayIncludes allowed (type file).
Proof.
  intros H. unfold Validation.validateMimeType. rewrite H.
  destruct (Js.arrayIncludes allowed (type file)); reflexivity.
Qed.


Lemma validateFileType_valid (file : File) (category : string)
    (config : FileValidation.Config) :
  FileValidation.FILE_CONFIG category = Js.Own config ->
  accepts (FileValidation.validateFileType file category)
  = Js.arrayIncludes (FileValidation.allowedTypes config) (type file)
    && Js.some (fun ext => Js.endsWith (Js.toLowerCase (name file)) ext)
         (FileValidation.allowedExtensions config).
Proof.
  intros H. unfold FileValidation.validateFileType. rewrite H.
  destruct (Js.arrayIncludes (FileValidation.allowedTypes config) (type file));
    [|reflexivity].
  cbn [negb andb].
  destruct (Js.some _ (FileValidation.allowedExtensions config)); reflexivity.
Qed.




(** ** Byte signatures *)

(** The signature table in the words of the specification. *)
Definition knownSignature (mimeType : string) (signature : list Z) : Prop :=
  (mimeType = "image/jpeg" /\ signature = [0xFF; 0xD8; 0xFF]) \/
  (mimeType = "image/png" /\ signature = [0x89; 0x50; 0x4E; 0x47]) \/
  (mimeType = "image/webp" /\ signature = [0x52; 0x49; 0x46; 0x46]) \/
  (mimeType = "application/pdf" /\ signature = [0x25; 0x50; 0x44; 0x46]).

Lemma knownSignature_table (mimeType : string) (signature : list Z) :
  knownSignature mimeType signature ->
  FILE_SIGNATURES mimeType = Js.Own [signature].
Proof.
  intros [[-> ->]|[[-> ->]|[[-> ->]|[-> ->]]]]; reflexivity.
Qed.

Lemma everyFrom_prefix (uint8Array signature : list Z) (i : nat) :
  Js.everyFrom (fun byte index =>
                  match nth_error uint8Array index with
                  | Some b => b =? byte
                  | None => false
                  end) i signature = true <->
  firstn (List.length signature) (skipn i uint8Array) = signature.
Proof.
  revert i. induction signature as [|byte signature IH]; intros i.
  - simpl. tauto.
  - cbn [Js.everyFrom List.length]. rewrite andb_true_iff, IH.
    rewrite <- (hd_error_skipn i uint8Array).
    change (S i) with (1 + i)%nat.
    rewrite <- (skipn_skipn 1 i uint8Array).
    destruct (skipn i uint8Array) as [|b rest]; simpl.
    + split; [intros [H _]; discriminate | discriminate].
    + rewrite Z.eqb_eq. split.
      * intros [-> ->]. reflexivity.
      * intros [= -> ->]. split; reflexivity.
Qed.

Lemma signatureMatches_prefix (uint8Array signature : list Z) :
  signatureMatches uint8Array signature = true <->
  firstn (List.length signature) uint8Array = signature.
Proof. apply (everyFrom_prefix uint8Array signature 0). Qed.

(** A file named [me.jpg] and declared [image/jpeg] that holds [n] bytes
    of a PNG. *)
Definition pngNamedJpeg (n : Z) : File :=
  mkFile "me.jpg" "image/jpeg" n (arrayBuffer (pngOfSize n)).

(** C6, as stated, fails: a PNG of 5 MiB and one byte that is named
    [me.jpg] and declared [image/jpeg] passes the name and MIME-type checks
    and does not start with FF D8 FF, yet the message is that of the size
    check, which runs before the signature check; likewise for an empty
    file. *)
Lemma validate_oversize_file_message :
  let file := pngNamedJpeg (5 * 1024 * 1024 + 1) in
  let empty := mkFile "me.jpg" "image/jpeg" 0 [] in
  knownSignature (type file) [0xFF; 0xD8; 0xFF] /\
  (wellFormedFile file /\
   firstn 3 (arrayBuffer file) <> [0xFF; 0xD8; 0xFF] /\
   Validation.validateMimeType file "IMAGE" = Ok (mkValidation true None None None) /\
   Validation.validateFile (FVFile file) "IMAGE"
   = Ok (invalid "File size 5.00MB exceeds limit of 5MB")) /\
  (wellFormedFile empty /\
   firstn 3 (arrayBuffer empty) <> [0xFF; 0xD8; 0xFF] /\
   Validation.validateFile (FVFile empty) "IMAGE" = Ok (invalid "File is empty")).
Proof.
  cbv zeta. split; [left; split; reflexivity|]. split.
  - split; [apply (pngOfSize_wellFormed (5 * 1024 * 1024 + 1)); lia|].
    split; [discriminate|]. split; reflexivity.
  - split; [reflexivity|]. split; [discriminate | reflexivity].
Qed.

(** C6 (amended): when the leading bytes of a file are not the signature
    of its declared MIME type (JPEG FF D8 FF, PNG 89 50 4E 47, WEBP 52 49
    46 46, PDF 25 50 44 46), [validateFile] accepts it under no category:
    it returns an invalid result under IMAGE, under PDF and under every
    other category that is no property name of [Object.prototype], and
    under such a name it throws (or refuses the name of the file); and when
    the checks that run before the signature check (name, MIME type, size)
    pass, the error is the content-mismatch message. *)
Theorem validate_signature_mismatch (file : File) (category : string)
    (signature : list Z) :
  knownSignature (type file) signature ->
  firstn (List.length signature) (arrayBuffer file) <> signature ->
  accepts (Validation.validateFile (FVFile file) category) = false /\
  (category = "IMAGE" \/ category = "PDF" \/
   ~ In category Js.objectPrototypeKeys ->
   refuses (Validation.validateFile (FVFile file) category) = true) /\
  (In category Js.objectPrototypeKeys ->
   Validation.containsExternalUrl (name file) = false ->
   Validation.validateFile (FVFile file) category
   = Throw (TypeError "allowedTypes.includes is not a function")) /\
  (Validation.containsExternalUrl (name file) = false ->
   accepts (Validation.validateMimeType file category) = true ->
   valid (Validation.validateFileSize file category) = true ->
   Validation.validateFile (FVFile file) category
   = Ok (invalid "File content does not match declared type")).
Proof.
  intros Hknown Hprefix.
  assert (Hsig : Validation.validateFileSignature (arrayBuffer file) (type file)
                 = Ok false).
  { unfold Validation.validateFileSignature.
    rewrite (knownSignature_table _ _ Hknown). cbn [Js.some existsb].
    rewrite orb_false_r.
    destruct (signatureMatches (arrayBuffer file) signature) eqn:E; [|reflexivity].
    apply signatureMatches_prefix in E. contradiction. }
  assert (Hacc : accepts (Validation.validateFile (FVFile file) category) = false).
  { rewrite validateFile_steps, Hsig. apply andb_false_r. }
  split; [exact Hacc|]. split; [|split; [apply validateFile_throws|]].
  - intros Hcat.
    assert (Hm : Validation.ALLOWED_MIME_TYPES category <> Js.Inherited)
      by (destruct Hcat as [-> | [-> | Hm]];
          [discriminate | discriminate | now rewrite ALLOWED_MIME_TYPES_inherited]).
    rewrite (validateFile_refuses file category Hm), Hacc; [reflexivity|].
    rewrite (knownSignature_table _ _ Hknown). discriminate.
  - intros Hurl Hmime Hsize. unfold Validation.validateFile.
    rewrite Hurl.
    destruct (Validation.validateMimeType file category) as [mimeValidation|e];
      [|discriminate].
    cbn [accepts] in Hmime. now rewrite Hmime, Hsize, Hsig.
Qed.

Lemma validate_signature_mismatch_witness :
  Validation.validateFile
    (FVFile (mkFile "me.jpg" "image/jpeg" 4 [0x89; 0x50; 0x4E; 0x47])) "IMAGE"
  = Ok (invalid "File content does not match declared type").
Proof.
  apply (validate_signature_mismatch
           (mkFile "me.jpg" "image/jpeg" 4 [0x89; 0x50; 0x4E; 0x47]) "IMAGE"
           [0xFF; 0xD8; 0xFF]).
  - left. split; reflexivity.
  - discriminate.
  - reflexivity.
  - reflexivity.
  - reflexivity.
Defined.

(** ** Names that hold a URL *)

(** ASCII case folding of a whole string. *)
Definition foldCaseString (s : string) : string :=
  Js.str (map Js.foldCase (Js.chars s)).

Lemma containsExternalUrl_prefix (scheme rest : string) :
  foldCaseString scheme = "http://" \/ foldCaseString scheme = "https://" ->
  Validation.containsExternalUrl (scheme ++ rest) = true.
Proof.
  intros H. unfold Validation.containsExternalUrl.
  rewrite chars_append, map_app.
  assert (E : map Js.foldCase (Js.chars scheme) = Js.chars (foldCaseString scheme))
    by (unfold foldCaseString; now rewrite chars_str).
  rewrite E. destruct H as [-> | ->].
  - now rewrite prefixL_app.
  - rewrite (prefixL_app (Js.chars "https://")). apply orb_true_r.
Qed.

(** C10: a file whose name begins, in any letter case, with [http://] or
    [https://] is refused by [validateFile] with [External URLs not
    allowed], whatever its category, declared type, size and content. *)
Theorem validateFile_refuses_url_name (file : File) (category : string)
    (scheme rest : string) :
  name file = scheme ++ rest ->
  foldCaseString scheme = "http://" \/ foldCaseString scheme = "https://" ->
  Validation.validateFile (FVFile file) category
  = Ok (invalid "External URLs not allowed").
Proof.
  intros Hname Hscheme. unfold Validation.validateFile.
  now rewrite Hname, (containsExternalUrl_prefix _ _ Hscheme).
Qed.

Lemma validateFile_refuses_url_name_witness :
  Validation.validateFile
    (FVFile (mkFile "HTTPS://evil.example/me.jpg" "image/jpeg" 4
               [0xFF; 0xD8; 0xFF; 0xE0])) "IMAGE"
  = Ok (invalid "External URLs not allowed").
Proof.
  apply (validateFile_refuses_url_name
           (mkFile "HTTPS://evil.example/me.jpg" "image/jpeg" 4
              [0xFF; 0xD8; 0xFF; 0xE0]) "IMAGE" "HTTPS://" "evil.example/me.jpg").
  - reflexivity.
  - right. reflexivity.
Defined.

(* ================================================================== *)
(** ** Reasoning about handlers *)
(* ================================================================== *)

(** [triple P m Q R E]: from a world satisfying [P], the computation [m]
    ends normally in a world satisfying [Q], or returns a response with
    [R], or throws with [E]. *)
Definition triple {A} (P : World -> Prop) (m : M A)
    (Q : A -> World -> Prop) (R : Response -> World -> Prop)
    (E : JsError -> World -> Prop) : Prop :=
  forall w, P w ->
    match m w with
    | (Next a, w') => Q a w'
    | (Return r, w') => R r w'
    | (Thrown e, w') => E e w'
    end.

Lemma triple_bind {A B} P (m : M A) (k : A -> M B) Q Q' R E :
  triple P m Q R E ->
  (forall a, triple (Q a) (k a) Q' R E) ->
  triple P (bind m k) Q' R E.
Proof.
  intros Hm Hk w HP. unfold bind. specialize (Hm w HP).
  destruct (m w) as [[a|r|e] w']; auto. now apply Hk.
Qed.

Lemma triple_tryCatch {A} P (m : M A) (h : JsError -> M A) Q R E E' :
  triple P m Q R E' ->
  (forall e, triple (E' e) (h e) Q R E) ->
  triple P (tryCatch m h) Q R E.
Proof.
  intros Hm Hh w HP. unfold tryCatch. specialize (Hm w HP).
  destruct (m w) as [[a|r|e] w']; auto. now apply Hh.
Qed.

Lemma triple_ret {A} (P : World -> Prop) (a : A) (Q : A -> World -> Prop) R E :
  (forall w, P w -> Q a w) -> triple P (ret a) Q R E.
Proof. intros H w HP. now apply H. Qed.

Lemma triple_respond {A} (P : World -> Prop) (r : Response)
    (Q : A -> World -> Prop) (R : Response -> World -> Prop) E :
  (forall w, P w -> R r w) -> triple P (respond r) Q R E.
Proof. intros H w HP. now apply H. Qed.

Lemma triple_throw {A} (P : World -> Prop) (e : JsError)
    (Q : A -> World -> Prop) R (E : JsError -> World -> Prop) :
  (forall w, P w -> E e w) -> triple P (throw e) Q R E.
Proof. intros H w HP. now apply H. Qed.

Lemma triple_returnIf (P : World -> Prop) (cond : bool) (r : Response) R E :
  (cond = true -> forall w, P w -> R r w) ->
  triple P (returnIf cond r) (fun _ w => cond = false /\ P w) R E.
Proof.
  intros H w HP. unfold returnIf. destruct cond; simpl; auto.
Qed.

Lemma triple_liftResult {A} (P : World -> Prop) (x : Result A)
    R (E : JsError -> World -> Prop) :
  (forall e w, P w -> E e w) ->
  triple P (liftResult x) (fun a w => x = Ok a /\ P w) R E.
Proof.
  intros H w HP. destruct x as [a|e]; simpl; auto.
Qed.

Lemma triple_conseq {A} (P P' : World -> Prop) (m : M A)
    (Q Q' : A -> World -> Prop) (R R' : Response -> World -> Prop)
    (E E' : JsError -> World -> Prop) :
  triple P m Q R E ->
  (forall w, P' w -> P w) ->
  (forall a w, Q a w -> Q' a w) ->
  (forall r w, R r w -> R' r w) ->
  (forall e w, E e w -> E' e w) ->
  triple P' m Q' R' E'.
Proof.
  intros Hm HP HQ HR HE w Hw. specialize (Hm w (HP w Hw)).
  destruct (m w) as [[a|r|e] w']; auto.
Qed.

Lemma triple_pure_pre {A} (fact : Prop) (P : World -> Prop) (m : M A) Q R E :
  (fact -> triple P m Q R E) -> triple (fun w => fact /\ P w) m Q R E.
Proof. intros H w [Hf HP]. now apply H. Qed.

Lemma triple_weaken_throw {A} (P : World -> Prop) (m : M A) Q R
    (E E' : JsError -> World -> Prop) :
  triple P m Q R E -> (forall e w, E e w -> E' e w) -> triple P m Q R E'.
Proof.
  intros Hm HE. eapply triple_conseq; [exact Hm| | | |]; auto.
Qed.


(** One [if (cond) return response;] whose response is the failure
    [failure] builds: the run goes on knowing that [cond] is false. *)
Ltac early_return failure :=
  eapply triple_bind;
  [ apply triple_returnIf; intros _ ? ?; apply failure;
    first [assumption | discriminate]
  | intros []; cbn beta; apply triple_pure_pre ].

(** The same when [cond] is already known to be false. *)
Ltac passed :=
  eapply triple_bind;
  [ apply triple_returnIf; discriminate
  | intros []; cbn beta; apply triple_pure_pre; intros _ ].

(** Calls recorded in a trace: [Application.findOne] and
    [application.save()]. *)
Definition calls (p : Event -> bool) (t : list Event) : nat :=
  List.length (filter p t).

Definition isFindOne (ev : Event) : bool :=
  match ev with
  | EvFindOne => true
  | _ => false
  end.

Definition isSave (ev : Event) : bool :=
  match ev with
  | EvSaveApplication => true
  | _ => false
  end.

Definition findCalls (t : list Event) : nat := calls isFindOne t.
Definition saveCalls (t : list Event) : nat := calls isSave t.

Lemma calls_emit (p : Event -> bool) (t : list Event) (ev : Event) :
  calls p (t ++ [ev]) = (calls p t + if p ev then 1 else 0)%nat.
Proof.
  unfold calls. rewrite filter_app, length_app. simpl.
  destruct (p ev); reflexivity.
Qed.

(** A failure response: [success] is [false] and the status is not 201. *)
Definition isFailure (r : Response) : Prop :=
  member "success" (body r) = Some (JBool false) /\ status r <> 201.

(** How far a run went since the world [w0]: both collections are as in
    [w0], and [finds] duplicate queries and [saves] calls of [save] were
    made. *)
Definition progress (w0 : World) (finds saves : nat) (w : World) : Prop :=
  applications w = applications w0 /\
  fileUploads w = fileUploads w0 /\
  findCalls (trace w) = (findCalls (trace w0) + finds)%nat /\
  saveCalls (trace w) = (saveCalls (trace w0) + saves)%nat.

(** The run appended [application] with one query and one [save]. *)
Definition saved (w0 : World) (application : ApplicationDoc) (w : World) : Prop :=
  applications w = (applications w0 ++ [application])%list /\
  findCalls (trace w) = (findCalls (trace w0) + 1)%nat /\
  saveCalls (trace w) = (saveCalls (trace w0) + 1)%nat.

Lemma progress_refl (w : World) : progress w 0 0 w.
Proof. unfold progress. repeat split; lia. Qed.

Ltac world_simpl :=
  cbn [applications trace fileUploads storedObjects cached connectCalls nextId
       emit setCached setConnectCalls setApplications setFileUploads
       setStoredObjects setNextId fst snd].

Lemma progress_emit (w0 w : World) (finds saves : nat) (ev : Event) :
  isFindOne ev = false -> isSave ev = false ->
  progress w0 finds saves w -> progress w0 finds saves (emit w ev).
Proof.
  intros Hf Hs (Ha & Hu & Hfc & Hsc). unfold progress, findCalls, saveCalls in *.
  world_simpl. rewrite !calls_emit, Hf, Hs. repeat split; try assumption; lia.
Qed.

Lemma progress_same (w0 w w' : World) (finds saves : nat) :
  applications w' = applications w -> fileUploads w' = fileUploads w ->
  trace w' = trace w ->
  progress w0 finds saves w -> progress w0 finds saves w'.
Proof.
  intros Ha Hu Ht (Ha' & Hu' & Hf & Hs). unfold progress.
  rewrite Ha, Hu, Ht. auto.
Qed.

Lemma connectDB_progress (env : Env) (w0 : World) (finds saves : nat) R :
  triple (progress w0 finds saves) (Mongodb.connectDB env)
    (fun _ => progress w0 finds saves) R (fun _ => progress w0 finds saves).
Proof.
  intros w Hu. unfold Mongodb.connectDB.
  destruct (conn (cached w)); [assumption|].
  destruct (promise (cached w)).
  - destruct (mongooseConnect env n);
      (eapply progress_same; [| | |exact Hu]; reflexivity).
  - assert (Hu' : progress w0 finds saves
                    (emit (setConnectCalls w (S (connectCalls w)))
                          (EvConnect (connectCalls w)))).
    { apply progress_emit; [reflexivity|reflexivity|].
      eapply progress_same; [| | |exact Hu]; reflexivity. }
    destruct (mongooseConnect env (connectCalls w));
      (eapply progress_same; [| | |exact Hu']; reflexivity).
Qed.

Lemma uploadToCloudinary_progress (env : Env) (w0 : World) (finds saves : nat)
    (file : DataUri) (folder resourceType : string) R E :
  triple (progress w0 finds saves)
    (Cloudinary.uploadToCloudinary env file folder resourceType)
    (fun up w =>
       match cloudinaryUpload env file folder resourceType with
       | inl (secure_url, public_id) =>
           up = Cloudinary.mkUpload true secure_url public_id None
       | inr message => up = Cloudinary.mkUpload false "" "" (Some message)
       end /\
       progress w0 finds saves w) R E.
Proof.
  intros w Hu. unfold Cloudinary.uploadToCloudinary.
  assert (Hu' : progress w0 finds saves (emit w (EvUpload folder resourceType)))
    by (apply progress_emit; [reflexivity | reflexivity | exact Hu]).
  destruct (cloudinaryUpload env file folder resourceType) as [[u p]|msg];
    (split; [reflexivity|]); [|exact Hu'].
  eapply progress_same; [| | |exact Hu']; reflexivity.
Qed.

(** Why a duplicate query for [emailAddress] throws: the value is a file,
    which Mongoose cannot cast to a string, or the database fails. *)
Definition queryThrows (env : Env) (emailAddress : FormValue) : Prop :=
  (exists f, emailAddress = FVFile f) \/
  findOneError env (Application.castWith Application.emailSetters emailAddress)
  <> None.

Lemma findOne_spec (env : Env) (w0 : World) (emailAddress : FormValue) R :
  triple (progress w0 0 0) (Application.findOne env emailAddress)
    (fun found w =>
       (found = find (fun d => Application.optEqb (docEmailAddress d)
                                 (Application.castWith Application.emailSetters
                                    emailAddress))
                     (applications w0) /\
        ~ queryThrows env emailAddress) /\
       progress w0 1 0 w)
    R
    (fun _ w => queryThrows env emailAddress /\ progress w0 1 0 w).
Proof.
  intros w (Ha & Hu & Hf & Hs). unfold Application.findOne, queryThrows.
  assert (Hu' : progress w0 1 0 (emit w EvFindOne)).
  { unfold progress, findCalls, saveCalls in *. world_simpl.
    rewrite !calls_emit. cbn [isFindOne isSave]. repeat split; try assumption; lia. }
  destruct emailAddress as [|s|f].
  - destruct (findOneError env _) as [error|] eqn:E.
    + split; [right; congruence | exact Hu'].
    + split; [|exact Hu']. split; [world_simpl; now rewrite Ha|].
      intros [[f [=]]|H]; congruence.
  - destruct (findOneError env _) as [error|] eqn:E.
    + split; [right; congruence | exact Hu'].
    + split; [|exact Hu']. split; [world_simpl; now rewrite Ha|].
      intros [[f [=]]|H]; congruence.
  - split; [left; now exists f | exact Hu'].
Qed.

Lemma new_progress (env : Env) (w0 : World) (finds saves : nat)
    (data : ApplicationData) R E :
  triple (progress w0 finds saves) (Application.new env data)
    (fun application w =>
       docEmailAddress application
       = Application.castWith Application.emailSetters (emailAddress data) /\
       progress w0 finds saves w)
    R E.
Proof.
  intros w Hu. unfold Application.new. split; [reflexivity|].
  eapply progress_same; [| | |exact Hu]; reflexivity.
Qed.

(** [save] appends the document, or throws and leaves the collection as it
    was; the call is recorded either way. *)
Lemma save_spec (env : Env) (w0 : World) (data : ApplicationData)
    (application : ApplicationDoc) R :
  triple (progress w0 1 0) (Application.save env data application)
    (fun _ => saved w0 application) R (fun _ => progress w0 1 1).
Proof.
  intros w (Ha & Hu & Hf & Hs). unfold Application.save.
  assert (Hc : findCalls (trace (emit w EvSaveApplication))
               = (findCalls (trace w0) + 1)%nat /\
               saveCalls (trace (emit w EvSaveApplication))
               = (saveCalls (trace w0) + 1)%nat).
  { unfold findCalls, saveCalls in *. world_simpl. rewrite !calls_emit.
    cbn [isFindOne isSave]. lia. }
  destruct (schemaErrors env data).
  - destruct (saveError env application).
    + repeat split; world_simpl; try apply Hc; assumption.
    + destruct (existsb _ (applications (emit w EvSaveApplication)));
        repeat split; world_simpl; try apply Hc; try assumption. now rewrite Ha.
  - repeat split; world_simpl; try apply Hc; assumption.
Qed.

Lemma FileUpload_create_saved (env : Env) (w0 : World)
    (application : ApplicationDoc) (docs : list FileUploadData) R :
  triple (saved w0 application) (FileUpload_create env docs)
    (fun _ => saved w0 application) R (fun _ => saved w0 application).
Proof.
  intros w (Ha & Hf & Hs). unfold FileUpload_create.
  destruct (fileUploadCreate env docs); unfold saved, findCalls, saveCalls in *;
    world_simpl; rewrite !calls_emit; cbn [isFindOne isSave];
    repeat split; try assumption; lia.
Qed.

Lemma createErrorResponse_isFailure (errorCode : ErrorHandler.ErrorCodes)
    (message : option string) (details : option Json) :
  isFailure (ErrorHandler.createErrorResponse errorCode message details).
Proof.
  split; [reflexivity|]. destruct errorCode; discriminate.
Qed.

Lemma getHttpStatus_not_201 (error : option JsError) :
  Mongodb.getHttpStatus error <> 201.
Proof.
  unfold Mongodb.getHttpStatus, Mongodb.classifyDatabaseError.
  destruct error as [error|]; [|discriminate].
  repeat match goal with
         | |- context [if ?c then Mongodb.mkClassification _ _ _ _ _ else _] =>
             destruct c
         end; cbn; lia.
Qed.

Lemma mongodb_error_isFailure (error : option JsError) (location : string) :
  isFailure (mkResponse (Mongodb.getHttpStatus error)
               (Mongodb.createErrorResponse error location)).
Proof. split; [reflexivity | apply getHttpStatus_not_201]. Qed.

Lemma validateFile_valid_file (v : FormValue) (category : string)
    (validation : Validation) :
  Validation.validateFile v category = Ok validation ->
  valid validation = true ->
  exists file, v = FVFile file /\ buffer validation = Some (arrayBuffer file).
Proof.
  destruct v as [|s|file]; try (intros [= <-]; discriminate).
  intros H Hv. exists file. split; [reflexivity|].
  revert H. unfold Validation.validateFile.
  destruct (Validation.containsExternalUrl (name file));
    [intros [= <-]; discriminate|].
  destruct (Validation.validateMimeType file category) as [mimeValidation|e];
    [|discriminate].
  destruct (valid mimeValidation) eqn:Em; cbn [negb];
    [|intros [= <-]; congruence].
  destruct (valid (Validation.validateFileSize file category)) eqn:Es;
    cbn [negb]; [|intros [= <-]; congruence].
  destruct (Validation.validateFileSignature (arrayBuffer file) (type file))
    as [[|]|e]; cbn [negb]; intros [= <-]; [reflexivity | discriminate].
Qed.

(** ** What the two handlers can do to the application collection *)

Definition folderPrefixOf (env : Env) : string :=
  match nonEmpty (CLOUDINARY_FOLDER_PREFIX env) with
  | Some p => p
  | None => "uploads"
  end.

(** A stored application has the submitted address, as the schema's
    setters normalise it. *)
Definition duplicateOf (fd : FormData) (d : ApplicationDoc) : bool :=
  Application.optEqb (docEmailAddress d)
    (Application.castWith Application.emailSetters (formGet fd "emailAddress")).

Definition duplicateFound (request : Request) (w0 : World) : Prop :=
  exists fd, formData request = Ok fd /\
             existsb (duplicateOf fd) (applications w0) = true.

(** The duplicate query of the request throws. *)
Definition queryFailed (env : Env) (request : Request) : Prop :=
  exists fd, formData request = Ok fd /\
             queryThrows env (formGet fd "emailAddress").

(** What holds when [application.save()] is called: the form was parsed,
    both parts are files, the object store accepted both, and no stored
    application has the submitted email address. *)
Definition reachedSave (env : Env) (request : Request) (w0 : World)
    (photographFolder resumeFolder : string) (fd : FormData) : Prop :=
  formData request = Ok fd /\
  exists photograph resume,
    formGet fd "photograph" = FVFile photograph /\
    formGet fd "resume" = FVFile resume /\
    (exists u p,
       cloudinaryUpload env (mkDataUri (type photograph) (arrayBuffer photograph))
         photographFolder "image" = inl (u, p)) /\
    (exists u p,
       cloudinaryUpload env (mkDataUri (type resume) (arrayBuffer resume))
         resumeFolder "raw" = inl (u, p)) /\
    find (duplicateOf fd) (applications w0) = None.

(** Where a run that returned a failure response stopped: before the
    duplicate query; at the duplicate query, with the duplicate response;
    or in [save]. *)
Definition stoppedReturn (env : Env) (request : Request) (w0 : World)
    (photographFolder resumeFolder : string) (duplicateResponse r : Response)
    (w : World) : Prop :=
  progress w0 0 0 w \/
  (progress w0 1 0 w /\ r = duplicateResponse /\ duplicateFound request w0) \/
  (progress w0 1 1 w /\
   exists fd, reachedSave env request w0 photographFolder resumeFolder fd).

(** Where a run that threw stopped. *)
Definition stoppedThrow (env : Env) (request : Request) (w0 : World)
    (photographFolder resumeFolder : string) (w : World) : Prop :=
  progress w0 0 0 w \/
  (progress w0 1 0 w /\ queryFailed env request) \/
  (progress w0 1 1 w /\
   exists fd, reachedSave env request w0 photographFolder resumeFolder fd).

Definition completed (env : Env) (request : Request) (w0 : World)
    (photographFolder resumeFolder : string)
    (success : ApplicationDoc -> Response) (r : Response) (w : World) : Prop :=
  exists fd application,
    reachedSave env request w0 photographFolder resumeFolder fd /\
    saved w0 application w /\
    docEmailAddress application
    = Application.castWith Application.emailSetters (formGet fd "emailAddress") /\
    r = success application.

Definition duplicateResponseV1 : Response :=
  Applications.message 409 "An application with this email address already exists".

Definition duplicateResponseV2 : Response :=
  ErrorHandler.createErrorResponse ErrorHandler.VALIDATION_FAILED
    (Some "Application with this email already exists") None.

Definition successV1 (application : ApplicationDoc) : Response :=
  mkResponse 201
    (JObj [("success", JBool true);
           ("message", JStr "Application submitted successfully");
           ("applicationId", JId (_id application));
           ("data",
            JObj [("fullName", jtext (docFullName application));
                  ("email", jtext (docEmailAddress application));
                  ("role", jtext (docRoleAppliedFor application))])]).

Definition successV2 (application : ApplicationDoc) : Response :=
  ErrorHandler.createSuccessResponse
    (JObj [("applicationId", JId (_id application));
           ("fullName", jtext (docFullName application));
           ("email", jtext (docEmailAddress application));
           ("role", jtext (docRoleAppliedFor application));
           ("submittedAt", JNum (docSubmittedAt application))])
    201.

Lemma find_existsb {A} (p : A -> bool) (l : list A) :
  existsb p l = match find p l with Some _ => true | None => false end.
Proof.
  induction l as [|x l IH]; simpl; [reflexivity|].
  destruct (p x); [reflexivity | exact IH].
Qed.

Definition photographsFolder (env : Env) : string :=
  folderPrefixOf env ++ "/applications/photographs".

Definition resumesFolder (env : Env) : string :=
  folderPrefixOf env ++ "/applications/resumes".

Lemma handleV2_spec (env : Env) (request : Request) (w0 : World) :
  triple (progress w0 0 0) (ApplicationsV2.handle env request)
    (completed env request w0 (photographsFolder env) (resumesFolder env) successV2)
    (fun r w =>
       isFailure r /\
       stoppedReturn env request w0 (photographsFolder env) (resumesFolder env)
         duplicateResponseV2 r w)
    (fun _ =>
       stoppedThrow env request w0 (photographsFolder env) (resumesFolder env)).
Proof.
  unfold ApplicationsV2.handle.
  assert (Hfail : forall code msg details w,
             progress w0 0 0 w ->
             isFailure (ErrorHandler.createErrorResponse code msg details) /\
             stoppedReturn env request w0 (photographsFolder env)
               (resumesFolder env) duplicateResponseV2
               (ErrorHandler.createErrorResponse code msg details) w).
  { intros code msg details w Hw.
    split; [apply createErrorResponse_isFailure | now left]. }
  (* 1 *)
  early_return Hfail; intros _.
  (* 2 *)
  eapply triple_bind.
  { apply triple_liftResult. intros e w Hw. now left. }
  intros originValidation; cbn beta. apply triple_pure_pre; intros _.
  early_return Hfail; intros _.
  (* 3 *)
  eapply triple_bind.
  { eapply triple_weaken_throw; [apply connectDB_progress|].
    intros e w Hw. now left. }
  intros mongoose; cbn beta.
  (* 4 *)
  eapply triple_bind.
  { apply triple_liftResult. intros e w Hw. now left. }
  intros fd; cbn beta. apply triple_pure_pre; intros Hfd.
  (* 5 *)
  early_return Hfail; intros _.
  (* 6 *)
  early_return Hfail; intros _.
  (* 7 *)
  eapply triple_bind.
  { apply triple_liftResult. intros e w Hw. now left. }
  intros photoValidation; cbn beta. apply triple_pure_pre; intros Vphoto.
  early_return Hfail; intros Hphoto.
  apply negb_false_iff in Hphoto.
  destruct (validateFile_valid_file _ _ _ Vphoto Hphoto)
    as (photograph & Ephoto & Bphoto).
  (* 8 *)
  eapply triple_bind.
  { apply triple_liftResult. intros e w Hw. now left. }
  intros resumeValidation; cbn beta. apply triple_pure_pre; intros Vresume.
  early_return Hfail; intros Hresume.
  apply negb_false_iff in Hresume.
  destruct (validateFile_valid_file _ _ _ Vresume Hresume)
    as (resume & Eresume & Bresume).
  rewrite Bphoto, Bresume, Ephoto, Eresume.
  (* 9 *)
  fold (folderPrefixOf env). fold (photographsFolder env). fold (resumesFolder env).
  eapply triple_bind; [apply uploadToCloudinary_progress|].
  intros photographUpload; cbn beta. apply triple_pure_pre; intros Hpu.
  destruct (cloudinaryUpload env _ (photographsFolder env) "image")
    as [[pu pp]|pmsg] eqn:Epu; subst photographUpload.
  2:{ early_return Hfail; discriminate. }
  passed.
  eapply triple_bind; [apply uploadToCloudinary_progress|].
  intros resumeUpload; cbn beta. apply triple_pure_pre; intros Hru.
  destruct (cloudinaryUpload env _ (resumesFolder env) "raw")
    as [[ru rp]|rmsg] eqn:Eru; subst resumeUpload.
  2:{ early_return Hfail; discriminate. }
  passed.
  (* 10 *)
  eapply triple_bind.
  { eapply triple_weaken_throw; [apply findOne_spec|].
    intros e w [Hthrows Hw]. right; left. split; [exact Hw|].
    exists fd. split; assumption. }
  intros existingApplication; cbn beta. apply triple_pure_pre; intros [Hfind _].
  change (existingApplication = find (duplicateOf fd) (applications w0)) in Hfind.
  eapply triple_bind.
  { apply triple_returnIf. intros Hdup w Hw.
    split; [apply createErrorResponse_isFailure|].
    right; left. split; [exact Hw|]. split; [reflexivity|].
    exists fd. split; [exact Hfd|].
    rewrite find_existsb, <- Hfind. exact Hdup. }
  intros []; cbn beta. apply triple_pure_pre; intros Hnone.
  assert (Hreached : reachedSave env request w0 (photographsFolder env)
                       (resumesFolder env) fd).
  { split; [exact Hfd|]. exists photograph, resume.
    repeat split; eauto.
    destruct existingApplication; [discriminate|]. symmetry; exact Hfind. }
  (* 11, 12 *)
  eapply triple_bind; [apply new_progress|].
  intros application; cbn beta. apply triple_pure_pre; intros Hemail.
  eapply triple_bind.
  { eapply triple_weaken_throw; [apply save_spec|].
    intros e w Hw. right; right. split; [exact Hw|]. exists fd. exact Hreached. }
  intros []; cbn beta.
  (* 13 *)
  eapply triple_bind with (Q := fun _ => saved w0 application).
  { eapply triple_tryCatch; [apply FileUpload_create_saved|].
    intros e. apply triple_ret. intros w Hw. exact Hw. }
  intros []; cbn beta.
  (* 14 *)
  apply triple_ret. intros w Hw. exists fd, application.
  split; [exact Hreached|]. split; [exact Hw|]. split; [exact Hemail|reflexivity].
Qed.

Lemma handleV1_spec (env : Env) (request : Request) (w0 : World) :
  triple (progress w0 0 0) (Applications.handle env request)
    (completed env request w0 "socialmm/applications/photographs"
       "socialmm/applications/resumes" successV1)
    (fun r w =>
       isFailure r /\
       stoppedReturn env request w0 "socialmm/applications/photographs"
         "socialmm/applications/resumes" duplicateResponseV1 r w)
    (fun _ => stoppedThrow env request w0 "socialmm/applications/photographs"
                "socialmm/applications/resumes").
Proof.
  unfold Applications.handle.
  assert (Hfail : forall code text w,
             code <> 201 -> progress w0 0 0 w ->
             isFailure (Applications.message code text) /\
             stoppedReturn env request w0 "socialmm/applications/photographs"
               "socialmm/applications/resumes" duplicateResponseV1
               (Applications.message code text) w).
  { intros code text w Hc Hw. split; [split; [reflexivity | exact Hc] | now left]. }
  (* Step 1 *)
  eapply triple_bind with (Q := fun _ => progress w0 0 0).
  { eapply triple_tryCatch with (E' := fun _ => progress w0 0 0).
    - eapply triple_bind; [apply connectDB_progress|].
      intros mongoose; cbn beta. apply triple_ret. intros w Hw. exact Hw.
    - intros dbError. apply triple_respond. intros w Hw.
      split; [apply mongodb_error_isFailure | now left]. }
  intros []; cbn beta.
  (* Step 2 *)
  eapply triple_bind.
  { apply triple_liftResult. intros e w Hw. now left. }
  intros fd; cbn beta. apply triple_pure_pre; intros Hfd.
  (* Step 3 *)
  early_return Hfail; intros _.
  destruct (formGet fd "photograph") as [|s|photograph] eqn:Ephoto;
    try (apply triple_throw; intros w Hw; now left).
  early_return Hfail; intros _.
  destruct (formGet fd "resume") as [|s|resume] eqn:Eresume;
    try (apply triple_respond; intros w Hw; apply Hfail; [discriminate|exact Hw]).
  early_return Hfail; intros _.
  early_return Hfail; intros _.
  early_return Hfail; intros _.
  (* Step 4 *)
  eapply triple_bind; [apply uploadToCloudinary_progress|].
  intros photographUpload; cbn beta. apply triple_pure_pre; intros Hpu.
  destruct (cloudinaryUpload env _ "socialmm/applications/photographs" "image")
    as [[pu pp]|pmsg] eqn:Epu; subst photographUpload.
  2:{ eapply triple_bind.
      { apply triple_returnIf. intros _ w Hw.
        split; [split; [reflexivity|discriminate] | now left]. }
      intros []; cbn beta. apply triple_pure_pre; discriminate. }
  passed.
  eapply triple_bind; [apply uploadToCloudinary_progress|].
  intros resumeUpload; cbn beta. apply triple_pure_pre; intros Hru.
  destruct (cloudinaryUpload env _ "socialmm/applications/resumes" "raw")
    as [[ru rp]|rmsg] eqn:Eru; subst resumeUpload.
  2:{ eapply triple_bind.
      { apply triple_returnIf. intros _ w Hw.
        split; [split; [reflexivity|discriminate] | now left]. }
      intros []; cbn beta. apply triple_pure_pre; discriminate. }
  passed.
  (* Step 6 *)
  eapply triple_bind.
  { eapply triple_weaken_throw; [apply findOne_spec|].
    intros e w [Hthrows Hw]. right; left. split; [exact Hw|].
    exists fd. split; assumption. }
  intros existingApplication; cbn beta. apply triple_pure_pre; intros [Hfind _].
  change (existingApplication = find (duplicateOf fd) (applications w0)) in Hfind.
  eapply triple_bind.
  { apply triple_returnIf. intros Hdup w Hw.
    split; [split; [reflexivity|discriminate]|].
    right; left. split; [exact Hw|]. split; [reflexivity|].
    exists fd. split; [exact Hfd|].
    rewrite find_existsb, <- Hfind. exact Hdup. }
  intros []; cbn beta. apply triple_pure_pre; intros Hnone.
  assert (Hreached : reachedSave env request w0
            "socialmm/applications/photographs"
            "socialmm/applications/resumes" fd).
  { split; [exact Hfd|]. exists photograph, resume.
    repeat split; eauto.
    destruct existingApplication; [discriminate|]. symmetry; exact Hfind. }
  (* Step 7 *)
  eapply triple_bind; [apply new_progress|].
  intros application; cbn beta. apply triple_pure_pre; intros Hemail.
  eapply triple_bind with (Q := fun _ => saved w0 application).
  { eapply triple_tryCatch; [apply save_spec|].
    intros saveError. apply triple_respond. intros w Hw.
    split; [apply mongodb_error_isFailure|].
    right; right. split; [exact Hw|]. exists fd. exact Hreached. }
  intros []; cbn beta.
  (* Step 8 *)
  apply triple_ret. intros w Hw. exists fd, application.
  split; [exact Hreached|]. split; [exact Hw|]. split; [exact Hemail|reflexivity].
Qed.

(** ** The two handlers, from request to response *)

(** A run appends one application and answers with the success response,
    or leaves the collection as it was and answers with a failure. *)
Definition outcome (env : Env) (request : Request) (w0 : World)
    (photographFolder resumeFolder : string)
    (duplicateResponse : Response) (success : ApplicationDoc -> Response)
    (result : Response * World) : Prop :=
  completed env request w0 photographFolder resumeFolder success
    (fst result) (snd result) \/
  (isFailure (fst result) /\
   (progress w0 0 0 (snd result) \/
    (progress w0 1 0 (snd result) /\
     (fst result = duplicateResponse /\ duplicateFound request w0 \/
      queryFailed env request)) \/
    (progress w0 1 1 (snd result) /\
     exists fd, reachedSave env request w0 photographFolder resumeFolder fd))).

Lemma catchResponseV1_isFailure (error : JsError) :
  isFailure (Applications.catchResponse error).
Proof.
  unfold Applications.catchResponse.
  destruct (String.eqb (errName error) "ValidationError");
    [split; [reflexivity | discriminate] | apply mongodb_error_isFailure].
Qed.

Lemma catchResponseV2_isFailure (env : Env) (error : JsError) :
  isFailure (ApplicationsV2.catchResponse env error).
Proof.
  unfold ApplicationsV2.catchResponse.
  destruct (String.eqb (errName error) "ValidationError");
    apply createErrorResponse_isFailure.
Qed.

Lemma postV1_outcome (env : Env) (request : Request) (w0 : World) :
  outcome env request w0 "socialmm/applications/photographs"
    "socialmm/applications/resumes" duplicateResponseV1 successV1
    (Applications.POST env request w0).
Proof.
  unfold Applications.POST.
  pose proof (handleV1_spec env request w0 w0 (progress_refl w0)) as H.
  destruct (Applications.handle env request w0) as [[r|r|e] w'].
  - now left.
  - right. destruct H as [Hf [H|[(H & -> & Hd)|H]]]; (split; [exact Hf|]); auto.
    right; left. auto.
  - right. split; [apply catchResponseV1_isFailure|].
    destruct H as [H|[[H Hd]|H]]; auto.
Qed.

Lemma postV2_outcome (env : Env) (request : Request) (w0 : World) :
  outcome env request w0 (photographsFolder env) (resumesFolder env)
    duplicateResponseV2 successV2 (ApplicationsV2.POST env request w0).
Proof.
  unfold ApplicationsV2.POST.
  pose proof (handleV2_spec env request w0 w0 (progress_refl w0)) as H.
  destruct (ApplicationsV2.handle env request w0) as [[r|r|e] w'].
  - now left.
  - right. destruct H as [Hf [H|[(H & -> & Hd)|H]]]; (split; [exact Hf|]); auto.
    right; left. auto.
  - right. split; [apply catchResponseV2_isFailure|].
    destruct H as [H|[[H Hd]|H]]; auto.
Qed.

(** ** A concrete deployment, used to run the handlers *)

Definition jpegFile : File :=
  mkFile "me.jpg" "image/jpeg" 4 [0xFF; 0xD8; 0xFF; 0xE0].

Definition pdfFile : File :=
  mkFile "cv.pdf" "application/pdf" 5 [0x25; 0x50; 0x44; 0x46; 0x2D].

(** A form with every required path of [ApplicationSchema] filled in. *)
Definition sampleForm (email : string) : FormData :=
  [("fullName", FVString "Ada Lovelace");
   ("age", FVString "28");
   ("gender", FVString "Female");
   ("mobileNumber", FVString "9876543210");
   ("emailAddress", FVString email);
   ("city", FVString "London");
   ("state", FVString "Greater London");
   ("highestQualification", FVString "B.Tech");
   ("specialization", FVString "Mathematics");
   ("collegeName", FVString "University of London");
   ("yearOfPassing", FVString "2019");
   ("roleAppliedFor", FVString "Engineer");
   ("primarySkillSet", FVString "Analysis");
   ("totalExperience", FVString "5 years");
   ("availability", FVString "Immediate");
   ("declarationAccepted", FVString "true");
   ("photograph", FVFile jpegFile);
   ("resume", FVFile pdfFile)].

Definition sampleRequest (email : string) : Request :=
  mkRequest [("content-type", "multipart/form-data; boundary=x");
             ("origin", "https://forms.example")]
            (Ok (sampleForm email)).

(** The message of the cast error of the sample deployment. *)
Definition sampleCastError (path : string) (file : File) : string :=
  "Cast to string failed for value " ++ dquote ++ "File { name: '" ++ name file
  ++ "' }" ++ dquote ++ " (type File) at path " ++ dquote ++ path ++ dquote.

(** [required] on a [String] path of [src/models/Application.js], after the
    [trim] setter where the path has one. *)
Definition requiredPath (trimmed : bool) (path message : string) (v : FormValue)
    : list string :=
  match v with
  | FVString s =>
      if String.eqb (if trimmed then Js.trim s else s) "" then [message] else []
  | FVNull => [message]
  | FVFile file => [sampleCastError path file]
  end.

(** [required], [min] and [max] on a [Number] path. *)
Definition numberPath (path required : string) (lo : Z) (below : string)
    (hi : Z) (above : string) (n : option Z) : list string :=
  match n with
  | None =>
      ["Cast to Number failed for value " ++ dquote ++ "NaN" ++ dquote
       ++ " (type number) at path " ++ dquote ++ path ++ dquote]
  | Some n => if n <? lo then [below] else if hi <? n then [above] else []
  end.

(** [/^[0-9]{10}$/] *)
Definition mobilePattern (s : string) : bool :=
  Nat.eqb (String.length s) 10 && forallb (Js.inRange 48 57) (Js.chars s).

(** [/^\S+@\S+\.\S+$/]: no white space, an at sign after the first
    character and, two or more characters later, a dot before the last
    character. *)
Definition emailPattern (s : string) : bool :=
  let l := Js.chars s in
  let positions := seq 0 (List.length l) in
  let holds (i : nat) (c : string) := String.eqb (Js.str (firstn 1 (skipn i l))) c in
  forallb (fun c => negb (Js.isSpace c)) l &&
  existsb (fun i =>
             holds i "@" && Nat.leb 1 i &&
             existsb (fun j => holds j "." && Nat.leb (i + 2) j
                               && Nat.leb (j + 2) (List.length l))
                     positions)
          positions.

Definition matchPath (pattern : string -> bool) (setters : string -> string)
    (message : string) (v : FormValue) : list string :=
  match v with
  | FVString s =>
      if String.eqb (setters s) "" || pattern (setters s) then [] else [message]
  | _ => []
  end.

(** The validators of [ApplicationSchema] in [src/models/Application.js] on
    the paths the handlers fill from the form, the schema having been loaded
    in the year [currentYear]. *)
Definition sampleSchemaErrors (currentYear : Z) (data : ApplicationData)
    : list string :=
  (requiredPath true "fullName" "Full name is required" (fullName data)
   ++ match fullName data with
      | FVString s =>
          if Nat.ltb 100 (String.length (Js.trim s))
          then ["Name cannot exceed 100 characters"] else []
      | _ => []
      end
   ++ (if String.eqb (photographUrl data) "" then ["Photograph is required"] else [])
   ++ numberPath "age" "Age is required" 18 "Minimum age is 18"
        100 "Maximum age is 100" (age data)
   ++ match gender data with
      | FVString s =>
          if Js.arrayIncludes ["Male"; "Female"; "Other"; "Prefer not to say"; ""] s
          then []
          else [("`" ++ s ++ "` is not a valid enum value for path `gender`.")%string]
      | FVNull => []
      | FVFile file => [sampleCastError "gender" file]
      end
   ++ requiredPath false "mobileNumber" "Mobile number is required"
        (mobileNumber data)
   ++ matchPath mobilePattern (fun s => s)
        "Please enter a valid 10-digit mobile number" (mobileNumber data)
   ++ requiredPath true "emailAddress" "Email address is required"
        (emailAddress data)
   ++ matchPath emailPattern Application.emailSetters
        "Please enter a valid email address" (emailAddress data)
   ++ requiredPath true "city" "City is required" (city data)
   ++ requiredPath true "state" "State is required" (state data)
   ++ requiredPath true "highestQualification"
        "Highest qualification is required" (highestQualification data)
   ++ requiredPath true "specialization" "Specialization is required"
        (specialization data)
   ++ requiredPath true "collegeName" "College/University name is required"
        (collegeName data)
   ++ numberPath "yearOfPassing" "Year of passing is required"
        1950 "Year must be after 1950"
        (currentYear + 5) "Year cannot be more than 5 years in the future"
        (yearOfPassing data)
   ++ requiredPath true "roleAppliedFor" "Role applied for is required"
        (roleAppliedFor data)
   ++ requiredPath true "primarySkillSet" "Primary skill set is required"
        (primarySkillSet data)
   ++ requiredPath true "totalExperience" "Total experience is required"
        (totalExperience data)
   ++ (if String.eqb (resumeUrl data) "" then ["Resume is required"] else [])
   ++ requiredPath true "availability" "Availability/Notice period is required"
        (availability data)
   ++ (if declarationAccepted data then []
       else ["Declaration must be accepted to submit the application"]))%list.

(** A deployment in production, started on 1 November 2026.  The object
    store accepts images, and resumes when [resumes] is set;
    [FileUpload.create] succeeds when [fileRecords] is set and throws
    otherwise; the first connection attempt fails when [firstConnect] is
    unset; the database answers every query and insert it receives. *)
Definition sampleEnv (resumes fileRecords firstConnect : bool) : Env :=
  mkEnv (Some "production") (Some "https://forms.example") None
    (fun u => Some u)
    (fun attempt =>
       if negb firstConnect && Nat.eqb attempt 0
       then inr (mkError "MongoNetworkError" "connection timed out" None None [])
       else inl (MongooseInstance attempt))
    (fun uri folder resourceType =>
       if String.eqb resourceType "raw" && negb resumes
       then inr "upload refused"
       else inl ("https://res.cloudinary.com/demo/" ++ folder, folder ++ "/1"))
    (sampleCastError "emailAddress")
    (fun _ => None)
    (sampleSchemaErrors 2026)
    (fun _ => None)
    (fun _ => if fileRecords then None
              else Some (mkError "MongoServerError" "E11000 duplicate key error"
                           (Some (CodeNum 11000)) None []))
    1793491200000.

Definition emptyWorld : World := mkWorld [] [] [] (mkCache None None) 0 0 [].

(** ** Sample evaluations *)

Example parseInt_samples :
  parseInt (FVString "  42px") = Some 42 /\
  parseInt (FVString "-7") = Some (-7) /\
  parseInt (FVString "0x1A") = Some 26 /\
  parseInt (FVString "years") = None /\
  parseInt FVNull = None.
Proof. repeat split; reflexivity. Qed.

Example emailSetters_sample :
  Application.emailSetters "  Ada.Lovelace@Example.COM " = "ada.lovelace@example.com".
Proof. reflexivity. Qed.

Example validateFileSize_message :
  error (Validation.validateFileSize (mkFile "me.jpg" "image/jpeg" 5767168 []) "IMAGE")
  = Some "File size 5.50MB exceeds limit of 5MB".
Proof. vm_compute. reflexivity. Qed.

Example validateFormData_sample :
  error (Validation.validateFormData
           [("linkedinUrl", FVString "https://linkedin.example/ada");
            ("city", FVString "http://evil.example")])
  = Some ("Field " ++ dquote ++ "city" ++ dquote ++ " contains unauthorized URL").
Proof. reflexivity. Qed.

Example classifyDatabaseError_samples :
  Mongodb.getHttpStatus
    (Some (mkError "MongoServerSelectionError" "Server selection timed out"
             None None []))
  = 504 /\
  Mongodb.getHttpStatus
    (Some (mkError "MongoServerError"
             "E11000 duplicate key error index: emailAddress_1"
             (Some (CodeNum 11000)) (Some "DuplicateKey") []))
  = 400 /\
  Mongodb.getHttpStatus
    (Some (mkError "MongoServerError" "bad auth" (Some (CodeNum 8000)) None []))
  = 401 /\
  Mongodb.getHttpStatus None = 500.
Proof. repeat split; vm_compute; reflexivity. Qed.

(** A complete submission through the v2 handler. *)
Example submission_v2_accepted :
  let result :=
    ApplicationsV2.POST (sampleEnv true true true)
      (sampleRequest " Ada@Example.com") emptyWorld in
  fst result
  = ErrorHandler.createSuccessResponse
      (JObj [("applicationId", JId 0);
             ("fullName", JStr "Ada Lovelace");
             ("email", JStr "ada@example.com");
             ("role", JStr "Engineer");
             ("submittedAt", JNum 1793491200000)]) 201 /\
  List.length (applications (snd result)) = 1%nat /\
  List.length (fileUploads (snd result)) = 2%nat /\
  trace (snd result)
  = [EvConnect 0;
     EvUpload "uploads/applications/photographs" "image";
     EvUpload "uploads/applications/resumes" "raw";
     EvFindOne; EvSaveApplication; EvFileUploadCreate].
Proof. vm_compute. repeat split; reflexivity. Qed.

(** A resume named [.pdf] and declared a PDF that holds PNG bytes. *)
Example submission_v2_png_as_pdf :
  let disguised :=
    mkFile "cv.pdf" "application/pdf" 5 [0x89; 0x50; 0x4E; 0x47; 0x0D] in
  let request :=
    mkRequest [("content-type", "multipart/form-data; boundary=x");
               ("origin", "https://forms.example")]
              (Ok [("emailAddress", FVString "ada@example.com");
                   ("photograph", FVFile jpegFile);
                   ("resume", FVFile disguised)]) in
  fst (ApplicationsV2.POST (sampleEnv true true true) request emptyWorld)
  = ErrorHandler.createErrorResponse ErrorHandler.INVALID_FILE_TYPE
      (Some "File content does not match declared type")
      (Some (JObj [("field", JStr "resume")])).
Proof. vm_compute. reflexivity. Qed.

(** A request from another origin, in production. *)
Example submission_v2_foreign_origin :
  let request :=
    mkRequest [("content-type", "multipart/form-data; boundary=x");
               ("origin", "https://elsewhere.example")]
              (Ok (sampleForm "ada@example.com")) in
  ApplicationsV2.POST (sampleEnv true true true) request emptyWorld
  = (ErrorHandler.createErrorResponse ErrorHandler.ORIGIN_BLOCKED
       (Some "Unauthorized origin") None,
     emptyWorld).
Proof. vm_compute. reflexivity. Qed.

(** ** A refused resume ends the submission *)

(** The object store refuses the resume of the request in [folder]. *)
Definition resumeRefused (env : Env) (request : Request) (folder : string) : Prop :=
  forall fd resume,
    formData request = Ok fd -> formGet fd "resume" = FVFile resume ->
    exists message,
      cloudinaryUpload env (mkDataUri (type resume) (arrayBuffer resume))
        folder "raw" = inr message.

Lemma reachedSave_needs_resume (env : Env) (request : Request) (w0 : World)
    (photographFolder resumeFolder : string) (fd : FormData) :
  resumeRefused env request resumeFolder ->
  ~ reachedSave env request w0 photographFolder resumeFolder fd.
Proof.
  intros Hrefused (Hfd & photograph & resume & _ & Hr & _ & (u & p & Hup) & _).
  destruct (Hrefused fd resume Hfd Hr) as [message Hm].
  congruence.
Qed.

Lemma outcome_without_save (env : Env) (request : Request) (w0 : World)
    (photographFolder resumeFolder : string) (duplicateResponse : Response)
    (success : ApplicationDoc -> Response) (result : Response * World) :
  (forall fd, ~ reachedSave env request w0 photographFolder resumeFolder fd) ->
  outcome env request w0 photographFolder resumeFolder duplicateResponse success
    result ->
  isFailure (fst result) /\
  applications (snd result) = applications w0 /\
  fileUploads (snd result) = fileUploads w0 /\
  saveCalls (trace (snd result)) = saveCalls (trace w0) /\
  (findCalls (trace (snd result)) <> findCalls (trace w0) ->
   fst result = duplicateResponse /\ duplicateFound request w0 \/
   queryFailed env request).
Proof.
  intros Hno [(fd & application & Hr & _)|[Hf H]]; [destruct (Hno fd Hr)|].
  split; [exact Hf|].
  destruct H as [(Ha & Hu & Hfc & Hsc)|[[(Ha & Hu & Hfc & Hsc) Hd]|[_ [fd Hr]]]];
    [| |destruct (Hno fd Hr)].
  - repeat split; try assumption; lia.
  - repeat split; try assumption; try lia. intros _. exact Hd.
Qed.

(** C7: when the object store refuses the resume of a request, the handler
    (either of the two) answers with a failure, makes no call of
    [application.save()] and leaves the application collection and the
    file-record collection as they were. *)
Theorem resume_upload_failure_is_terminal (env : Env) (request : Request)
    (w : World) :
  (resumeRefused env request "socialmm/applications/resumes" ->
   let result := Applications.POST env request w in
   isFailure (fst result) /\
   saveCalls (trace (snd result)) = saveCalls (trace w) /\
   applications (snd result) = applications w /\
   fileUploads (snd result) = fileUploads w) /\
  (resumeRefused env request (resumesFolder env) ->
   let result := ApplicationsV2.POST env request w in
   isFailure (fst result) /\
   saveCalls (trace (snd result)) = saveCalls (trace w) /\
   applications (snd result) = applications w /\
   fileUploads (snd result) = fileUploads w).
Proof.
  split; intros Hrefused; cbv zeta.
  - destruct (outcome_without_save _ _ _ _ _ _ _ _
                (fun fd => reachedSave_needs_resume _ _ _ _ _ fd Hrefused)
                (postV1_outcome env request w)) as (Hf & Ha & Hu & Hs & _).
    auto.
  - destruct (outcome_without_save _ _ _ _ _ _ _ _
                (fun fd => reachedSave_needs_resume _ _ _ _ _ fd Hrefused)
                (postV2_outcome env request w)) as (Hf & Ha & Hu & Hs & _).
    auto.
Qed.

(** The photograph is stored, the resume is refused: status 500 from both
    handlers, no application, and the photograph stays in the store. *)
Lemma resume_upload_failure_is_terminal_witness :
  let env := sampleEnv false true true in
  let request := sampleRequest "ada@example.com" in
  let v1 := Applications.POST env request emptyWorld in
  let v2 := ApplicationsV2.POST env request emptyWorld in
  (status (fst v1) = 500 /\
   member "message" (body (fst v1)) = Some (JStr "Failed to upload resume") /\
   storedObjects (snd v1) = ["socialmm/applications/photographs/1"] /\
   isFailure (fst v1) /\
   applications (snd v1) = []) /\
  (fst v2
   = ErrorHandler.createErrorResponse ErrorHandler.CLOUDINARY_UPLOAD_FAILED
       (Some "Failed to upload resume")
       (Some (JObj [("cloudinaryError", JStr "upload refused")])) /\
   storedObjects (snd v2) = ["uploads/applications/photographs/1"] /\
   isFailure (fst v2) /\
   applications (snd v2) = []).
Proof.
  intros env request v1 v2.
  assert (Hrefused : forall folder, resumeRefused env request folder)
    by (intros folder fd resume _ _; exists "upload refused"; reflexivity).
  destruct (resume_upload_failure_is_terminal env request emptyWorld)
    as [H1 H2].
  destruct (H1 (Hrefused _)) as (Hf1 & _ & Ha1 & _).
  destruct (H2 (Hrefused _)) as (Hf2 & _ & Ha2 & _).
  split.
  - split; [vm_compute; reflexivity|]. split; [vm_compute; reflexivity|].
    split; [vm_compute; reflexivity|]. split; [exact Hf1 | exact Ha1].
  - split; [vm_compute; reflexivity|]. split; [vm_compute; reflexivity|].
    split; [exact Hf2 | exact Ha2].
Defined.

(** ** A second submission under a stored email address *)

Lemma outcome_201 (env : Env) (request : Request) (w0 : World)
    (photographFolder resumeFolder : string) (duplicateResponse : Response)
    (success : ApplicationDoc -> Response) (result : Response * World) :
  outcome env request w0 photographFolder resumeFolder duplicateResponse success
    result ->
  status (fst result) = 201 ->
  completed env request w0 photographFolder resumeFolder success
    (fst result) (snd result).
Proof.
  intros [H|[[_ Hs] _]] H201; [exact H | contradiction].
Qed.

Lemma completed_stores_email (env : Env) (request : Request) (w0 : World)
    (photographFolder resumeFolder : string)
    (success : ApplicationDoc -> Response) (r : Response) (w : World)
    (fd : FormData) (email : string) :
  completed env request w0 photographFolder resumeFolder success r w ->
  formData request = Ok fd -> formGet fd "emailAddress" = FVString email ->
  exists application,
    applications w = (applications w0 ++ [application])%list /\
    docEmailAddress application = Some (Application.emailSetters email) /\
    r = success application.
Proof.
  intros (fd' & application & [Hfd' _] & (Ha & _) & He & Hr) Hfd Hemail.
  assert (fd' = fd) by congruence. subst fd'.
  exists application. rewrite He, Hemail. auto.
Qed.

Lemma stored_email_is_duplicate (fd : FormData) (email stored : string)
    (apps : list ApplicationDoc) (application : ApplicationDoc) :
  formGet fd "emailAddress" = FVString email ->
  Application.emailSetters stored = Application.emailSetters email ->
  docEmailAddress application = Some (Application.emailSetters stored) ->
  In application apps ->
  existsb (duplicateOf fd) apps = true.
Proof.
  intros Hemail Hnorm Hdoc Hin. apply existsb_exists.
  exists application. split; [exact Hin|].
  unfold duplicateOf. rewrite Hemail, Hdoc, Hnorm. cbn. apply String.eqb_refl.
Qed.

Lemma reachedSave_needs_fresh_email (env : Env) (request : Request) (w0 : World)
    (photographFolder resumeFolder : string) (fd fd' : FormData) :
  formData request = Ok fd ->
  existsb (duplicateOf fd) (applications w0) = true ->
  ~ reachedSave env request w0 photographFolder resumeFolder fd'.
Proof.
  intros Hfd Hdup (Hfd' & _ & _ & _ & _ & _ & _ & Hfind).
  assert (fd' = fd) by congruence. subst fd'.
  rewrite find_existsb, Hfind in Hdup. discriminate.
Qed.

(** The first submission was accepted by one of the two handlers. *)
Definition accepted (env : Env) (request : Request) (w w1 : World) : Prop :=
  (status (fst (Applications.POST env request w)) = 201 /\
   snd (Applications.POST env request w) = w1) \/
  (status (fst (ApplicationsV2.POST env request w)) = 201 /\
   snd (ApplicationsV2.POST env request w) = w1).

Lemma accepted_stores_email (env : Env) (request : Request) (w w1 : World)
    (fd : FormData) (email : string) :
  accepted env request w w1 ->
  formData request = Ok fd -> formGet fd "emailAddress" = FVString email ->
  exists application,
    In application (applications w1) /\
    docEmailAddress application = Some (Application.emailSetters email).
Proof.
  intros [[H201 <-]|[H201 <-]] Hfd Hemail.
  - destruct (completed_stores_email _ _ _ _ _ _ _ _ _ _
                (outcome_201 _ _ _ _ _ _ _ _ (postV1_outcome env request w) H201)
                Hfd Hemail) as (application & Ha & He & _).
    exists application. rewrite Ha. split; [apply in_or_app; right; now left | exact He].
  - destruct (completed_stores_email _ _ _ _ _ _ _ _ _ _
                (outcome_201 _ _ _ _ _ _ _ _ (postV2_outcome env request w) H201)
                Hfd Hemail) as (application & Ha & He & _).
    exists application. rewrite Ha. split; [apply in_or_app; right; now left | exact He].
Qed.

(** After a submission that either handler accepted, a submission whose
    email address is equal to the first after lowercasing and trimming fails
    on both handlers, makes no call of [application.save()] and adds no
    application; when it gets as far as the duplicate query and the
    database answers it, the applications handler answers with the
    duplicate message at status 409, and the v2 handler with
    [VALIDATION_FAILED] at status 400. *)
Lemma duplicate_email_is_refused (env : Env) (first second : Request)
    (fd1 fd2 : FormData) (email1 email2 : string) (w w1 : World) :
  formData first = Ok fd1 -> formGet fd1 "emailAddress" = FVString email1 ->
  formData second = Ok fd2 -> formGet fd2 "emailAddress" = FVString email2 ->
  Application.emailSetters email1 = Application.emailSetters email2 ->
  accepted env first w w1 ->
  (let r := Applications.POST env second w1 in
   isFailure (fst r) /\
   applications (snd r) = applications w1 /\
   fileUploads (snd r) = fileUploads w1 /\
   saveCalls (trace (snd r)) = saveCalls (trace w1) /\
   (findCalls (trace (snd r)) <> findCalls (trace w1) ->
    findOneError env (Some (Application.emailSetters email2)) = None ->
    fst r = duplicateResponseV1)) /\
  (let r := ApplicationsV2.POST env second w1 in
   isFailure (fst r) /\
   applications (snd r) = applications w1 /\
   fileUploads (snd r) = fileUploads w1 /\
   saveCalls (trace (snd r)) = saveCalls (trace w1) /\
   (findCalls (trace (snd r)) <> findCalls (trace w1) ->
    findOneError env (Some (Application.emailSetters email2)) = None ->
    fst r = duplicateResponseV2)) /\
  status duplicateResponseV1 = 409 /\
  status duplicateResponseV2 = 400 /\
  member "error" (body duplicateResponseV2) = Some (JStr "VALIDATION_FAILED").
Proof.
  intros Hfd1 He1 Hfd2 He2 Hnorm Hacc.
  destruct (accepted_stores_email _ _ _ _ _ _ Hacc Hfd1 He1)
    as (application & Hin & Hdoc).
  pose proof (stored_email_is_duplicate _ _ _ _ _ He2 Hnorm Hdoc Hin) as Hdup.
  assert (Hanswered :
            findOneError env (Some (Application.emailSetters email2)) = None ->
            ~ queryFailed env second).
  { intros Hnone (fd & Hfd & [[f Hf]|Hthrows]);
      assert (fd = fd2) by congruence; subst fd; rewrite He2 in *;
      [discriminate | exact (Hthrows Hnone)]. }
  split; [|split; [|repeat split]].
  - destruct (outcome_without_save _ _ _ _ _ _ _ _
                (fun fd => reachedSave_needs_fresh_email _ _ _ _ _ _ fd Hfd2 Hdup)
                (postV1_outcome env second w1)) as (Hf & Ha & Hu & Hs & Hq).
    cbv zeta. repeat split; try assumption; try apply Hf.
    intros Hne Hnone.
    destruct (Hq Hne) as [[Hr _]|Hfailed];
      [exact Hr | destruct (Hanswered Hnone Hfailed)].
  - destruct (outcome_without_save _ _ _ _ _ _ _ _
                (fun fd => reachedSave_needs_fresh_email _ _ _ _ _ _ fd Hfd2 Hdup)
                (postV2_outcome env second w1)) as (Hf & Ha & Hu & Hs & Hq).
    cbv zeta. repeat split; try assumption; try apply Hf.
    intros Hne Hnone.
    destruct (Hq Hne) as [[Hr _]|Hfailed];
      [exact Hr | destruct (Hanswered Hnone Hfailed)].
Qed.

(** C1: a complete application is accepted by the v2 handler, and a second
    submission of the same form, its address differing in case and
    surrounding spaces only, is refused by the v2 handler with
    [VALIDATION_FAILED] at status 400 and the message that an application
    with this email already exists; the applications handler refuses the
    same second submission at status 409.  Neither run adds an
    application. *)
Theorem duplicate_email_v2_status_400 :
  let env := sampleEnv true true true in
  let first := ApplicationsV2.POST env (sampleRequest "ada@example.com") emptyWorld in
  let second := ApplicationsV2.POST env (sampleRequest " ADA@Example.COM ") (snd first) in
  let secondV1 := Applications.POST env (sampleRequest " ADA@Example.COM ") (snd first) in
  status (fst first) = 201 /\
  List.length (applications (snd first)) = 1%nat /\
  fst second
  = ErrorHandler.createErrorResponse ErrorHandler.VALIDATION_FAILED
      (Some "Application with this email already exists") None /\
  status (fst second) = 400 /\
  member "error" (body (fst second)) = Some (JStr "VALIDATION_FAILED") /\
  applications (snd second) = applications (snd first) /\
  status (fst secondV1) = 409 /\
  member "message" (body (fst secondV1))
  = Some (JStr "An application with this email address already exists") /\
  applications (snd secondV1) = applications (snd first).
Proof. vm_compute. repeat split; reflexivity. Qed.

(** ** The cached connection *)

(** C9: when [connectDB] throws, the cache holds neither a connection nor
    a promise, so the next call issues a new [mongoose.connect] and settles
    as that new attempt does. *)
Theorem connectDB_failure_clears_cache (env : Env) (w w' : World)
    (error : JsError) :
  Mongodb.connectDB env w = (Thrown error, w') ->
  conn (cached w') = None /\
  promise (cached w') = None /\
  let retry := Mongodb.connectDB env w' in
  let attempt := connectCalls w' in
  trace (snd retry) = (trace w' ++ [EvConnect attempt])%list /\
  connectCalls (snd retry) = S attempt /\
  fst retry = match mongooseConnect env attempt with
              | inl mongooseInstance => Next mongooseInstance
              | inr e => Thrown e
              end /\
  (forall mongooseInstance,
     mongooseConnect env attempt = inl mongooseInstance ->
     cached (snd retry) = mkCache (Some mongooseInstance) (Some attempt)).
Proof.
  intros H.
  assert (Hc : conn (cached w') = None /\ promise (cached w') = None).
  { revert H. unfold Mongodb.connectDB.
    destruct (conn (cached w)); [discriminate|].
    destruct (promise (cached w)).
    - destruct (mongooseConnect env n); [discriminate|].
      intros [= _ <-]. split; reflexivity.
    - world_simpl. destruct (mongooseConnect env (connectCalls w)); [discriminate|].
      intros [= _ <-]. split; reflexivity. }
  destruct Hc as [Hconn Hpromise]. split; [exact Hconn|]. split; [exact Hpromise|].
  cbv zeta. unfold Mongodb.connectDB. rewrite Hconn, Hpromise.
  destruct (mongooseConnect env (connectCalls w')) as [m|e]; world_simpl.
  - repeat split. now intros m' [= <-].
  - repeat split. discriminate.
Qed.

(** The first attempt times out, the second call connects. *)
Lemma connectDB_failure_clears_cache_witness :
  let env := sampleEnv true true false in
  let failed := Mongodb.connectDB env emptyWorld in
  let retry := Mongodb.connectDB env (snd failed) in
  cached (snd failed) = mkCache None None /\
  fst retry = Next (MongooseInstance 1) /\
  trace (snd retry) = [EvConnect 0; EvConnect 1].
Proof.
  intros env failed retry.
  destruct (connectDB_failure_clears_cache env emptyWorld (snd failed)
              (mkError "MongoNetworkError" "connection timed out" None None [])
              eq_refl) as (Hconn & Hpromise & Htrace & _ & Hfst & _).
  split; [reflexivity|]. split; [exact Hfst | exact Htrace].
Defined.

(** ** File records are supplementary *)

Definition withFileUploadCreate (env : Env)
    (create : list FileUploadData -> option JsError) : Env :=
  mkEnv (NODE_ENV env) (NEXT_PUBLIC_APP_URL env) (CLOUDINARY_FOLDER_PREFIX env)
        (urlOrigin env) (mongooseConnect env) (cloudinaryUpload env)
        (castErrorMessage env) (findOneError env)
        (schemaErrors env) (saveError env) create (now env).

(** Two runs agree on what the client and the application collection see. *)
Definition sameOutcome {A} (x y : Outcome A * World) : Prop :=
  fst x = fst y /\ applications (snd x) = applications (snd y).

Lemma sameOutcome_refl {A} (x : Outcome A * World) : sameOutcome x x.
Proof. split; reflexivity. Qed.

Lemma sameOutcome_bind {A B} (m : M A) (k1 k2 : A -> M B) (w : World) :
  (forall a w', sameOutcome (k1 a w') (k2 a w')) ->
  sameOutcome (bind m k1 w) (bind m k2 w).
Proof.
  intros H. unfold bind. destruct (m w) as [[a|r|e] w'];
    [apply H | apply sameOutcome_refl | apply sameOutcome_refl].
Qed.

Lemma handleV2_ignores_fileUploadCreate (env : Env)
    (create : list FileUploadData -> option JsError) (request : Request)
    (w : World) :
  sameOutcome (ApplicationsV2.handle (withFileUploadCreate env create) request w)
              (ApplicationsV2.handle env request w).
Proof.
  unfold ApplicationsV2.handle.
  apply sameOutcome_bind; intros [] w1.
  apply (sameOutcome_bind (liftResult (Validation.validateOrigin env request)));
    intros originValidation w2.
  apply sameOutcome_bind; intros [] w3.
  apply (sameOutcome_bind (Mongodb.connectDB env)); intros mongoose w4.
  apply sameOutcome_bind; intros fd w5.
  apply sameOutcome_bind; intros [] w6.
  apply sameOutcome_bind; intros [] w7.
  apply sameOutcome_bind; intros photoValidation w8.
  apply sameOutcome_bind; intros [] w9.
  apply sameOutcome_bind; intros resumeValidation w10'.
  apply sameOutcome_bind; intros [] w11'.
  destruct (formGet fd "photograph"); try apply sameOutcome_refl.
  destruct (formGet fd "resume"); try apply sameOutcome_refl.
  destruct (buffer photoValidation); try apply sameOutcome_refl.
  destruct (buffer resumeValidation); try apply sameOutcome_refl.
  apply (sameOutcome_bind
           (Cloudinary.uploadToCloudinary env (mkDataUri (type f) l)
              (photographsFolder env) "image")); intros photographUpload w10.
  apply sameOutcome_bind; intros [] w11.
  apply (sameOutcome_bind
           (Cloudinary.uploadToCloudinary env (mkDataUri (type f0) l0)
              (resumesFolder env) "raw")); intros resumeUpload w12.
  apply sameOutcome_bind; intros [] w13.
  apply sameOutcome_bind; intros existingApplication w14.
  apply sameOutcome_bind; intros [] w15.
  apply (sameOutcome_bind (Application.new env _)); intros application w16.
  apply (sameOutcome_bind (Application.save env _ application)); intros [] w17.
  unfold bind, tryCatch, FileUpload_create, ret.
  cbn [fileUploadCreate withFileUploadCreate].
  destruct (create _), (fileUploadCreate env _); split; reflexivity.
Qed.

Lemma postV2_ignores_fileUploadCreate (env : Env)
    (create : list FileUploadData -> option JsError) (request : Request)
    (w : World) :
  fst (ApplicationsV2.POST (withFileUploadCreate env create) request w)
  = fst (ApplicationsV2.POST env request w) /\
  applications (snd (ApplicationsV2.POST (withFileUploadCreate env create) request w))
  = applications (snd (ApplicationsV2.POST env request w)).
Proof.
  unfold ApplicationsV2.POST.
  destruct (handleV2_ignores_fileUploadCreate env create request w) as [Ho Ha].
  destruct (ApplicationsV2.handle (withFileUploadCreate env create) request w)
    as [o1 w1], (ApplicationsV2.handle env request w) as [o2 w2].
  cbn [fst snd] in Ho, Ha. subst o2.
  destruct o1 as [r|r|e]; cbn [fst snd]; split; try reflexivity; exact Ha.
Qed.

(** C8: in the v2 handler, a run in which the application was written
    answers with status 201 and the identifier of the written application,
    whatever [FileUpload.create] did; and replacing the outcome of
    [FileUpload.create] by any other (a throw by a success, a success by a
    throw) changes neither the response nor the application collection. *)
Theorem file_record_failure_is_invisible (env : Env) (request : Request)
    (w : World) :
  (applications (snd (ApplicationsV2.POST env request w)) <> applications w ->
   exists application,
     applications (snd (ApplicationsV2.POST env request w))
     = (applications w ++ [application])%list /\
     fst (ApplicationsV2.POST env request w) = successV2 application /\
     status (fst (ApplicationsV2.POST env request w)) = 201 /\
     member "success" (body (fst (ApplicationsV2.POST env request w)))
     = Some (JBool true) /\
     option_map (member "applicationId")
       (member "data" (body (fst (ApplicationsV2.POST env request w))))
     = Some (Some (JId (_id application)))) /\
  (forall create,
     fst (ApplicationsV2.POST (withFileUploadCreate env create) request w)
     = fst (ApplicationsV2.POST env request w) /\
     applications (snd (ApplicationsV2.POST (withFileUploadCreate env create)
                          request w))
     = applications (snd (ApplicationsV2.POST env request w))).
Proof.
  split; [|intros create; apply postV2_ignores_fileUploadCreate].
  intros Hchanged.
  destruct (postV2_outcome env request w)
    as [(fd & application & _ & (Ha & _) & _ & Hr)|[_ H]].
  - exists application. rewrite Hr. repeat split. exact Ha.
  - exfalso. apply Hchanged.
    destruct H as [(Ha & _)|[[(Ha & _) _]|[(Ha & _) _]]]; exact Ha.
Qed.

(** The application is written, both file records are refused: status 201
    with the identifier of the application, and no file record. *)
Lemma file_record_failure_is_invisible_witness :
  let env := sampleEnv true false true in
  let run := ApplicationsV2.POST env (sampleRequest "ada@example.com") emptyWorld in
  status (fst run) = 201 /\
  (exists application,
     applications (snd run) = [application] /\
     fst run = successV2 application) /\
  fileUploads (snd run) = [] /\
  calls (fun ev => match ev with EvFileUploadCreate => true | _ => false end)
        (trace (snd run)) = 1%nat.
Proof.
  intros env run.
  destruct (file_record_failure_is_invisible env
              (sampleRequest "ada@example.com") emptyWorld) as [H _].
  destruct H as (application & Ha & Hr & H201 & _); [vm_compute; discriminate|].
  split; [exact H201|]. split; [exists application; split; [exact Ha | exact Hr]|].
  split; vm_compute; reflexivity.
Defined.

(* ================================================================== *)
(** * Further properties of the validators *)
(* ================================================================== *)

(** ** [validateFormData] *)

(** A string entry that holds a URL under a key other than the three link
    fields. *)
Definition offending (entry : string * FormValue) : bool :=
  match snd entry with
  | FVString s =>
      Validation.containsExternalUrl s &&
      negb (Js.arrayIncludes ["linkedinUrl"; "githubUrl"; "portfolioUrl"] (fst entry))
  | _ => false
  end.

Lemma validateFormData_valid (fd : FormData) :
  valid (Validation.validateFormData fd) = negb (existsb offending fd).
Proof.
  induction fd as [|[key value] fd IH]; [reflexivity|].
  cbn [Validation.validateFormData existsb]. unfold offending at 1. cbn [fst snd].
  destruct value as [|s|f]; try exact IH.
  destruct (Validation.containsExternalUrl s &&
            negb (Js.arrayIncludes ["linkedinUrl"; "githubUrl"; "portfolioUrl"] key));
    [reflexivity | exact IH].
Qed.

(** X1: [validateFormData] is valid exactly when no entry is offending, and
    otherwise its error names the key of the first offending entry; file
    entries are never looked at. *)
Theorem validateFormData_first_offender (before after : FormData)
    (key : string) (value : FormValue) :
  existsb offending before = false ->
  offending (key, value) = true ->
  Validation.validateFormData (before ++ (key, value) :: after)%list
  = invalid ("Field " ++ dquote ++ key ++ dquote ++ " contains unauthorized URL")
  /\ (forall fd, valid (Validation.validateFormData fd) = true <->
                 forall entry, In entry fd -> offending entry = false)
  /\ (forall fd, (forall entry, In entry fd -> exists f, snd entry = FVFile f) ->
                 valid (Validation.validateFormData fd) = true).
Proof.
  intros Hbefore Hoff. split; [|split].
  - induction before as [|[k v] before IH].
    + cbn [app Validation.validateFormData]. unfold offending in Hoff.
      cbn [fst snd] in Hoff. destruct value as [|s|f]; try discriminate.
      now rewrite Hoff.
    + cbn [existsb] in Hbefore. apply orb_false_iff in Hbefore as [Hkv Hrest].
      cbn [app Validation.validateFormData]. unfold offending in Hkv.
      cbn [fst snd] in Hkv. destruct v as [|s|f]; auto.
      now rewrite Hkv; auto.
  - intros fd. rewrite validateFormData_valid, negb_true_iff.
    split.
    + intros H entry Hin. destruct (offending entry) eqn:E; [|reflexivity].
      assert (existsb offending fd = true) by (apply existsb_exists; eauto).
      congruence.
    + intros H. destruct (existsb offending fd) eqn:E; [|reflexivity].
      apply existsb_exists in E as (entry & Hin & Ho). rewrite (H _ Hin) in Ho.
      discriminate.
  - intros fd Hfiles. rewrite validateFormData_valid, negb_true_iff.
    destruct (existsb offending fd) eqn:E; [|reflexivity].
    apply existsb_exists in E as (entry & Hin & Ho).
    destruct (Hfiles _ Hin) as [f Hf]. unfold offending in Ho. rewrite Hf in Ho.
    discriminate.
Qed.

Lemma validateFormData_first_offender_witness :
  Validation.validateFormData
    [("githubUrl", FVString "https://github.example/ada");
     ("photograph", FVFile (mkFile "http://x/y.jpg" "image/jpeg" 1 [0xFF]));
     ("city", FVString "HTTP://evil.example");
     ("state", FVString "https://also.example")]
  = invalid ("Field " ++ dquote ++ "city" ++ dquote ++ " contains unauthorized URL").
Proof.
  apply (validateFormData_first_offender
           [("githubUrl", FVString "https://github.example/ada");
            ("photograph", FVFile (mkFile "http://x/y.jpg" "image/jpeg" 1 [0xFF]))]
           [("state", FVString "https://also.example")]
           "city" (FVString "HTTP://evil.example")); reflexivity.
Defined.

(** ** [containsExternalUrl] *)

(** X2: [containsExternalUrl] holds exactly for the strings that begin, in
    any letter case, with [http://] or [https://]. *)
Theorem containsExternalUrl_iff (value : string) :
  Validation.containsExternalUrl value = true <->
  exists scheme rest,
    value = scheme ++ rest /\
    (foldCaseString scheme = "http://" \/ foldCaseString scheme = "https://").
Proof.
  split.
  - unfold Validation.containsExternalUrl. intros H.
    assert (Hp : exists p, (p = Js.chars "http://" \/ p = Js.chars "https://") /\
                           Js.prefixL p (map Js.foldCase (Js.chars value)) = true).
    { apply orb_true_iff in H as [H|H]; eauto. }
    destruct Hp as (p & Hp & Hpre).
    destruct (prefixL_split _ _ Hpre) as [r Hr].
    exists (Js.str (firstn (List.length p) (Js.chars value))),
           (Js.str (skipn (List.length p) (Js.chars value))).
    split.
    + rewrite <- (str_chars value) at 1.
      rewrite <- (firstn_skipn (List.length p) (Js.chars value)) at 1.
      rewrite <- (str_chars (Js.str _ ++ Js.str _)), chars_append, !chars_str.
      reflexivity.
    + assert (E : foldCaseString (Js.str (firstn (List.length p) (Js.chars value)))
                  = Js.str p).
      { unfold foldCaseString. rewrite chars_str, <- firstn_map, Hr.
        rewrite firstn_app, firstn_all, Nat.sub_diag, firstn_0, app_nil_r.
        reflexivity. }
      rewrite E. destruct Hp as [-> | ->]; [left | right]; reflexivity.
  - intros (scheme & rest & -> & H). now apply containsExternalUrl_prefix.
Qed.

(** ** [validateFileSignature] *)

Lemma FILE_SIGNATURES_cases (mimeType : string) :
  (exists signature,
     knownSignature mimeType signature /\
     ~ In mimeType Js.objectPrototypeKeys /\
     FILE_SIGNATURES mimeType = Js.Own [signature]) \/
  ((forall signature, ~ knownSignature mimeType signature) /\
   In mimeType Js.objectPrototypeKeys /\
   FILE_SIGNATURES mimeType = Js.Inherited) \/
  ((forall signature, ~ knownSignature mimeType signature) /\
   ~ In mimeType Js.objectPrototypeKeys /\
   FILE_SIGNATURES mimeType = Js.Undefined).
Proof.
  assert (Hnone : forall l : Js.Lookup (list (list Z)),
             FILE_SIGNATURES mimeType = l -> (forall a, l <> Js.Own a) ->
             forall signature, ~ knownSignature mimeType signature).
  { intros l E Hl signature Hk. rewrite (knownSignature_table _ _ Hk) in E.
    exact (Hl _ (eq_sym E)). }
  unfold FILE_SIGNATURES in *.
  destruct (lookup_cases
              [("image/jpeg", [[0xFF; 0xD8; 0xFF]]);
               ("image/png", [[0x89; 0x50; 0x4E; 0x47]]);
               ("image/webp", [[0x52; 0x49; 0x46; 0x46]]);
               ("application/pdf", [[0x25; 0x50; 0x44; 0x46]])] mimeType)
    as [(a & Hin & E)|[[Hk E]|[Hk E]]].
  - left. destruct Hin as [[= <- <-]|[[= <- <-]|[[= <- <-]|[[= <- <-]|[]]]]];
      eexists; (split; [unfold knownSignature; intuition eauto|]);
      (split; [|reflexivity]); intros Hk; cbn in Hk;
      repeat (destruct Hk as [Hk|Hk]; [discriminate|]); exact Hk.
  - right; left. split; [|split; assumption].
    apply (Hnone _ E). discriminate.
  - right; right. split; [|split; assumption].
    apply (Hnone _ E). discriminate.
Qed.

(** X3: in both validators the signature check returns [true] exactly when
    the declared type is no property name of [Object.prototype] and either
    has no entry in the signature table or the content begins with its
    signature; it throws a [TypeError] exactly when the declared type is a
    property name of [Object.prototype]; a content shorter than the
    signature of its type is answered [false]; and the two validators agree
    on every content and type. *)
Theorem validateFileSignature_iff (content : list Z) (mimeType : string) :
  (Validation.validateFileSignature content mimeType = Ok true <->
   ~ In mimeType Js.objectPrototypeKeys /\
   forall signature, knownSignature mimeType signature ->
                     firstn (List.length signature) content = signature) /\
  (Validation.validateFileSignature content mimeType
   = Throw (TypeError "signatures.some is not a function") <->
   In mimeType Js.objectPrototypeKeys) /\
  FileValidation.validateFileSignature content mimeType
  = Validation.validateFileSignature content mimeType /\
  (forall signature, knownSignature mimeType signature ->
     (List.length content < List.length signature)%nat ->
     Validation.validateFileSignature content mimeType = Ok false).
Proof.
  unfold FileValidation.validateFileSignature, Validation.validateFileSignature.
  destruct (FILE_SIGNATURES_cases mimeType)
    as [(signature & Hk & Hkey & ->)|[(Hno & Hkey & ->)|(Hno & Hkey & ->)]].
  - cbn [Js.some existsb]. rewrite orb_false_r.
    assert (Hsame : forall other, knownSignature mimeType other -> other = signature).
    { intros other Ho. pose proof (knownSignature_table _ _ Ho) as E.
      rewrite (knownSignature_table _ _ Hk) in E. now injection E. }
    split; [|split; [|split; [reflexivity|]]].
    + split.
      * intros [= H]. split; [exact Hkey|]. intros other Ho.
        rewrite (Hsame _ Ho). now apply signatureMatches_prefix.
      * intros [_ H]. f_equal. apply signatureMatches_prefix. now apply H.
    + split; [discriminate | intros H; destruct (Hkey H)].
    + intros other Ho Hshort. rewrite (Hsame _ Ho) in Hshort. f_equal.
      destruct (signatureMatches content signature) eqn:E; [|reflexivity].
      apply signatureMatches_prefix in E.
      assert (Hlen : List.length (firstn (List.length signature) content)
                     = List.length signature) by now rewrite E.
      rewrite length_firstn in Hlen. lia.
  - split; [|split; [|split; [reflexivity|]]].
    + split; [discriminate | intros [H _]; destruct (H Hkey)].
    + split; [intros _; exact Hkey | reflexivity].
    + intros signature Hk. destruct (Hno _ Hk).
  - split; [|split; [|split; [reflexivity|]]].
    + split; [intros _; split; [exact Hkey|] | reflexivity].
      intros signature Hk. destruct (Hno _ Hk).
    + split; [discriminate | intros H; destruct (Hkey H)].
    + intros signature Hk. destruct (Hno _ Hk).
Qed.

(** Two bytes of a PNG signature fail the check, any two bytes pass under
    a type without signature, and the type [constructor] throws. *)
Lemma validateFileSignature_iff_witness :
  Validation.validateFileSignature [0x89; 0x50] "image/png" = Ok false /\
  Validation.validateFileSignature [0x89; 0x50] "image/gif" = Ok true /\
  Validation.validateFileSignature [0x89; 0x50] "constructor"
  = Throw (TypeError "signatures.some is not a function").
Proof.
  destruct (validateFileSignature_iff [0x89; 0x50] "image/png") as (_ & _ & _ & Hshort).
  destruct (validateFileSignature_iff [0x89; 0x50] "image/gif") as (Hiff & _ & _).
  destruct (validateFileSignature_iff [0x89; 0x50] "constructor") as (_ & Hthrow & _).
  split; [|split].
  - apply (Hshort [0x89; 0x50; 0x4E; 0x47]); [|cbn; lia].
    right; left. split; reflexivity.
  - apply Hiff. split.
    + intros Hk. cbn in Hk.
      repeat (destruct Hk as [Hk|Hk]; [discriminate|]). exact Hk.
    + intros signature [[H _]|[[H _]|[[H _]|[H _]]]]; discriminate.
  - apply Hthrow. now left.
Defined.

(** ** [validateFile] of [validation.js], as a whole *)

Lemma allow_lists (category : string) (allowed : list string) :
  Validation.ALLOWED_MIME_TYPES category = Js.Own allowed ->
  category = "IMAGE" \/ category = "PDF".
Proof.
  unfold Validation.ALLOWED_MIME_TYPES. intros H.
  destruct (lookup_cases [("IMAGE", ["image/jpeg"; "image/png"; "image/webp"]);
                          ("PDF", ["application/pdf"])] category)
    as [(a & Hin & E)|[[_ E]|[_ E]]]; rewrite E in H; try discriminate.
  destruct Hin as [[= <- _]|[[= <- _]|[]]]; auto.
Qed.

(** The conditions under which [validateFile] of [validation.js] lets a
    form value through. *)
Definition acceptable (v : FormValue) (category : string) (file : File) : Prop :=
  v = FVFile file /\
  Validation.containsExternalUrl (name file) = false /\
  (exists allowed,
     Validation.ALLOWED_MIME_TYPES category = Js.Own allowed /\
     In (type file) allowed) /\
  (exists maxSize,
     Validation.FILE_SIZE_LIMITS category = Js.Own maxSize /\
     size file <> 0 /\ size file <= maxSize) /\
  Validation.validateFileSignature (arrayBuffer file) (type file) = Ok true.

(** X4: [validateFile] accepts a form value exactly when it is a file whose
    name is no URL, whose declared type is on the category's list, whose
    size is not 0 and not above the category's limit, and whose content
    passes the signature check; and for such a file the result is the valid
    one that carries the sanitized name and the content that was read. *)
Theorem validateFile_accepts_iff (v : FormValue) (category : string) :
  (accepts (Validation.validateFile v category) = true <->
   exists file, acceptable v category file) /\
  (forall file,
     acceptable v category file ->
     Validation.validateFile v category
     = Ok (mkValidation true None
             (Some (Validation.sanitizeFilename (name file)))
             (Some (arrayBuffer file)))).
Proof.
  assert (Hresult : forall file,
             acceptable v category file ->
             Validation.validateFile v category
             = Ok (mkValidation true None
                     (Some (Validation.sanitizeFilename (name file)))
                     (Some (arrayBuffer file)))).
  { intros file (-> & Hurl & (allowed & Ea & Hin) & (maxSize & El & Hz & Hm) & Hsig).
    unfold Validation.validateFile, Validation.validateMimeType,
      Validation.validateFileSize.
    rewrite Hurl, Ea, El, Hsig, (proj2 (arrayIncludes_In _ _) Hin).
    apply Z.eqb_neq in Hz. rewrite Hz.
    assert (Hgt : (size file >? maxSize) = false)
      by (rewrite Z.gtb_ltb; apply Z.ltb_ge; exact Hm).
    rewrite Hgt. reflexivity. }
  split; [split|exact Hresult].
  - destruct v as [|s|file]; try discriminate.
    intros Hsteps. rewrite validateFile_steps in Hsteps.
    apply andb_true_iff in Hsteps as [Hsteps Hsig].
    apply andb_true_iff in Hsteps as [Hsteps Hsize].
    apply andb_true_iff in Hsteps as [Hurl Hmime].
    apply negb_true_iff in Hurl.
    destruct (Validation.ALLOWED_MIME_TYPES category) as [allowed| |] eqn:Ea;
      try (unfold Validation.validateMimeType in Hmime; rewrite Ea in Hmime;
           discriminate).
    assert (Hl : exists maxSize, Validation.FILE_SIZE_LIMITS category = Js.Own maxSize)
      by (destruct (allow_lists _ _ Ea) as [-> | ->]; eexists; reflexivity).
    destruct Hl as [maxSize El].
    rewrite (validateMimeType_valid _ _ _ Ea) in Hmime.
    rewrite (validateFileSize_valid _ _ _ El) in Hsize.
    apply andb_true_iff in Hsize as [Hz Hm].
    apply negb_true_iff in Hz, Hm. apply Z.eqb_neq in Hz.
    rewrite Z.gtb_ltb in Hm. apply Z.ltb_ge in Hm.
    exists file. split; [reflexivity|]. split; [exact Hurl|].
    split; [exists allowed; split; [exact Ea | now apply arrayIncludes_In]|].
    split; [exists maxSize; auto|].
    destruct (Validation.validateFileSignature (arrayBuffer file) (type file))
      as [[|]|e]; [reflexivity | discriminate | discriminate].
  - intros [file H]. now rewrite (Hresult file H).
Qed.

(** ** [validateOrigin] of [validation.js] *)

Definition inProduction (env : Env) : bool :=
  match NODE_ENV env with
  | Some e => String.eqb e "production"
  | None => false
  end.

(** X5: in production [validateOrigin] accepts a request exactly when the
    application URL is configured and parses, and either the [Origin]
    header is, character for character, the application's origin, or there
    is no [Origin] header and the [Referer] parses to that origin.  A
    present [Origin] header decides alone: the [Referer] is not read. *)
Theorem validateOrigin_production (env : Env) (request : Request) :
  inProduction env = true ->
  ((exists v, Validation.validateOrigin env request = Ok v /\ valid v = true) <->
   exists appUrl allowedOrigin,
     nonEmpty (NEXT_PUBLIC_APP_URL env) = Some appUrl /\
     urlOrigin env appUrl = Some allowedOrigin /\
     (nonEmpty (headerGet request "origin") = Some allowedOrigin \/
      nonEmpty (headerGet request "origin") = None /\
      exists referer, nonEmpty (headerGet request "referer") = Some referer /\
                      urlOrigin env referer = Some allowedOrigin)) /\
  (forall origin other,
     nonEmpty (headerGet request "origin") = Some origin ->
     nonEmpty (headerGet other "origin") = Some origin ->
     Validation.validateOrigin env other = Validation.validateOrigin env request).
Proof.
  intros Hprod. unfold inProduction in Hprod. split.
  - unfold Validation.validateOrigin. rewrite Hprod.
    destruct (nonEmpty (NEXT_PUBLIC_APP_URL env)) as [appUrl|];
      [|split; [intros (v & [=] & _) | intros (a & o & [=] & _)]].
    destruct (nonEmpty (headerGet request "origin")) as [origin|].
    + destruct (urlOrigin env appUrl) as [allowedOrigin|] eqn:Ea;
        [|split; [intros (v & [=] & _) | intros (a & o & [= <-] & Ho & _); congruence]].
      destruct (String.eqb origin allowedOrigin) eqn:E; cbn [negb].
      * apply String.eqb_eq in E; subst origin.
        split; [|intros _; eexists; split; reflexivity].
        intros _. exists appUrl, allowedOrigin.
        split; [reflexivity|]. split; [exact Ea|]. now left.
      * apply String.eqb_neq in E. split.
        -- intros (v & [= <-] & Hv). discriminate.
        -- intros (a & o & [= <-] & Ho & [[= Ho']|[[=] _]]). congruence.
    + destruct (nonEmpty (headerGet request "referer")) as [referer|].
      * destruct (urlOrigin env referer) as [requestOrigin|] eqn:Er;
          [|split; [intros (v & [=] & _)
                   | intros (a & o & _ & _ & [[=]|[_ (r & [= <-] & Hr)]]); congruence]].
        destruct (urlOrigin env appUrl) as [allowedOrigin|] eqn:Ea;
          [|split; [intros (v & [=] & _)
                   | intros (a & o & [= <-] & Ho & _); congruence]].
        destruct (String.eqb requestOrigin allowedOrigin) eqn:E; cbn [negb].
        -- apply String.eqb_eq in E; subst requestOrigin.
           split; [|intros _; eexists; split; reflexivity].
           intros _. exists appUrl, allowedOrigin. split; [reflexivity|].
           split; [exact Ea|]. right. split; [reflexivity|]. now exists referer.
        -- apply String.eqb_neq in E. split.
           ++ intros (v & [= <-] & Hv). discriminate.
           ++ intros (a & o & [= <-] & Ho & [[=]|[_ (r & [= <-] & Hr)]]).
              congruence.
      * split.
        -- intros (v & [= <-] & Hv). discriminate.
        -- intros (a & o & _ & _ & [[=]|[_ (r & [=] & _)]]).
  - intros origin other Ho Hother. unfold Validation.validateOrigin.
    rewrite Hprod, Ho, Hother. reflexivity.
Qed.

(** X6: without a configured application URL [validateOrigin] throws in
    every mode and for every request; with one, outside production, it
    accepts every request whatever its headers. *)
Theorem validateOrigin_outside_production (env : Env) (request : Request) :
  (nonEmpty (NEXT_PUBLIC_APP_URL env) = None ->
   Validation.validateOrigin env request
   = Throw (mkError "Error" "NEXT_PUBLIC_APP_URL not configured" None None [])) /\
  (nonEmpty (NEXT_PUBLIC_APP_URL env) <> None -> inProduction env = false ->
   Validation.validateOrigin env request = Ok (mkValidation true None None None)).
Proof.
  unfold Validation.validateOrigin, inProduction. split.
  - now intros ->.
  - intros Hurl Hdev. destruct (nonEmpty (NEXT_PUBLIC_APP_URL env)); [|congruence].
    now rewrite Hdev.
Qed.

Lemma validateOrigin_production_witness :
  exists v,
    Validation.validateOrigin (sampleEnv true true true)
      (mkRequest [("Origin", "https://forms.example");
                  ("Referer", "https://elsewhere.example/page")]
                 (Ok []))
    = Ok v /\ valid v = true.
Proof.
  apply (proj1 (validateOrigin_production (sampleEnv true true true)
                  (mkRequest [("Origin", "https://forms.example");
                              ("Referer", "https://elsewhere.example/page")]
                             (Ok []))
                  eq_refl)).
  exists "https://forms.example", "https://forms.example".
  split; [reflexivity|]. split; [reflexivity|]. left. reflexivity.
Defined.

(** ** [validateFile] of [fileValidation] *)

(** X7: [validateFile] of [fileValidation] accepts a file exactly when its
    declared type and the ending of its lower-cased name are both on the
    category's lists, its size is not 0 and not above the category's
    limit, and, when a content is passed, the content passes the signature
    check. *)
Theorem fileValidation_validateFile_accepts_iff (file : File) (category : string)
    (content : option (list Z)) :
  accepts (FileValidation.validateFile file category content) = true <->
  exists config,
    FileValidation.FILE_CONFIG category = Js.Own config /\
    In (type file) (FileValidation.allowedTypes config) /\
    (exists ext, In ext (FileValidation.allowedExtensions config) /\
                 Js.endsWith (Js.toLowerCase (name file)) ext = true) /\
    size file <> 0 /\ size file <= FileValidation.maxSize config /\
    (forall bytes, content = Some bytes ->
       FileValidation.validateFileSignature bytes (type file) = Ok true).
Proof.
  unfold FileValidation.validateFile, FileValidation.validateFileType,
    FileValidation.validateFileSize.
  destruct (FileValidation.FILE_CONFIG category) as [config| |] eqn:Ec;
    try (cbn [accepts negb valid invalid];
         split; [discriminate | intros (c & [=] & _)]).
  destruct (Js.arrayIncludes (FileValidation.allowedTypes config) (type file)) eqn:Et;
    cbn [andb negb].
  2:{ cbn [accepts negb valid invalid]. split; [discriminate|].
      intros (c & [= <-] & Hin & _). apply arrayIncludes_In in Hin. congruence. }
  apply arrayIncludes_In in Et.
  destruct (Js.some _ (FileValidation.allowedExtensions config)) eqn:Ee; cbn [negb].
  2:{ cbn [accepts negb valid invalid]. split; [discriminate|].
      intros (c & [= <-] & _ & (ext & Hin & Hends) & _).
      assert (Js.some (fun ext => Js.endsWith (Js.toLowerCase (name file)) ext)
                (FileValidation.allowedExtensions config) = true)
        by (apply existsb_exists; eauto).
      congruence. }
  apply existsb_exists in Ee. cbn [valid negb].
  destruct (size file >? FileValidation.maxSize config) eqn:Em;
    cbn [accepts negb valid invalid].
  { split; [discriminate|]. intros (c & [= <-] & _ & _ & _ & Hle & _).
    rewrite Z.gtb_ltb in Em. apply Z.ltb_lt in Em. lia. }
  rewrite Z.gtb_ltb in Em. apply Z.ltb_ge in Em.
  destruct (size file =? 0) eqn:Ez; cbn [accepts negb valid invalid].
  { split; [discriminate|]. intros (c & _ & _ & _ & Hz & _).
    apply Z.eqb_eq in Ez. contradiction. }
  apply Z.eqb_neq in Ez.
  destruct content as [bytes|].
  - destruct (FileValidation.validateFileSignature bytes (type file))
      as [[|]|e] eqn:Es; cbn [accepts negb valid invalid].
    + split; [|reflexivity]. intros _. exists config.
      repeat (split; [first [reflexivity | assumption]|]).
      now intros b [= <-].
    + split; [discriminate|]. intros (c & _ & _ & _ & _ & _ & Hs).
      specialize (Hs _ eq_refl). congruence.
    + split; [discriminate|]. intros (c & _ & _ & _ & _ & _ & Hs).
      specialize (Hs _ eq_refl). congruence.
  - cbn [accepts negb valid]. split; [|reflexivity]. intros _. exists config.
    repeat (split; [first [reflexivity | assumption]|]). discriminate.
Qed.

(** X8: a file declared as [image/jpg] is validated without a look at its
    content: the type is on the image list of [fileValidation] but has no
    entry in the signature table, so the result with any content is the
    result with none. *)
Theorem image_jpg_content_unchecked (file : File) (category : string)
    (content : list Z) :
  type file = "image/jpg" ->
  FileValidation.validateFile file category (Some content)
  = FileValidation.validateFile file category None /\
  FileValidation.validateFileClient file category
  = FileValidation.validateFile file category None.
Proof.
  intros Ht. unfold FileValidation.validateFileClient, FileValidation.validateFile,
    FileValidation.validateFileSignature.
  rewrite Ht. split; reflexivity.
Qed.

Lemma image_jpg_content_unchecked_witness :
  accepts (FileValidation.validateFileClient
             (mkFile "cv.jpg" "image/jpg" 5 [0x25; 0x50; 0x44; 0x46; 0x2D]) "image")
  = true.
Proof.
  rewrite (proj2 (image_jpg_content_unchecked
                    (mkFile "cv.jpg" "image/jpg" 5 [0x25; 0x50; 0x44; 0x46; 0x2D])
                    "image" [] eq_refl)).
  reflexivity.
Defined.

(** ** [sanitizeFileName] of [fileValidation] *)

(** The length limit of [sanitizeFileName] on a name already stripped and
    cleaned. *)
Definition limitLength (sanitized : list ascii) : list ascii :=
  if Z.of_nat (List.length sanitized) >? 100
  then
    let ext := Js.substringFromL sanitized (Js.lastIndexOfL "." sanitized) in
    (Js.substringL sanitized 0 (100 - Z.of_nat (List.length ext)) ++ ext)%list
  else sanitized.

Lemma sanitizeFileNameL_limit (l : list ascii) :
  FileValidation.sanitizeFileNameL l = limitLength (replaceUnsafe (stripTraversal l)).
Proof. reflexivity. Qed.

Lemma Forall_substringL (P : ascii -> Prop) (l : list ascii) (i j : Z) :
  Forall P l -> Forall P (Js.substringL l i j).
Proof.
  intros H. unfold Js.substringL. rewrite Forall_forall in *. intros c Hc.
  set (n := Z.to_nat _) in Hc. set (lo := Z.to_nat _) in Hc.
  apply H. rewrite <- (firstn_skipn lo l). apply in_or_app; right.
  rewrite <- (firstn_skipn n (skipn lo l)). apply in_or_app; now left.
Qed.

Lemma limitLength_safe (l : list ascii) :
  Forall (fun c => safeChar c = true) l ->
  Forall (fun c => safeChar c = true) (limitLength l).
Proof.
  intros H. unfold limitLength.
  destruct (Z.of_nat (List.length l) >? 100); [|exact H].
  apply Forall_app. split; apply Forall_substringL; exact H.
Qed.

Lemma substringL_empty (l : list ascii) (j : Z) : j <= 0 -> Js.substringL l 0 j = [].
Proof.
  intros Hj. unfold Js.substringL, Js.clamp.
  replace (Z.max (Z.max 0 (Z.min 0 (Z.of_nat (List.length l))))
                 (Z.max 0 (Z.min j (Z.of_nat (List.length l)))) -
           Z.min (Z.max 0 (Z.min 0 (Z.of_nat (List.length l))))
                 (Z.max 0 (Z.min j (Z.of_nat (List.length l))))) with 0 by lia.
  reflexivity.
Qed.

Lemma substringFromL_whole (l : list ascii) (k : Z) :
  k <= 0 -> Js.substringFromL l k = l.
Proof.
  intros Hk. unfold Js.substringFromL, Js.substringL, Js.clamp.
  set (len := Z.of_nat (List.length l)).
  assert (0 <= len) by (unfold len; lia).
  replace (Z.min (Z.max 0 (Z.min k len)) (Z.max 0 (Z.min len len))) with 0 by lia.
  replace (Z.max (Z.max 0 (Z.min k len)) (Z.max 0 (Z.min len len)) - 0) with len by lia.
  cbn [Z.to_nat skipn]. apply firstn_all2. unfold len. lia.
Qed.

Lemma lastIndexOfL_tail (c : ascii) (l : list ascii) :
  0 <= Js.lastIndexOfL c l ->
  Js.lastIndexOfL c (skipn (Z.to_nat (Js.lastIndexOfL c l)) l) = 0.
Proof.
  induction l as [|x l IH]; cbn [Js.lastIndexOfL]; [lia|].
  destruct (0 <=? Js.lastIndexOfL c l) eqn:E.
  - apply Z.leb_le in E. intros _.
    replace (Z.to_nat (Js.lastIndexOfL c l + 1))
      with (S (Z.to_nat (Js.lastIndexOfL c l))) by lia.
    cbn [skipn]. auto.
  - destruct (Ascii.eqb x c) eqn:Ex; [|lia]. intros _.
    cbn [Z.to_nat skipn Js.lastIndexOfL]. now rewrite E, Ex.
Qed.

(** The part of [l] from its last [.] on; the whole of [l] when it holds
    none. *)
Definition extensionOf (l : list ascii) : list ascii :=
  Js.substringFromL l (Js.lastIndexOfL "." l).

Lemma extensionOf_length (l : list ascii) :
  (List.length (extensionOf l) <= List.length l)%nat.
Proof.
  unfold extensionOf, Js.substringFromL, Js.substringL.
  rewrite length_firstn, length_skipn. lia.
Qed.

Lemma extensionOf_fixed (l : list ascii) : extensionOf (extensionOf l) = extensionOf l.
Proof.
  unfold extensionOf at 2 3.
  destruct (Z.leb_spec 0 (Js.lastIndexOfL "." l)) as [Hk|Hk].
  - pose proof (lastIndexOfL_range "." l).
    rewrite substringFromL_skipn by lia.
    unfold extensionOf. rewrite lastIndexOfL_tail by exact Hk.
    apply substringFromL_whole. lia.
  - rewrite substringFromL_whole by lia.
    unfold extensionOf. apply substringFromL_whole. lia.
Qed.

Lemma limitLength_cases (l : list ascii) :
  ((List.length l <= 100)%nat /\ limitLength l = l) \/
  ((List.length l > 100)%nat /\ (List.length (extensionOf l) > 100)%nat /\
   limitLength l = extensionOf l) \/
  ((List.length l > 100)%nat /\ (List.length (extensionOf l) <= 100)%nat /\
   limitLength l = (firstn (100 - List.length (extensionOf l)) l ++ extensionOf l)%list /\
   List.length (limitLength l) = 100%nat).
Proof.
  unfold limitLength. fold (extensionOf l).
  destruct (Z.of_nat (List.length l) >? 100) eqn:E.
  - rewrite Z.gtb_ltb in E. apply Z.ltb_lt in E. right.
    destruct (Nat.leb_spec (List.length (extensionOf l)) 100) as [He|He].
    + right. rewrite substringL_from_0 by lia.
      replace (Z.to_nat (100 - Z.of_nat (List.length (extensionOf l))))
        with (100 - List.length (extensionOf l))%nat by lia.
      repeat split; try lia.
      rewrite length_app, length_firstn. lia.
    + left. rewrite substringL_empty by lia. repeat split; lia.
  - rewrite Z.gtb_ltb in E. apply Z.ltb_ge in E. left. split; [lia | reflexivity].
Qed.

Lemma limitLength_fixed (l : list ascii) : limitLength (limitLength l) = limitLength l.
Proof.
  destruct (limitLength_cases l) as [[_ E]|[(_ & He & E)|(_ & _ & _ & Hlen)]].
  - now rewrite !E.
  - rewrite E.
    destruct (limitLength_cases (extensionOf l))
      as [[Hle _]|[(_ & _ & E')|(_ & Hle & _)]];
      [lia | rewrite E'; apply extensionOf_fixed
      | rewrite extensionOf_fixed in Hle; lia].
  - destruct (limitLength_cases (limitLength l)) as [[_ E]|[(H & _)|(H & _)]];
      [exact E | lia | lia].
Qed.

(** X9: [sanitizeFileName] of [fileValidation] returns only characters of
    [[A-Za-z0-9._-]], hence no [/] and no [../], and sanitizing its result
    again changes nothing. *)
Theorem sanitizeFileName_idempotent_safe (fileName : string) :
  Forall (fun c => safeChar c = true)
         (Js.chars (FileValidation.sanitizeFileName fileName)) /\
  Js.includes (FileValidation.sanitizeFileName fileName) "/" = false /\
  Js.includes (FileValidation.sanitizeFileName fileName) "../" = false /\
  FileValidation.sanitizeFileName (FileValidation.sanitizeFileName fileName)
  = FileValidation.sanitizeFileName fileName.
Proof.
  assert (Hsafe : Forall (fun c => safeChar c = true)
                    (Js.chars (FileValidation.sanitizeFileName fileName))).
  { unfold FileValidation.sanitizeFileName.
    rewrite chars_str, sanitizeFileNameL_limit.
    apply limitLength_safe, replaceUnsafe_safe. }
  split; [exact Hsafe|].
  split; [apply safe_excludes; [exact Hsafe | now left]|].
  split; [apply safe_excludes; [exact Hsafe | right; right; now left]|].
  unfold FileValidation.sanitizeFileName in *. rewrite chars_str in *.
  f_equal. rewrite (sanitizeFileNameL_limit (FileValidation.sanitizeFileNameL _)).
  rewrite stripTraversal_fixed by now apply safe_no_slash.
  rewrite replaceUnsafe_fixed by exact Hsafe.
  rewrite sanitizeFileNameL_limit. apply limitLength_fixed.
Qed.

(** X10: the length limit of [sanitizeFileName] is not always kept: the
    result is longer than 100 characters exactly when the part of the
    cleaned name from its last [.] on (the whole name when it holds no
    [.]) is longer than 100 characters, and the result then is that part;
    in every other case the result has at most 100 characters. *)
Theorem sanitizeFileName_length (fileName : string) :
  let clean := replaceUnsafe (stripTraversal (Js.chars fileName)) in
  ((String.length (FileValidation.sanitizeFileName fileName) > 100)%nat <->
   (List.length (extensionOf clean) > 100)%nat) /\
  ((List.length (extensionOf clean) > 100)%nat ->
   FileValidation.sanitizeFileName fileName = Js.str (extensionOf clean)) /\
  ((List.length clean > 100)%nat -> ~ In "."%char clean ->
   FileValidation.sanitizeFileName fileName = Js.str clean).
Proof.
  intros clean.
  assert (Hlen : String.length (FileValidation.sanitizeFileName fileName)
                 = List.length (limitLength clean)).
  { unfold FileValidation.sanitizeFileName.
    rewrite <- chars_length, chars_str. reflexivity. }
  assert (Hout : FileValidation.sanitizeFileName fileName = Js.str (limitLength clean))
    by reflexivity.
  pose proof (extensionOf_length clean) as Hext.
  assert (Hlong : (List.length (extensionOf clean) > 100)%nat ->
                  limitLength clean = extensionOf clean).
  { intros He. destruct (limitLength_cases clean)
      as [[Hle _]|[(_ & _ & E)|(_ & Hle & _)]]; [lia | exact E | lia]. }
  split; [|split].
  - rewrite Hlen. split.
    + intros H. destruct (limitLength_cases clean)
        as [[Hle E]|[(_ & He & _)|(_ & _ & _ & E)]]; [rewrite E in H; lia | exact He | lia].
    + intros He. rewrite (Hlong He). exact He.
  - intros He. now rewrite Hout, (Hlong He).
  - intros Hgt Hdot. rewrite Hout. f_equal.
    assert (Hk : Js.lastIndexOfL "." clean < 0).
    { destruct (Z.leb_spec 0 (Js.lastIndexOfL "." clean)) as [Hk|Hk]; [|exact Hk].
      exfalso. apply Hdot. eapply nth_error_In. now apply lastIndexOfL_nth. }
    assert (Ee : extensionOf clean = clean)
      by (apply substringFromL_whole; lia).
    rewrite <- Ee at 2. apply Hlong. rewrite Ee. exact Hgt.
Qed.

Lemma sanitizeFileName_length_witness :
  FileValidation.sanitizeFileName (Js.str (List.repeat "a"%char 150))
  = Js.str (List.repeat "a"%char 150) /\
  String.length
    (FileValidation.sanitizeFileName ("cv." ++ Js.str (List.repeat "x"%char 120)))
  = 121%nat.
Proof.
  split.
  - apply (proj2 (proj2 (sanitizeFileName_length (Js.str (List.repeat "a"%char 150))))).
    + vm_compute. lia.
    + vm_compute. intuition discriminate.
  - rewrite (proj1 (proj2 (sanitizeFileName_length
                             ("cv." ++ Js.str (List.repeat "x"%char 120))))).
    + reflexivity.
    + vm_compute. lia.
Defined.

(** ** [validateOrigin] of [fileValidation] *)

Lemma fileValidation_validateOrigin_accepts
    (urlHostname : string -> option string) (env : Env) (request : Request) :
  let appUrl := match nonEmpty (NEXT_PUBLIC_APP_URL env) with
                | Some u => u
                | None => "http://localhost:3000"
                end in
  (exists v, FileValidation.validateOrigin urlHostname env request = Ok v /\
             valid v = true) <->
  (nonEmpty (headerGet request "origin") = None \/
   nonEmpty (headerGet request "origin") = Some appUrl \/
   exists origin originHost appHost,
     nonEmpty (headerGet request "origin") = Some origin /\
     urlHostname origin = Some originHost /\
     urlHostname appUrl = Some appHost /\
     (originHost = appHost \/ originHost = "localhost" \/ originHost = "127.0.0.1")) /\
  (nonEmpty (headerGet request "referer") <> None \/ inProduction env = false).
Proof.
  intros appUrl. unfold FileValidation.validateOrigin, inProduction. fold appUrl.
  set (direct := match nonEmpty (headerGet request "referer") with
                 | Some _ => false
                 | None => true
                 end).
  set (production := match NODE_ENV env with
                     | Some e => String.eqb e "production"
                     | None => false
                     end).
  set (refererCheck := if direct && production
                       then Ok (invalid "Unauthorized: Direct uploads are not allowed")
                       else Ok (mkValidation true None None None)).
  assert (Href : (exists v, refererCheck = Ok v /\ valid v = true) <->
                 (nonEmpty (headerGet request "referer") <> None \/ production = false)).
  { unfold refererCheck, direct.
    destruct (nonEmpty (headerGet request "referer")); cbn [andb].
    - split; [intros _; left; discriminate | intros _; eexists; split; reflexivity].
    - destruct production.
      + split; [intros (v & [= <-] & Hv); discriminate
               | intros [H|H]; [congruence | discriminate]].
      + split; [intros _; now right | intros _; eexists; split; reflexivity]. }
  destruct (nonEmpty (headerGet request "origin")) as [origin|] eqn:Eo.
  - destruct (String.eqb origin appUrl) eqn:E; cbn [negb].
    + apply String.eqb_eq in E. subst origin. rewrite Href. tauto.
    + apply String.eqb_neq in E.
      destruct (urlHostname origin) as [originHost|] eqn:Eh.
      2:{ split; [intros (v & [=] & _)|].
          intros [[[=]|[[= Ho]|(o & oh & ah & [= <-] & Hoh & _)]] _]; congruence. }
      destruct (urlHostname appUrl) as [appHost|] eqn:Ea.
      2:{ split; [intros (v & [=] & _)|].
          intros [[[=]|[[= Ho]|(o & oh & ah & _ & _ & Hah & _)]] _]; congruence. }
      destruct (String.eqb originHost appHost) eqn:E1; cbn [negb andb].
      { apply String.eqb_eq in E1. rewrite Href. split; [|tauto].
        intros H. split; [|exact H]. right; right.
        exists origin, originHost, appHost. tauto. }
      destruct (String.eqb originHost "localhost") eqn:E2; cbn [negb andb].
      { apply String.eqb_eq in E2. rewrite Href. split; [|tauto].
        intros H. split; [|exact H]. right; right.
        exists origin, originHost, appHost. tauto. }
      destruct (String.eqb originHost "127.0.0.1") eqn:E3; cbn [negb andb].
      { apply String.eqb_eq in E3. rewrite Href. split; [|tauto].
        intros H. split; [|exact H]. right; right.
        exists origin, originHost, appHost. tauto. }
      apply String.eqb_neq in E1, E2, E3.
      split; [intros (v & [= <-] & Hv); discriminate|].
      intros [[[=]|[[= Ho]|(o & oh & ah & [= <-] & Hoh & Hah & Hhost)]] _];
        [congruence|].
      assert (oh = originHost) by congruence.
      assert (ah = appHost) by congruence.
      subst oh ah. tauto.
  - rewrite Href. tauto.
Qed.

Lemma fileValidation_validateOrigin_throws
    (urlHostname : string -> option string) (env : Env) (request : Request) :
  let appUrl := match nonEmpty (NEXT_PUBLIC_APP_URL env) with
                | Some u => u
                | None => "http://localhost:3000"
                end in
  FileValidation.validateOrigin urlHostname env request
  = Throw (TypeError "Invalid URL") <->
  exists origin,
    nonEmpty (headerGet request "origin") = Some origin /\
    origin <> appUrl /\
    (urlHostname origin = None \/ urlHostname appUrl = None).
Proof.
  intros appUrl. unfold FileValidation.validateOrigin. fold appUrl.
  set (refererCheck := if _ && _ then Ok (invalid _) else Ok _).
  assert (Href : refererCheck <> Throw (TypeError "Invalid URL")).
  { unfold refererCheck. destruct (_ && _); discriminate. }
  destruct (nonEmpty (headerGet request "origin")) as [origin|].
  - destruct (String.eqb origin appUrl) eqn:E; cbn [negb].
    + apply String.eqb_eq in E.
      split; [intros H; destruct (Href H) | intros (o & [= <-] & Hne & _); congruence].
    + apply String.eqb_neq in E.
      destruct (urlHostname origin) as [originHost|] eqn:Eh.
      2:{ split; [|reflexivity]. intros _. exists origin. auto. }
      destruct (urlHostname appUrl) as [appHost|] eqn:Ea.
      2:{ split; [|reflexivity]. intros _. exists origin. auto. }
      split.
      * destruct (negb _ && negb _ && negb _);
          [discriminate | intros H; destruct (Href H)].
      * intros (o & [= <-] & _ & [H|H]); congruence.
  - split; [intros H; destruct (Href H) | intros (o & [=] & _)].
Qed.

(** X11: [validateOrigin] of [fileValidation] accepts a request exactly
    when (1) it has no [Origin] header, or the header equals the
    application URL (by default [http://localhost:3000]), or both parse and
    the header's host name is the application's, [localhost] or
    [127.0.0.1], whatever the scheme and port; and (2) it has a [Referer]
    header or the process does not run in production.  The value of the
    [Referer] is never compared with anything.  It throws exactly when the
    request has an [Origin] header that differs from the application URL
    and the header or the application URL does not parse. *)
Theorem fileValidation_validateOrigin_accepts_iff
    (urlHostname : string -> option string) (env : Env) (request : Request) :
  let appUrl := match nonEmpty (NEXT_PUBLIC_APP_URL env) with
                | Some u => u
                | None => "http://localhost:3000"
                end in
  ((exists v, FileValidation.validateOrigin urlHostname env request = Ok v /\
              valid v = true) <->
   (nonEmpty (headerGet request "origin") = None \/
    nonEmpty (headerGet request "origin") = Some appUrl \/
    exists origin originHost appHost,
      nonEmpty (headerGet request "origin") = Some origin /\
      urlHostname origin = Some originHost /\
      urlHostname appUrl = Some appHost /\
      (originHost = appHost \/ originHost = "localhost" \/
       originHost = "127.0.0.1")) /\
   (nonEmpty (headerGet request "referer") <> None \/ inProduction env = false)) /\
  (FileValidation.validateOrigin urlHostname env request
   = Throw (TypeError "Invalid URL") <->
   exists origin,
     nonEmpty (headerGet request "origin") = Some origin /\
     origin <> appUrl /\
     (urlHostname origin = None \/ urlHostname appUrl = None)).
Proof.
  split;
    [apply fileValidation_validateOrigin_accepts
    |apply fileValidation_validateOrigin_throws].
Qed.

Lemma fileValidation_validateOrigin_accepts_iff_witness :
  exists v,
    FileValidation.validateOrigin
      (fun u => if String.eqb u "https://localhost:8443" then Some "localhost"
                else if String.eqb u "https://forms.example" then Some "forms.example"
                else None)
      (sampleEnv true true true)
      (mkRequest [("Origin", "https://localhost:8443"); ("Referer", "anything")]
                 (Ok []))
    = Ok v /\ valid v = true.
Proof.
  apply (proj2 (proj1 (fileValidation_validateOrigin_accepts_iff
                  (fun u => if String.eqb u "https://localhost:8443" then Some "localhost"
                            else if String.eqb u "https://forms.example"
                                 then Some "forms.example"
                                 else None)
                  (sampleEnv true true true)
                  (mkRequest [("Origin", "https://localhost:8443");
                              ("Referer", "anything")]
                             (Ok []))))).
  split.
  - right; right. exists "https://localhost:8443", "localhost", "forms.example".
    repeat split. right; left; reflexivity.
  - left. discriminate.
Defined.

(* ================================================================== *)
(** * Further properties of the environment check, the error tables and
      the connection cache *)
(* ================================================================== *)

(** ** [getEnv] and [validateEnv] *)


Lemma filter_none {A} (f : A -> bool) (l : list A) :
  (forall x, In x l -> f x = false) -> filter f l = [].
Proof.
  induction l as [|x l IH]; intros H; [reflexivity|].
  cbn [filter]. rewrite (H x (or_introl eq_refl)). apply IH.
  intros y Hy. apply H. now right.
Qed.

Lemma required_unset (processEnv : string -> option string) :
  EnvValidator.missingVars processEnv = [] <->
  forall key, In key (map fst EnvValidator.REQUIRED_ENV_VARS) ->
              nonEmpty (processEnv key) <> None.
Proof.
  unfold EnvValidator.missingVars. split.
  - intros H key Hin Hnone.
    apply in_map_iff in Hin as ([k d] & <- & Hin).
    assert (Hf : In (k, d) (filter (fun entry => EnvValidator.unset processEnv (fst entry))
                              EnvValidator.REQUIRED_ENV_VARS)).
    { apply filter_In. split; [exact Hin|]. unfold EnvValidator.unset.
      cbn [fst] in *. now rewrite Hnone. }
    apply (in_map (fun entry => fst entry ++ ": " ++ snd entry)) in Hf.
    rewrite H in Hf. exact Hf.
  - intros H.
    assert (Hf : filter (fun entry => EnvValidator.unset processEnv (fst entry))
                   EnvValidator.REQUIRED_ENV_VARS = []).
    { apply filter_none.
      intros [k d] Hin. cbn [fst]. unfold EnvValidator.unset.
      specialize (H k (in_map fst _ _ Hin)). cbn [fst] in H.
      destruct (nonEmpty (processEnv k)); [reflexivity | congruence]. }
    now rewrite Hf.
Qed.

(** X13: [validateEnv] returns exactly when each of the five required
    variables is set to a non-empty string, [MONGO_URI] contains the text
    [mongodb] somewhere, and [NEXT_PUBLIC_APP_URL] parses as a URL; it
    throws in every other case. *)
Theorem validateEnv_passes_iff (processEnv : string -> option string)
    (urlParses : string -> bool) :
  (EnvValidator.validateEnv processEnv urlParses = Ok tt <->
   (forall key,
      In key ["MONGO_URI"; "CLOUDINARY_CLOUD_NAME"; "CLOUDINARY_API_KEY";
              "CLOUDINARY_API_SECRET"; "NEXT_PUBLIC_APP_URL"] ->
      nonEmpty (processEnv key) <> None) /\
   (exists mongoUri, processEnv "MONGO_URI" = Some mongoUri /\
                     Js.includes mongoUri "mongodb" = true) /\
   (exists appUrl, processEnv "NEXT_PUBLIC_APP_URL" = Some appUrl /\
                   urlParses appUrl = true)) /\
  (EnvValidator.validateEnv processEnv urlParses <> Ok tt ->
   exists error, EnvValidator.validateEnv processEnv urlParses = Throw error).
Proof.
  split.
  2:{ destruct (EnvValidator.validateEnv processEnv urlParses) as [[]|e];
        [congruence | eauto]. }
  pose proof (required_unset processEnv) as Hreq.
  change (map fst EnvValidator.REQUIRED_ENV_VARS)
    with ["MONGO_URI"; "CLOUDINARY_CLOUD_NAME"; "CLOUDINARY_API_KEY";
          "CLOUDINARY_API_SECRET"; "NEXT_PUBLIC_APP_URL"] in Hreq.
  unfold EnvValidator.validateEnv.
  destruct (EnvValidator.missingVars processEnv) as [|m ms] eqn:Em.
  - cbn [List.length Nat.ltb Nat.leb].
    pose proof (proj1 Hreq eq_refl) as Hset.
    assert (Hm := Hset "MONGO_URI" ltac:(cbn; tauto)).
    assert (Ha := Hset "NEXT_PUBLIC_APP_URL" ltac:(cbn; tauto)).
    destruct (processEnv "MONGO_URI") as [mongoUri|]; [|now cbn in Hm].
    destruct (processEnv "NEXT_PUBLIC_APP_URL") as [appUrl|]; [|now cbn in Ha].
    destruct (Js.includes mongoUri "mongodb") eqn:Ei; cbn [negb].
    + destruct (urlParses appUrl) eqn:Eu; cbn [negb].
      * split; [|reflexivity]. intros _. split; [exact Hset|].
        split; eexists; (split; [reflexivity | assumption]).
      * split; [discriminate|]. intros (_ & _ & (a & [= <-] & Hp)). congruence.
    + split; [discriminate|]. intros (_ & (u & [= <-] & Hi) & _). congruence.
  - replace (0 <? List.length (m :: ms))%nat with true by reflexivity.
    split; [discriminate|]. intros (Hset & _).
    apply Hreq in Hset. discriminate.
Qed.

Lemma validateEnv_passes_iff_witness :
  EnvValidator.validateEnv
    (fun key => if String.eqb key "MONGO_URI" then Some "not-a-mongodb-uri"
                else Some "x")
    (fun _ => true)
  = Ok tt.
Proof.
  apply (proj1 (validateEnv_passes_iff _ _)).
  split; [|split].
  - intros key _. cbn [nonEmpty]. destruct (String.eqb key "MONGO_URI"); discriminate.
  - exists "not-a-mongodb-uri". split; reflexivity.
  - exists "x". split; reflexivity.
Defined.

(** ** The error tables *)

(** X14: for every member of [ErrorCodes], whatever message and details it
    is given, [createErrorResponse] of [errorHandler.js] answers with the
    status of the member in [ErrorStatusCodes], which is 400, 401, 413 or
    500, marks the body as a failure, repeats the code, and carries a
    message that is never empty: the given one unless it is missing or
    empty, and then the one of the member in [ErrorMessages].  The body has
    a [details] member exactly when truthy details are given, and it holds
    them. *)
Theorem createErrorResponse_shape (errorCode : ErrorHandler.ErrorCodes)
    (message : option string) (details : option Json) :
  let response := ErrorHandler.createErrorResponse errorCode message details in
  In (status response) [400; 401; 413; 500] /\
  status response = ErrorHandler.ErrorStatusCodes errorCode /\
  member "success" (body response) = Some (JBool false) /\
  member "error" (body response) = Some (JStr (ErrorHandler.codeText errorCode)) /\
  (exists text, member "message" (body response) = Some (JStr text) /\ text <> "" /\
     (forall m, nonEmpty message = Some m -> text = m) /\
     (nonEmpty message = None -> text = ErrorHandler.ErrorMessages errorCode)) /\
  member "details" (body response)
  = match details with
    | Some d => if jsonTruthy d then Some d else None
    | None => None
    end.
Proof.
  intros response. unfold response, ErrorHandler.createErrorResponse.
  cbn [status body].
  split; [|split; [|split; [|split; [|split]]]].
  - destruct errorCode; cbn; tauto.
  - destruct errorCode; reflexivity.
  - reflexivity.
  - reflexivity.
  - eexists. split; [reflexivity|]. split; [|split].
    + destruct (nonEmpty message) as [m|] eqn:Em.
      * destruct message as [s|]; [|discriminate]. cbn [nonEmpty] in Em.
        destruct (String.eqb s "") eqn:E; [discriminate|].
        apply String.eqb_neq in E. now injection Em as <-.
      * destruct errorCode; discriminate.
    + now intros m ->.
    + intros ->. destruct errorCode; reflexivity.
  - destruct details as [d|]; [|reflexivity].
    destruct (jsonTruthy d); reflexivity.
Qed.

(** The rows of [classifyDatabaseError]: category, error code, HTTP status
    and the error type [getErrorType] gives the category. *)
Definition classificationRows : list (Mongodb.Category * string * Z * string) :=
  [(Mongodb.AUTHENTICATION, "AUTH_FAILED", 401, "DATABASE_AUTH");
   (Mongodb.NETWORK, "NETWORK_ERROR", 503, "DATABASE_CONNECTION");
   (Mongodb.TIMEOUT, "CONNECTION_TIMEOUT", 504, "DATABASE_CONNECTION");
   (Mongodb.VALIDATION, "VALIDATION_ERROR", 400, "DATABASE_WRITE");
   (Mongodb.UNKNOWN, "UNKNOWN_ERROR", 500, "DATABASE_WRITE")].

Ltac classify_cases :=
  unfold Mongodb.classifyDatabaseError;
  repeat match goal with
         | |- context [if ?c then Mongodb.mkClassification _ _ _ _ _ else _] =>
             destruct c eqn:?
         end.

(** X15: whatever is thrown falls in one of five rows, so the status
    [getHttpStatus] gives is 401, 503, 504, 400 or 500 and never the
    fallback for a missing status, and the body [createErrorResponse] of
    [mongodb.js] builds has the error type of the same row and the given
    location.  For an error object the body has a text message and a text
    hint; for a thrown value that is falsy the row is the unknown one at
    status 500 and the body has neither a message nor a hint. *)
Theorem classifyDatabaseError_rows (error : option JsError) (location : string) :
  let classification := Mongodb.classifyDatabaseError error in
  In (Mongodb.category classification, Mongodb.errorCode classification,
      Mongodb.httpStatus classification,
      Mongodb.getErrorType (Mongodb.category classification))
     classificationRows /\
  Mongodb.getHttpStatus error = Mongodb.httpStatus classification /\
  member "errorType" (Mongodb.createErrorResponse error location)
  = Some (JStr (Mongodb.getErrorType (Mongodb.category classification))) /\
  member "location" (Mongodb.createErrorResponse error location)
  = Some (JStr location) /\
  (error <> None ->
   (exists text, member "message" (Mongodb.createErrorResponse error location)
                 = Some (JStr text)) /\
   (exists text, member "hint" (Mongodb.createErrorResponse error location)
                 = Some (JStr text))) /\
  (error = None ->
   Mongodb.category classification = Mongodb.UNKNOWN /\
   Mongodb.getHttpStatus error = 500 /\
   Mongodb.createErrorResponse error location
   = JObj [("success", JBool false); ("errorType", JStr "DATABASE_WRITE");
           ("location", JStr location)]).
Proof.
  intros classification. unfold classification, Mongodb.getHttpStatus,
    Mongodb.createErrorResponse.
  destruct error as [error|].
  - classify_cases; cbn;
      (split; [tauto|]); (split; [reflexivity|]); (split; [reflexivity|]);
      (split; [reflexivity|]);
      (split; [intros _; split; eexists; reflexivity | discriminate]).
  - cbn. split; [tauto|]. do 3 (split; [reflexivity|]).
    split; [intros H; now destruct H | intros _; repeat split].
Qed.

(** The words [classifyDatabaseError] looks for in the message before it
    looks at a duplicate key. *)
Definition earlierWords : list string :=
  ["bad auth"; "authentication failed"; "unauthorized";
   "econnrefused"; "enotfound"; "network"; "ip whitelist";
   "timeout"; "timed out"].

(** X16: a duplicate-key error (code 11000) is answered with status 400
    exactly when its lower-cased message holds none of the nine words that
    are tested before the code and its code name does not name an
    authentication error; with one of them it is answered 401, 503 or
    504. *)
Theorem duplicate_key_status (error : JsError) :
  Mongodb.codeIsNum (errCode error) 11000 = true ->
  (Mongodb.getHttpStatus (Some error) = 400 <->
   existsb (Js.includes (Js.toLowerCase (errMessage error))) earlierWords = false /\
   Js.includes match errCodeName error with
               | Some s => Js.toLowerCase s
               | None => ""
               end "atlasauthenticationerror" = false) /\
  In (Mongodb.getHttpStatus (Some error)) [400; 401; 503; 504].
Proof.
  intros Hcode.
  assert (H8000 : Mongodb.codeIsNum (errCode error) 8000 = false).
  { unfold Mongodb.codeIsNum in *. destruct (errCode error) as [[n|s]|];
      try discriminate. apply Z.eqb_eq in Hcode. subst n. reflexivity. }
  assert (Hstr : forall s, Mongodb.codeIsStr (errCode error) s = false).
  { intros s. unfold Mongodb.codeIsNum, Mongodb.codeIsStr in *.
    destruct (errCode error) as [[n|t]|]; try discriminate; reflexivity. }
  unfold Mongodb.getHttpStatus, Mongodb.classifyDatabaseError, earlierWords.
  cbn [existsb]. rewrite H8000, Hcode, !Hstr.
  set (m := Js.toLowerCase (errMessage error)).
  set (codeName := match errCodeName error with
                   | Some s => Js.toLowerCase s
                   | None => ""
                   end).
  destruct (Js.includes codeName "atlasauthenticationerror");
  destruct (Js.includes m "bad auth"); destruct (Js.includes m "authentication failed");
  destruct (Js.includes m "unauthorized"); cbn;
    try (split; [split; [discriminate | intros [? ?]; discriminate] | tauto]);
  destruct (Js.includes m "econnrefused"); destruct (Js.includes m "enotfound");
  destruct (Js.includes m "network"); destruct (Js.includes m "ip whitelist"); cbn;
    try (split; [split; [discriminate | intros [? ?]; discriminate] | tauto]);
  destruct (Js.includes m "timeout"); destruct (Js.includes m "timed out"); cbn;
    try (split; [split; [discriminate | intros [? ?]; discriminate] | tauto]);
  destruct (Js.includes m "duplicate"); destruct (Js.includes m "validation"); cbn;
    (split; [split; [intros _; split; reflexivity | reflexivity] | tauto]).
Qed.

Lemma duplicate_key_status_witness :
  In (Mongodb.getHttpStatus
        (Some (mkError "MongoServerError"
                 "E11000 duplicate key error dup key: { emailAddress: network@forms.example }"
                 (Some (CodeNum 11000)) None [])))
     [400; 401; 503; 504].
Proof.
  apply (proj2 (duplicate_key_status
                  (mkError "MongoServerError"
                     "E11000 duplicate key error dup key: { emailAddress: network@forms.example }"
                     (Some (CodeNum 11000)) None [])
                  eq_refl)).
Defined.

(** ** The connection cache *)

(** X17: a call of [connectDB] starts a connection attempt exactly when
    the cache holds neither a connection nor a promise, and then exactly
    one; in every other case it makes no call at all.  It never touches
    the collections or the object store. *)
Theorem connectDB_attempts (env : Env) (w : World) :
  let w' := snd (Mongodb.connectDB env w) in
  applications w' = applications w /\
  fileUploads w' = fileUploads w /\
  storedObjects w' = storedObjects w /\
  nextId w' = nextId w /\
  (conn (cached w) = None /\ promise (cached w) = None ->
   trace w' = (trace w ++ [EvConnect (connectCalls w)])%list /\
   connectCalls w' = S (connectCalls w)) /\
  (conn (cached w) <> None \/ promise (cached w) <> None ->
   trace w' = trace w /\ connectCalls w' = connectCalls w).
Proof.
  intros w'. unfold w', Mongodb.connectDB.
  destruct (conn (cached w)) as [c|] eqn:Ec.
  - cbn [snd]. do 4 (split; [reflexivity|]).
    split; [intros [Hc _]; discriminate | intros _; split; reflexivity].
  - destruct (promise (cached w)) as [pending|] eqn:Ep.
    + destruct (mongooseConnect env pending); cbn [snd];
        (do 4 (split; [reflexivity|]));
        (split; [intros [_ Hp]; discriminate | intros _; split; reflexivity]).
    + destruct (mongooseConnect env (connectCalls w)); cbn [snd];
        (do 4 (split; [reflexivity|]));
        (split; [intros _; split; reflexivity | intros [Hc|Hp]; congruence]).
Qed.

(** X18: once [connectDB] has returned a connection, every later call, in
    whatever environment, returns that same connection and leaves the
    world as it is. *)
Theorem connectDB_warm (env : Env) (w w' : World) (mongooseInstance : Mongoose) :
  Mongodb.connectDB env w = (Next mongooseInstance, w') ->
  conn (cached w') = Some mongooseInstance /\
  forall env', Mongodb.connectDB env' w' = (Next mongooseInstance, w').
Proof.
  intros H.
  assert (Hc : conn (cached w') = Some mongooseInstance).
  { revert H. unfold Mongodb.connectDB.
    destruct (conn (cached w)) as [c|] eqn:Ec.
    - intros [= <- <-]. exact Ec.
    - destruct (promise (cached w)) as [pending|].
      + destruct (mongooseConnect env pending); [|discriminate].
        now intros [= <- <-].
      + destruct (mongooseConnect env (connectCalls w)); [|discriminate].
        now intros [= <- <-]. }
  split; [exact Hc|]. intros env'. unfold Mongodb.connectDB. now rewrite Hc.
Qed.

Lemma connectDB_warm_witness :
  Mongodb.connectDB (sampleEnv true true false)
    (snd (Mongodb.connectDB (sampleEnv true true true) emptyWorld))
  = (Next (MongooseInstance 0),
     snd (Mongodb.connectDB (sampleEnv true true true) emptyWorld)).
Proof.
  apply (proj2 (connectDB_warm (sampleEnv true true true) emptyWorld
                  (snd (Mongodb.connectDB (sampleEnv true true true) emptyWorld))
                  (MongooseInstance 0) eq_refl)).
Defined.

(** X19: [disconnectDB] does nothing without a cached connection, even
    when a promise is pending; when the disconnect fails it throws and
    leaves the cache as it is, so [connectDB] keeps returning the old
    connection; when it succeeds it empties the cache, and the next
    [connectDB] starts a new attempt. *)
Theorem disconnectDB_cache (disconnect : option JsError) (w : World) :
  (conn (cached w) = None -> Mongodb.disconnectDB disconnect w = (Next tt, w)) /\
  (forall mongooseInstance error,
     conn (cached w) = Some mongooseInstance -> disconnect = Some error ->
     Mongodb.disconnectDB disconnect w = (Thrown error, w) /\
     forall env, Mongodb.connectDB env w = (Next mongooseInstance, w)) /\
  (forall mongooseInstance,
     conn (cached w) = Some mongooseInstance -> disconnect = None ->
     let w' := snd (Mongodb.disconnectDB disconnect w) in
     fst (Mongodb.disconnectDB disconnect w) = Next tt /\
     cached w' = mkCache None None /\
     trace w' = trace w /\ connectCalls w' = connectCalls w /\
     applications w' = applications w /\
     forall env,
       trace (snd (Mongodb.connectDB env w'))
       = (trace w ++ [EvConnect (connectCalls w)])%list).
Proof.
  unfold Mongodb.disconnectDB. split; [|split].
  - now intros ->.
  - intros c error Hc ->. rewrite Hc. split; [reflexivity|].
    intros env. unfold Mongodb.connectDB. now rewrite Hc.
  - intros c Hc ->. rewrite Hc. cbn [fst snd].
    do 5 (split; [reflexivity|]).
    intros env. unfold Mongodb.connectDB. cbn [cached setCached conn promise].
    destruct (mongooseConnect env _); reflexivity.
Qed.

(* ================================================================== *)
(** * Further properties of the two handlers: what a run calls, in which
      order, and what it leaves behind *)
(* ================================================================== *)

(** ** Runs as prefixes of a fixed sequence of calls *)

Definition isUpload (ev : Event) : bool :=
  match ev with
  | EvUpload _ _ => true
  | _ => false
  end.

Definition uploadCalls (t : list Event) : nat := calls isUpload t.

(** Since the world [w0] the run made at most one connection attempt, then
    the first [k] calls of [canonical], and the object store took [n] new
    objects. *)
Definition ran (w0 : World) (canonical : list Event) (k n : nat) (w : World) : Prop :=
  (exists connects,
     (connects = [] \/ connects = [EvConnect (connectCalls w0)]) /\
     trace w = (trace w0 ++ connects ++ firstn k canonical)%list) /\
  (exists ids, List.length ids = n /\
               storedObjects w = (storedObjects w0 ++ ids)%list).

Lemma firstn_snoc {A} (l : list A) (k : nat) (x : A) :
  nth_error l k = Some x -> firstn (S k) l = (firstn k l ++ [x])%list.
Proof.
  revert k. induction l as [|y l IH]; intros [|k] H; cbn [nth_error] in H;
    try discriminate.
  - now injection H as ->.
  - change (y :: firstn (S k) l = y :: (firstn k l ++ [x]))%list.
    f_equal. now apply IH.
Qed.

Lemma ran_emit (w0 w : World) (canonical : list Event) (k n : nat) (ev : Event) :
  nth_error canonical k = Some ev ->
  ran w0 canonical k n w -> ran w0 canonical (S k) n (emit w ev).
Proof.
  intros Hk [(connects & Hc & Ht) Hs]. split; [|exact Hs].
  exists connects. split; [exact Hc|]. world_simpl.
  now rewrite Ht, (firstn_snoc _ _ _ Hk), <- !app_assoc.
Qed.

Lemma ran_same (w0 w w' : World) (canonical : list Event) (k n : nat) :
  trace w' = trace w -> storedObjects w' = storedObjects w ->
  ran w0 canonical k n w -> ran w0 canonical k n w'.
Proof. intros Ht Hs H. unfold ran. now rewrite Ht, Hs. Qed.

Lemma ran_store (w0 w : World) (canonical : list Event) (k n : nat) (id : string) :
  ran w0 canonical k n w ->
  ran w0 canonical k (S n) (setStoredObjects w (storedObjects w ++ [id])).
Proof.
  intros [Ht (ids & Hn & Hs)]. split; [exact Ht|].
  exists (ids ++ [id])%list. world_simpl.
  rewrite Hs, length_app, <- app_assoc. cbn [List.length]. split; [lia | reflexivity].
Qed.

Lemma connectDB_ran (env : Env) (w0 : World) (canonical : list Event) R :
  triple (eq w0) (Mongodb.connectDB env)
    (fun _ => ran w0 canonical 0 0) R (fun _ => ran w0 canonical 0 0).
Proof.
  assert (Hsame : forall w, trace w = trace w0 -> storedObjects w = storedObjects w0 ->
                            ran w0 canonical 0 0 w).
  { intros w Ht Hs. split.
    - exists []. split; [now left|]. cbn [firstn app]. now rewrite app_nil_r.
    - exists []. split; [reflexivity|]. now rewrite app_nil_r. }
  assert (Hnew : forall w, trace w = (trace w0 ++ [EvConnect (connectCalls w0)])%list ->
                           storedObjects w = storedObjects w0 ->
                           ran w0 canonical 0 0 w).
  { intros w Ht Hs. split.
    - exists [EvConnect (connectCalls w0)]. split; [now right|]. exact Ht.
    - exists []. split; [reflexivity|]. now rewrite app_nil_r. }
  intros w <-. unfold Mongodb.connectDB.
  destruct (conn (cached w0)); [now apply Hsame|].
  destruct (promise (cached w0)).
  - destruct (mongooseConnect env n); now apply Hsame.
  - destruct (mongooseConnect env (connectCalls w0)); now apply Hnew.
Qed.

Lemma uploadToCloudinary_ran (env : Env) (w0 : World) (canonical : list Event)
    (k n : nat) (file : DataUri) (folder resourceType : string) R E :
  nth_error canonical k = Some (EvUpload folder resourceType) ->
  triple (ran w0 canonical k n)
    (Cloudinary.uploadToCloudinary env file folder resourceType)
    (fun up w =>
       match cloudinaryUpload env file folder resourceType with
       | inl (secure_url, public_id) =>
           up = Cloudinary.mkUpload true secure_url public_id None /\
           ran w0 canonical (S k) (S n) w
       | inr message =>
           up = Cloudinary.mkUpload false "" "" (Some message) /\
           ran w0 canonical (S k) n w
       end) R E.
Proof.
  intros Hk w Hw. unfold Cloudinary.uploadToCloudinary.
  pose proof (ran_emit _ _ _ _ _ _ Hk Hw) as Hw'.
  destruct (cloudinaryUpload env file folder resourceType) as [[u p]|msg];
    (split; [reflexivity|]); [|exact Hw'].
  now apply ran_store.
Qed.

Lemma findOne_ran (env : Env) (w0 : World) (canonical : list Event) (k n : nat)
    (emailAddress : FormValue) R :
  nth_error canonical k = Some EvFindOne ->
  triple (ran w0 canonical k n) (Application.findOne env emailAddress)
    (fun _ => ran w0 canonical (S k) n) R (fun _ => ran w0 canonical (S k) n).
Proof.
  intros Hk w Hw. unfold Application.findOne.
  pose proof (ran_emit _ _ _ _ _ _ Hk Hw) as Hw'.
  destruct emailAddress; try exact Hw'; destruct (findOneError env _); exact Hw'.
Qed.

Lemma new_ran (env : Env) (w0 : World) (canonical : list Event) (k n : nat)
    (data : ApplicationData) R E :
  triple (ran w0 canonical k n) (Application.new env data)
    (fun _ => ran w0 canonical k n) R E.
Proof.
  intros w Hw. unfold Application.new. eapply ran_same; [| |exact Hw]; reflexivity.
Qed.

Lemma save_ran (env : Env) (w0 : World) (canonical : list Event) (k n : nat)
    (data : ApplicationData) (application : ApplicationDoc) R :
  nth_error canonical k = Some EvSaveApplication ->
  triple (ran w0 canonical k n) (Application.save env data application)
    (fun _ => ran w0 canonical (S k) n) R (fun _ => ran w0 canonical (S k) n).
Proof.
  intros Hk w Hw. unfold Application.save.
  pose proof (ran_emit _ _ _ _ _ _ Hk Hw) as Hw'.
  destruct (schemaErrors env data); [|exact Hw'].
  destruct (saveError env application); [exact Hw'|].
  destruct (existsb _ _); [exact Hw'|].
  eapply ran_same; [| |exact Hw']; reflexivity.
Qed.

Lemma FileUpload_create_ran (env : Env) (w0 : World) (canonical : list Event)
    (k n : nat) (docs : list FileUploadData) R :
  nth_error canonical k = Some EvFileUploadCreate ->
  triple (ran w0 canonical k n) (FileUpload_create env docs)
    (fun _ => ran w0 canonical (S k) n) R (fun _ => ran w0 canonical (S k) n).
Proof.
  intros Hk w Hw. unfold FileUpload_create.
  pose proof (ran_emit _ _ _ _ _ _ Hk Hw) as Hw'.
  destruct (fileUploadCreate env docs); [exact Hw'|].
  eapply ran_same; [| |exact Hw']; reflexivity.
Qed.

Lemma triple_liftResult_cases {A} (P : World -> Prop) (x : Result A)
    R (E : JsError -> World -> Prop) :
  (forall e w, x = Throw e -> P w -> E e w) ->
  triple P (liftResult x) (fun a w => x = Ok a /\ P w) R E.
Proof.
  intros H w HP. destruct x as [a|e]; simpl; auto.
Qed.

(** [connectDB] returns a connection from the world [w0]. *)
Definition connected (env : Env) (w0 : World) : Prop :=
  exists mongooseInstance w1,
    Mongodb.connectDB env w0 = (Next mongooseInstance, w1).

Lemma connectDB_connected (env : Env) (w0 : World) (canonical : list Event) R :
  triple (eq w0) (Mongodb.connectDB env)
    (fun _ w => connected env w0 /\ ran w0 canonical 0 0 w) R
    (fun _ w => ~ connected env w0 /\ ran w0 canonical 0 0 w).
Proof.
  intros w <-. pose proof (connectDB_ran env w0 canonical R w0 eq_refl) as H.
  unfold connected.
  destruct (Mongodb.connectDB env w0) as [[c|r|e] w1]; [| exact H |].
  - split; [now exists c, w1 | exact H].
  - split; [intros (c & w2 & [=]) | exact H].
Qed.

(** Two readings of one result are the same value. *)
Ltac unify_results :=
  repeat match goal with
         | H1 : ?x = Ok ?a, H2 : ?x = Ok ?b |- _ =>
             tryif constr_eq a b then fail
             else (assert (b = a) by congruence; subst b)
         | H1 : ?x = FVFile ?a, H2 : ?x = FVFile ?b |- _ =>
             tryif constr_eq a b then fail
             else (assert (b = a) by congruence; subst b)
         end.

(** One [if (cond) return response;] in a run that stops in [halted],
    where [refute] shows that the run could not have gone on. *)
Ltac stop_when halted refute :=
  eapply triple_bind;
  [ apply triple_returnIf; intros Hcond ? ?; apply halted;
    [revert Hcond; refute | assumption]
  | intros []; cbn beta; apply triple_pure_pre ].

(** ** The calls of [applications-v2] *)

(** The calls a submission to [applications-v2] makes after it has
    connected, in the order of the source. *)
Definition canonicalV2 (env : Env) : list Event :=
  [EvUpload (photographsFolder env) "image";
   EvUpload (resumesFolder env) "raw";
   EvFindOne; EvSaveApplication; EvFileUploadCreate].

(** Every check of [applications-v2] that precedes the uploads passes. *)
Definition validatedV2 (env : Env) (request : Request) : Prop :=
  valid (Validation.validateContentType request) = true /\
  (exists v, Validation.validateOrigin env request = Ok v /\ valid v = true) /\
  exists fd,
    formData request = Ok fd /\
    valid (Validation.validateFormData fd) = true /\
    accepts (Validation.validateFile (formGet fd "photograph") "IMAGE") = true /\
    accepts (Validation.validateFile (formGet fd "resume") "PDF") = true.

(** A run that did not complete: it made the first [k] calls of
    [canonical], [k] at most 4, and every upload before the last call made
    was stored; it made a call exactly when [ready] holds. *)
Definition halted (ready : Prop) (canonical : list Event) (w0 w : World) : Prop :=
  exists k, (k <= 4)%nat /\
            ran w0 canonical k (Nat.min (k - 1) 2) w /\
            ((1 <= k)%nat <-> ready).

Lemma ran_refl (w0 : World) (canonical : list Event) : ran w0 canonical 0 0 w0.
Proof.
  split; exists []; (split; [auto|]); cbn [firstn app]; now rewrite ?app_nil_r.
Qed.

Lemma halted_0 (ready : Prop) (canonical : list Event) (w0 w : World) :
  ~ ready -> ran w0 canonical 0 0 w -> halted ready canonical w0 w.
Proof.
  intros Hn Hw. exists 0%nat. split; [lia|]. split; [exact Hw|].
  split; [lia | contradiction].
Qed.

Lemma halted_k (ready : Prop) (canonical : list Event) (w0 w : World) (k : nat) :
  ready -> (1 <= k <= 4)%nat -> ran w0 canonical k (Nat.min (k - 1) 2) w ->
  halted ready canonical w0 w.
Proof.
  intros Hr Hk Hw. exists k. split; [lia|]. split; [exact Hw|]. tauto.
Qed.

Ltac refuteV2 :=
  intros Hcond [(Hct & (v' & Hov & Hvv) & fd' & Hfd' & Hvf & Hvp & Hvr) _];
  apply accepts_Ok in Hvp as (vp' & Evp' & Hvp);
  apply accepts_Ok in Hvr as (vr' & Evr' & Hvr);
  destruct (validateFile_valid_file _ _ _ Evp' Hvp) as (p' & Ep' & _);
  destruct (validateFile_valid_file _ _ _ Evr' Hvr) as (r' & Er' & _);
  unify_results;
  rewrite ?Hct, ?Hvv, ?Hvf, ?Hvp, ?Hvr, ?Ep', ?Er' in Hcond;
  discriminate Hcond.

Lemma handleV2_run (env : Env) (request : Request) (w0 : World) :
  triple (eq w0) (ApplicationsV2.handle env request)
    (fun _ w => ran w0 (canonicalV2 env) 5 2 w /\
                validatedV2 env request /\ connected env w0)
    (fun _ => halted (validatedV2 env request /\ connected env w0)
                (canonicalV2 env) w0)
    (fun _ => halted (validatedV2 env request /\ connected env w0)
                (canonicalV2 env) w0).
Proof.
  unfold ApplicationsV2.handle.
  assert (Hstart : forall w, ~ (validatedV2 env request /\ connected env w0) ->
                             w0 = w ->
                             halted (validatedV2 env request /\ connected env w0)
                               (canonicalV2 env) w0 w).
  { intros w Hn <-. apply halted_0; [exact Hn | apply ran_refl]. }
  pose proof (halted_0 (validatedV2 env request /\ connected env w0)
                (canonicalV2 env) w0) as Hzero.
  (* 1 *)
  stop_when Hstart refuteV2; intros Hcontent. apply negb_false_iff in Hcontent.
  (* 2 *)
  eapply triple_bind.
  { apply triple_liftResult_cases. intros e w Hthrow Hw. apply Hstart; [|exact Hw].
    intros [(_ & (v' & Hov & _) & _) _]. congruence. }
  intros originValidation; cbn beta. apply triple_pure_pre; intros Horigin.
  stop_when Hstart refuteV2; intros Hallowed. apply negb_false_iff in Hallowed.
  (* 3 *)
  eapply triple_bind.
  { eapply triple_weaken_throw;
      [apply (connectDB_connected env w0 (canonicalV2 env))|].
    intros e w [Hn Hw]. apply Hzero; [tauto | exact Hw]. }
  intros mongoose; cbn beta. apply triple_pure_pre; intros Hconnected.
  (* 4 *)
  eapply triple_bind.
  { apply triple_liftResult_cases. intros e w Hthrow Hw. apply Hzero; [|exact Hw].
    intros [(_ & _ & fd' & Hfd' & _) _]. congruence. }
  intros fd; cbn beta. apply triple_pure_pre; intros Hfd.
  (* 5 *)
  stop_when Hzero refuteV2; intros Hform. apply negb_false_iff in Hform.
  (* 6 *)
  stop_when Hzero refuteV2; intros _.
  (* 7 *)
  eapply triple_bind.
  { apply triple_liftResult_cases. intros e w Hthrow Hw. apply Hzero; [|exact Hw].
    intros [(_ & _ & fd' & Hfd' & _ & Hvp & _) _]. unify_results.
    rewrite Hthrow in Hvp. discriminate. }
  intros photoValidation; cbn beta. apply triple_pure_pre; intros Vphoto.
  stop_when Hzero refuteV2; intros Hphoto. apply negb_false_iff in Hphoto.
  (* 8 *)
  eapply triple_bind.
  { apply triple_liftResult_cases. intros e w Hthrow Hw. apply Hzero; [|exact Hw].
    intros [(_ & _ & fd' & Hfd' & _ & _ & Hvr) _]. unify_results.
    rewrite Hthrow in Hvr. discriminate. }
  intros resumeValidation; cbn beta. apply triple_pure_pre; intros Vresume.
  stop_when Hzero refuteV2; intros Hresume. apply negb_false_iff in Hresume.
  assert (Hready : validatedV2 env request /\ connected env w0).
  { split; [|exact Hconnected].
    split; [exact Hcontent|]. split; [now exists originValidation|].
    exists fd. rewrite Vphoto, Vresume. auto. }
  pose proof (fun w k => halted_k _ (canonicalV2 env) w0 w k Hready) as Hhalt.
  destruct (validateFile_valid_file _ _ _ Vphoto Hphoto)
    as (photograph & Ephoto & Bphoto).
  destruct (validateFile_valid_file _ _ _ Vresume Hresume)
    as (resume & Eresume & Bresume).
  rewrite Bphoto, Bresume, Ephoto, Eresume.
  (* 9 *)
  fold (folderPrefixOf env). fold (photographsFolder env). fold (resumesFolder env).
  eapply triple_bind;
    [apply (uploadToCloudinary_ran env w0 (canonicalV2 env) 0 0); reflexivity|].
  intros photographUpload; cbn beta.
  destruct (cloudinaryUpload env _ (photographsFolder env) "image") as [[pu pp]|pmsg];
    apply triple_pure_pre; intros ->.
  2:{ eapply triple_bind.
      { apply triple_returnIf. intros _ w Hw. apply (Hhalt w 1%nat); [lia | exact Hw]. }
      intros []; cbn beta. apply triple_pure_pre; discriminate. }
  passed.
  eapply triple_bind;
    [apply (uploadToCloudinary_ran env w0 (canonicalV2 env) 1 1); reflexivity|].
  intros resumeUpload; cbn beta.
  destruct (cloudinaryUpload env _ (resumesFolder env) "raw") as [[ru rp]|rmsg];
    apply triple_pure_pre; intros ->.
  2:{ eapply triple_bind.
      { apply triple_returnIf. intros _ w Hw. apply (Hhalt w 2%nat); [lia | exact Hw]. }
      intros []; cbn beta. apply triple_pure_pre; discriminate. }
  passed.
  (* 10 *)
  eapply triple_bind.
  { eapply triple_weaken_throw;
      [apply (findOne_ran env w0 (canonicalV2 env) 2 2); reflexivity|].
    intros e w Hw. apply (Hhalt w 3%nat); [lia | exact Hw]. }
  intros existingApplication; cbn beta.
  eapply triple_bind.
  { apply triple_returnIf. intros _ w Hw. apply (Hhalt w 3%nat); [lia | exact Hw]. }
  intros []; cbn beta. apply triple_pure_pre; intros _.
  (* 11, 12 *)
  eapply triple_bind; [apply new_ran|].
  intros application; cbn beta.
  eapply triple_bind.
  { eapply triple_weaken_throw;
      [apply (save_ran env w0 (canonicalV2 env) 3 2); reflexivity|].
    intros e w Hw. apply (Hhalt w 4%nat); [lia | exact Hw]. }
  intros []; cbn beta.
  (* 13 *)
  eapply triple_bind with (Q := fun _ => ran w0 (canonicalV2 env) 5 2).
  { eapply triple_tryCatch;
      [apply (FileUpload_create_ran env w0 (canonicalV2 env) 4 2); reflexivity|].
    intros e. apply triple_ret. intros w Hw. exact Hw. }
  intros []; cbn beta.
  (* 14 *)
  apply triple_ret. intros w Hw. split; [exact Hw | exact Hready].
Qed.

(** What a call of [POST] of [applications-v2] did: it completed with
    status 201 after all five calls, or it failed after at most four. *)
Lemma postV2_run (env : Env) (request : Request) (w0 : World) :
  let result := ApplicationsV2.POST env request w0 in
  (status (fst result) = 201 /\
   ran w0 (canonicalV2 env) 5 2 (snd result) /\
   (validatedV2 env request /\ connected env w0) /\
   exists application,
     applications (snd result) = (applications w0 ++ [application])%list) \/
  (isFailure (fst result) /\
   halted (validatedV2 env request /\ connected env w0) (canonicalV2 env) w0
     (snd result) /\
   applications (snd result) = applications w0 /\
   fileUploads (snd result) = fileUploads w0).
Proof.
  intros result. unfold result, ApplicationsV2.POST.
  pose proof (handleV2_spec env request w0 w0 (progress_refl w0)) as Hspec.
  pose proof (handleV2_run env request w0 w0 eq_refl) as Hrun.
  destruct (ApplicationsV2.handle env request w0) as [[r|r|e] w']; cbn [fst snd].
  - left. destruct Hspec as (fd & application & _ & (Ha & _) & _ & ->).
    destruct Hrun as [Hrun Hv].
    split; [reflexivity|]. split; [exact Hrun|]. split; [exact Hv|].
    now exists application.
  - right. destruct Hspec as [Hf Hstop]. split; [exact Hf|]. split; [exact Hrun|].
    destruct Hstop as [(Ha & Hu & _)|[[(Ha & Hu & _) _]|[(Ha & Hu & _) _]]]; auto.
  - right. split; [apply catchResponseV2_isFailure|]. split; [exact Hrun|].
    destruct Hspec as [(Ha & Hu & _)|[[(Ha & Hu & _) _]|[(Ha & Hu & _) _]]]; auto.
Qed.

(** ** The calls of [applications] *)

Definition canonicalV1 : list Event :=
  [EvUpload "socialmm/applications/photographs" "image";
   EvUpload "socialmm/applications/resumes" "raw";
   EvFindOne; EvSaveApplication].

(** What [applications] checks before it uploads: both parts are files,
    the photograph is declared as some image and the resume as a PDF, and
    neither is above its size limit. *)
Definition declaredV1 (request : Request) : Prop :=
  exists fd photograph resume,
    formData request = Ok fd /\
    formGet fd "photograph" = FVFile photograph /\
    formGet fd "resume" = FVFile resume /\
    Js.startsWith (type photograph) "image/" = true /\
    type resume = "application/pdf" /\
    size photograph <= 5 * 1024 * 1024 /\
    size resume <= 10 * 1024 * 1024.

Ltac refuteV1 :=
  intros Hcond [(fd' & p' & r' & Hfd' & Ep' & Er' & Hi' & Ht' & Hps' & Hrs') _];
  unify_results;
  first [ rewrite ?Ep', ?Er', ?Hi', ?Ht' in Hcond; discriminate Hcond
        | apply Z.gtb_lt in Hcond; lia ].

Lemma handleV1_run (env : Env) (request : Request) (w0 : World) :
  triple (eq w0) (Applications.handle env request)
    (fun _ w => ran w0 canonicalV1 4 2 w /\
                declaredV1 request /\ connected env w0)
    (fun _ => halted (declaredV1 request /\ connected env w0) canonicalV1 w0)
    (fun _ => halted (declaredV1 request /\ connected env w0) canonicalV1 w0).
Proof.
  unfold Applications.handle.
  pose proof (halted_0 (declaredV1 request /\ connected env w0) canonicalV1 w0)
    as Hzero.
  (* Step 1 *)
  eapply triple_bind with (Q := fun _ w => connected env w0 /\ ran w0 canonicalV1 0 0 w).
  { eapply triple_tryCatch
      with (E' := fun _ w => ~ connected env w0 /\ ran w0 canonicalV1 0 0 w).
    - eapply triple_bind; [apply (connectDB_connected env w0 canonicalV1)|].
      intros mongoose; cbn beta. apply triple_ret. intros w Hw. exact Hw.
    - intros dbError. apply triple_respond. intros w [Hn Hw].
      apply Hzero; [tauto | exact Hw]. }
  intros []; cbn beta. apply triple_pure_pre; intros Hconnected.
  (* Step 2 *)
  eapply triple_bind.
  { apply triple_liftResult_cases. intros e w Hthrow Hw. apply Hzero; [|exact Hw].
    intros [(fd' & _ & _ & Hfd' & _) _]. congruence. }
  intros fd; cbn beta. apply triple_pure_pre; intros Hfd.
  (* Step 3 *)
  stop_when Hzero refuteV1; intros _.
  destruct (formGet fd "photograph") as [|s|photograph] eqn:Ephoto;
    try (apply triple_throw; intros w Hw; apply Hzero; [|exact Hw];
         intros [(fd' & p' & _ & Hfd' & Ep' & _) _]; unify_results; congruence).
  stop_when Hzero refuteV1; intros Himage. apply negb_false_iff in Himage.
  destruct (formGet fd "resume") as [|s|resume] eqn:Eresume;
    try (apply triple_respond; intros w Hw; apply Hzero; [|exact Hw];
         intros [(fd' & _ & r' & Hfd' & _ & Er' & _) _]; unify_results; congruence).
  stop_when Hzero refuteV1; intros Hpdf.
  apply negb_false_iff, String.eqb_eq in Hpdf.
  stop_when Hzero refuteV1; intros Hps.
  rewrite Z.gtb_ltb in Hps. apply Z.ltb_ge in Hps.
  stop_when Hzero refuteV1; intros Hrs.
  rewrite Z.gtb_ltb in Hrs. apply Z.ltb_ge in Hrs.
  assert (Hready : declaredV1 request /\ connected env w0).
  { split; [|exact Hconnected].
    exists fd, photograph, resume. repeat split; assumption. }
  pose proof (fun w k => halted_k _ canonicalV1 w0 w k Hready) as Hhalt.
  (* Step 4 *)
  eapply triple_bind;
    [apply (uploadToCloudinary_ran env w0 canonicalV1 0 0); reflexivity|].
  intros photographUpload; cbn beta.
  destruct (cloudinaryUpload env _ "socialmm/applications/photographs" "image")
    as [[pu pp]|pmsg]; apply triple_pure_pre; intros ->.
  2:{ eapply triple_bind.
      { apply triple_returnIf. intros _ w Hw. apply (Hhalt w 1%nat); [lia | exact Hw]. }
      intros []; cbn beta. apply triple_pure_pre; discriminate. }
  passed.
  eapply triple_bind;
    [apply (uploadToCloudinary_ran env w0 canonicalV1 1 1); reflexivity|].
  intros resumeUpload; cbn beta.
  destruct (cloudinaryUpload env _ "socialmm/applications/resumes" "raw")
    as [[ru rp]|rmsg]; apply triple_pure_pre; intros ->.
  2:{ eapply triple_bind.
      { apply triple_returnIf. intros _ w Hw. apply (Hhalt w 2%nat); [lia | exact Hw]. }
      intros []; cbn beta. apply triple_pure_pre; discriminate. }
  passed.
  (* Step 6 *)
  eapply triple_bind.
  { eapply triple_weaken_throw;
      [apply (findOne_ran env w0 canonicalV1 2 2); reflexivity|].
    intros e w Hw. apply (Hhalt w 3%nat); [lia | exact Hw]. }
  intros existingApplication; cbn beta.
  eapply triple_bind.
  { apply triple_returnIf. intros _ w Hw. apply (Hhalt w 3%nat); [lia | exact Hw]. }
  intros []; cbn beta. apply triple_pure_pre; intros _.
  (* Step 7 *)
  eapply triple_bind; [apply new_ran|].
  intros application; cbn beta.
  eapply triple_bind with (Q := fun _ => ran w0 canonicalV1 4 2).
  { eapply triple_tryCatch;
      [apply (save_ran env w0 canonicalV1 3 2); reflexivity|].
    intros saveError. apply triple_respond. intros w Hw.
    apply (Hhalt w 4%nat); [lia | exact Hw]. }
  intros []; cbn beta.
  (* Step 8 *)
  apply triple_ret. intros w Hw. split; [exact Hw | exact Hready].
Qed.

Lemma postV1_run (env : Env) (request : Request) (w0 : World) :
  let result := Applications.POST env request w0 in
  (status (fst result) = 201 /\
   ran w0 canonicalV1 4 2 (snd result) /\
   (declaredV1 request /\ connected env w0) /\
   exists application,
     applications (snd result) = (applications w0 ++ [application])%list) \/
  (isFailure (fst result) /\
   halted (declaredV1 request /\ connected env w0) canonicalV1 w0 (snd result) /\
   applications (snd result) = applications w0 /\
   fileUploads (snd result) = fileUploads w0).
Proof.
  intros result. unfold result, Applications.POST.
  pose proof (handleV1_spec env request w0 w0 (progress_refl w0)) as Hspec.
  pose proof (handleV1_run env request w0 w0 eq_refl) as Hrun.
  destruct (Applications.handle env request w0) as [[r|r|e] w']; cbn [fst snd].
  - left. destruct Hspec as (fd & application & _ & (Ha & _) & _ & ->).
    destruct Hrun as [Hrun Hv].
    split; [reflexivity|]. split; [exact Hrun|]. split; [exact Hv|].
    now exists application.
  - right. destruct Hspec as [Hf Hstop]. split; [exact Hf|]. split; [exact Hrun|].
    destruct Hstop as [(Ha & Hu & _)|[[(Ha & Hu & _) _]|[(Ha & Hu & _) _]]]; auto.
  - right. split; [apply catchResponseV1_isFailure|]. split; [exact Hrun|].
    destruct Hspec as [(Ha & Hu & _)|[[(Ha & Hu & _) _]|[(Ha & Hu & _) _]]]; auto.
Qed.

(** ** What the runs show *)

Lemma calls_app (p : Event -> bool) (a b : list Event) :
  calls p (a ++ b) = (calls p a + calls p b)%nat.
Proof. unfold calls. now rewrite filter_app, length_app. Qed.

Lemma ran_calls (p : Event -> bool) (w0 w : World) (canonical : list Event)
    (k n : nat) :
  (forall attempt, p (EvConnect attempt) = false) ->
  ran w0 canonical k n w ->
  calls p (trace w) = (calls p (trace w0) + calls p (firstn k canonical))%nat.
Proof.
  intros Hp [(connects & Hc & Ht) _]. rewrite Ht, !calls_app.
  destruct Hc as [-> | ->]; unfold calls at 2; cbn [filter]; rewrite ?Hp; cbn; lia.
Qed.

(** Whether a run made an upload, and whether it made the duplicate
    query, by the number of calls it made: the two uploads come first, the
    query third. *)
Definition uploadsFirst (canonical : list Event) : Prop :=
  forall k,
    (calls isUpload (firstn k canonical) = 0%nat <-> k = 0%nat) /\
    (calls isFindOne (firstn k canonical) <> 0%nat <-> (3 <= k)%nat).

Lemma canonicalV2_uploadsFirst (env : Env) : uploadsFirst (canonicalV2 env).
Proof.
  intros k. unfold canonicalV2, calls.
  do 6 (destruct k as [|k]; [cbn; split; split; first [lia | discriminate | auto]|]).
  cbn. split; split; first [lia | discriminate | auto].
Qed.

Lemma canonicalV1_uploadsFirst : uploadsFirst canonicalV1.
Proof.
  intros k. unfold canonicalV1, calls.
  do 5 (destruct k as [|k]; [cbn; split; split; first [lia | discriminate | auto]|]).
  cbn. split; split; first [lia | discriminate | auto].
Qed.

Lemma ran_uploads (w0 w : World) (canonical : list Event) (k n : nat) :
  uploadsFirst canonical -> ran w0 canonical k n w ->
  (uploadCalls (trace w) <> uploadCalls (trace w0) <-> (1 <= k)%nat) /\
  (findCalls (trace w) <> findCalls (trace w0) <-> (3 <= k)%nat).
Proof.
  intros Hfirst Hran. destruct (Hfirst k) as [Hu Hf].
  unfold uploadCalls, findCalls.
  rewrite (ran_calls isUpload _ _ _ _ _ (fun _ => eq_refl) Hran).
  rewrite (ran_calls isFindOne _ _ _ _ _ (fun _ => eq_refl) Hran).
  split; [|rewrite <- Hf]; lia.
Qed.

(** X20: a call of [POST] of [applications-v2] makes at most one
    connection attempt and then a prefix of five calls in a fixed order:
    the upload of the photograph, the upload of the resume, the duplicate
    query, [save], [FileUpload.create]; none is made twice.  The answer is
    201 exactly when all five were made.  Nothing is removed from the
    object store, and an upload was stored exactly when a later call was
    made. *)
Theorem postV2_call_order (env : Env) (request : Request) (w0 : World) :
  let result := ApplicationsV2.POST env request w0 in
  exists connects k ids,
    (connects = [] \/ connects = [EvConnect (connectCalls w0)]) /\
    (k <= 5)%nat /\
    trace (snd result)
    = (trace w0 ++ connects ++
       firstn k [EvUpload (photographsFolder env) "image";
                 EvUpload (resumesFolder env) "raw";
                 EvFindOne; EvSaveApplication; EvFileUploadCreate])%list /\
    (status (fst result) = 201 <-> k = 5%nat) /\
    storedObjects (snd result) = (storedObjects w0 ++ ids)%list /\
    List.length ids = Nat.min (k - 1) 2.
Proof.
  intros result. unfold result.
  destruct (postV2_run env request w0)
    as [(H201 & [(connects & Hc & Ht) (ids & Hn & Hs)] & _)
       |([_ H201] & (k & Hk & [(connects & Hc & Ht) (ids & Hn & Hs)] & _) & _)].
  - exists connects, 5%nat, ids. repeat split; auto.
  - exists connects, k, ids. split; [exact Hc|]. split; [lia|]. split; [exact Ht|].
    split; [split; [contradiction | lia]|]. split; assumption.
Qed.

(** X21: [applications-v2] hands a file to the object store exactly when
    the database connection is there and every check passed: the content
    type and the origin of the request, the form without foreign URLs, and
    [validateFile] on the photograph and on the resume. *)
Theorem postV2_uploads_iff_validated (env : Env) (request : Request) (w0 : World) :
  uploadCalls (trace (snd (ApplicationsV2.POST env request w0)))
  <> uploadCalls (trace w0) <->
  (valid (Validation.validateContentType request) = true /\
   (exists v, Validation.validateOrigin env request = Ok v /\ valid v = true) /\
   exists fd,
     formData request = Ok fd /\
     valid (Validation.validateFormData fd) = true /\
     accepts (Validation.validateFile (formGet fd "photograph") "IMAGE") = true /\
     accepts (Validation.validateFile (formGet fd "resume") "PDF") = true) /\
  exists mongooseInstance w1,
    Mongodb.connectDB env w0 = (Next mongooseInstance, w1).
Proof.
  change (uploadCalls (trace (snd (ApplicationsV2.POST env request w0)))
          <> uploadCalls (trace w0) <->
          validatedV2 env request /\ connected env w0).
  destruct (postV2_run env request w0)
    as [(_ & Hran & Hready & _)|(_ & (k & _ & Hran & Hready) & _)];
    destruct (ran_uploads _ _ _ _ _ (canonicalV2_uploadsFirst env) Hran) as [Hu _];
    rewrite Hu.
  - split; [intros _; exact Hready | lia].
  - exact Hready.
Qed.

(** X22: a call of [POST] of [applications] makes at most one connection
    attempt and then a prefix of four calls in a fixed order: the upload of
    the photograph, the upload of the resume, the duplicate query, [save];
    it never calls [FileUpload.create].  An answer 201 comes after all
    four. *)
Theorem postV1_call_order (env : Env) (request : Request) (w0 : World) :
  let result := Applications.POST env request w0 in
  exists connects k ids,
    (connects = [] \/ connects = [EvConnect (connectCalls w0)]) /\
    (k <= 4)%nat /\
    trace (snd result)
    = (trace w0 ++ connects ++
       firstn k [EvUpload "socialmm/applications/photographs" "image";
                 EvUpload "socialmm/applications/resumes" "raw";
                 EvFindOne; EvSaveApplication])%list /\
    (status (fst result) = 201 -> k = 4%nat) /\
    storedObjects (snd result) = (storedObjects w0 ++ ids)%list /\
    List.length ids = Nat.min (k - 1) 2.
Proof.
  intros result. unfold result.
  destruct (postV1_run env request w0)
    as [(H201 & [(connects & Hc & Ht) (ids & Hn & Hs)] & _)
       |([_ H201] & (k & Hk & [(connects & Hc & Ht) (ids & Hn & Hs)] & _) & _)].
  - exists connects, 4%nat, ids. repeat split; auto.
  - exists connects, k, ids. split; [exact Hc|]. split; [lia|]. split; [exact Ht|].
    split; [contradiction|]. split; assumption.
Qed.

(** X23: [applications] hands the files to the object store exactly when
    the database connection is there, both parts are files, the photograph
    is declared with a type that begins with [image/], the resume is
    declared as [application/pdf], and neither is above its size limit.
    Nothing else is looked at: not the content, not the name, not the
    origin of the request, and an empty file passes. *)
Theorem postV1_uploads_iff_declared (env : Env) (request : Request) (w0 : World) :
  uploadCalls (trace (snd (Applications.POST env request w0)))
  <> uploadCalls (trace w0) <->
  (exists fd photograph resume,
     formData request = Ok fd /\
     formGet fd "photograph" = FVFile photograph /\
     formGet fd "resume" = FVFile resume /\
     Js.startsWith (type photograph) "image/" = true /\
     type resume = "application/pdf" /\
     size photograph <= 5 * 1024 * 1024 /\
     size resume <= 10 * 1024 * 1024) /\
  exists mongooseInstance w1,
    Mongodb.connectDB env w0 = (Next mongooseInstance, w1).
Proof.
  change (uploadCalls (trace (snd (Applications.POST env request w0)))
          <> uploadCalls (trace w0) <->
          declaredV1 request /\ connected env w0).
  destruct (postV1_run env request w0)
    as [(_ & Hran & Hready & _)|(_ & (k & _ & Hran & Hready) & _)];
    destruct (ran_uploads _ _ _ _ _ canonicalV1_uploadsFirst Hran) as [Hu _];
    rewrite Hu.
  - split; [intros _; exact Hready | lia].
  - exact Hready.
Qed.

(** X24: when either handler refuses a submission after it has made the
    duplicate query (a duplicate address, a failed query, a failed
    [save]), both files are already in the object store and stay there,
    while no application and no file record was written. *)
Theorem refused_after_query_keeps_objects (env : Env) (request : Request)
    (w0 : World) (result : Response * World) :
  result = Applications.POST env request w0 \/
  result = ApplicationsV2.POST env request w0 ->
  isFailure (fst result) ->
  findCalls (trace (snd result)) <> findCalls (trace w0) ->
  exists id1 id2,
    storedObjects (snd result) = (storedObjects w0 ++ [id1; id2])%list /\
    applications (snd result) = applications w0 /\
    fileUploads (snd result) = fileUploads w0.
Proof.
  assert (Hgen : forall ready canonical,
             uploadsFirst canonical ->
             halted ready canonical w0 (snd result) ->
             findCalls (trace (snd result)) <> findCalls (trace w0) ->
             exists id1 id2,
               storedObjects (snd result) = (storedObjects w0 ++ [id1; id2])%list).
  { intros ready canonical Hfirst (k & Hk & Hran & _) Hfind.
    destruct (ran_uploads _ _ _ _ _ Hfirst Hran) as [_ Hf].
    apply Hf in Hfind. destruct Hran as [_ (ids & Hn & Hs)].
    replace (Nat.min (k - 1) 2) with 2%nat in Hn by lia.
    destruct ids as [|id1 [|id2 [|id3 ids]]]; try discriminate.
    now exists id1, id2. }
  intros [-> | ->] [_ Hstatus] Hfind.
  - destruct (postV1_run env request w0) as [(H201 & _)|(_ & Hhalt & Ha & Hu)];
      [contradiction|].
    destruct (Hgen _ _ canonicalV1_uploadsFirst Hhalt Hfind) as (id1 & id2 & Hs).
    exists id1, id2. auto.
  - destruct (postV2_run env request w0) as [(H201 & _)|(_ & Hhalt & Ha & Hu)];
      [contradiction|].
    destruct (Hgen _ _ (canonicalV2_uploadsFirst env) Hhalt Hfind)
      as (id1 & id2 & Hs).
    exists id1, id2. auto.
Qed.

Lemma refused_after_query_keeps_objects_witness :
  let env := sampleEnv true true true in
  let request := sampleRequest "ada@forms.example" in
  let w1 := snd (ApplicationsV2.POST env request emptyWorld) in
  exists id1 id2,
    storedObjects (snd (ApplicationsV2.POST env request w1))
    = (storedObjects w1 ++ [id1; id2])%list /\
    applications (snd (ApplicationsV2.POST env request w1)) = applications w1 /\
    fileUploads (snd (ApplicationsV2.POST env request w1)) = fileUploads w1.
Proof.
  intros env request w1.
  apply (refused_after_query_keeps_objects env request w1
           (ApplicationsV2.POST env request w1) (or_intror eq_refl)).
  - split; [reflexivity | vm_compute; discriminate].
  - vm_compute. lia.
Defined.

(** ** Before the first call *)

Lemma bind_return {A B} (m : M A) (k : A -> M B) (w w' : World) (r : Response) :
  m w = (Return r, w') -> bind m k w = (Return r, w').
Proof. intros H. unfold bind. now rewrite H. Qed.

Lemma bind_returnIf_true {B} (r : Response) (k : unit -> M B) (w : World) :
  bind (returnIf true r) k w = (Return r, w).
Proof. reflexivity. Qed.

Lemma bind_returnIf_false {B} (r : Response) (k : unit -> M B) (w : World) :
  bind (returnIf false r) k w = k tt w.
Proof. reflexivity. Qed.

Lemma bind_liftResult_ok {A B} (a : A) (k : A -> M B) (w : World) :
  bind (liftResult (Ok a)) k w = k a w.
Proof. reflexivity. Qed.

Lemma bind_liftResult_throw {A B} (e : JsError) (k : A -> M B) (w : World) :
  bind (liftResult (Throw e)) k w = (Thrown e, w).
Proof. reflexivity. Qed.

Lemma bind_thrown {A B} (m : M A) (k : A -> M B) (w w' : World) (e : JsError) :
  m w = (Thrown e, w') -> bind m k w = (Thrown e, w').
Proof. intros H. unfold bind. now rewrite H. Qed.

(** X25: [applications-v2] answers a request whose content type or origin
    it does not accept before it does anything else: the world is left
    exactly as it was (no connection attempt, nothing parsed, nothing
    uploaded), and the status is 400 for the content type, 401 for a
    refused origin, and 500 when [validateOrigin] throws. *)
Theorem postV2_refuses_before_connecting (env : Env) (request : Request)
    (w0 : World) :
  let result := ApplicationsV2.POST env request w0 in
  (valid (Validation.validateContentType request) = false ->
   snd result = w0 /\ status (fst result) = 400) /\
  (valid (Validation.validateContentType request) = true ->
   forall v, Validation.validateOrigin env request = Ok v -> valid v = false ->
   snd result = w0 /\ status (fst result) = 401) /\
  (valid (Validation.validateContentType request) = true ->
   forall error, Validation.validateOrigin env request = Throw error ->
   snd result = w0 /\ fst result = ApplicationsV2.catchResponse env error /\
   (errName error <> "ValidationError" -> status (fst result) = 500)).
Proof.
  intros result. unfold result, ApplicationsV2.POST, ApplicationsV2.handle.
  split; [|split].
  - intros Hc. rewrite Hc. cbn [negb].
    rewrite bind_returnIf_true. now split.
  - intros Hc v Ho Hv. rewrite Hc, Ho. cbn [negb].
    rewrite bind_returnIf_false.
    rewrite bind_liftResult_ok.
    rewrite Hv. cbn [negb].
    rewrite bind_returnIf_true. now split.
  - intros Hc error Ho. rewrite Hc, Ho. cbn [negb].
    rewrite bind_returnIf_false.
    rewrite bind_liftResult_throw.
    split; [reflexivity|]. split; [reflexivity|].
    intros Hname. cbn [fst]. unfold ApplicationsV2.catchResponse.
    apply String.eqb_neq in Hname. rewrite Hname. reflexivity.
Qed.

(** X26: when the database cannot be reached, both handlers answer
    without reading the form: [applications] with the status and the body
    the error classification gives, [applications-v2] (once its two checks
    passed) with the answer of its [catch] block, which is 500 for every
    error not named [ValidationError].  The world is the one [connectDB]
    left. *)
Theorem connection_failure_answers (env : Env) (request : Request) (w0 w1 : World)
    (error : JsError) :
  Mongodb.connectDB env w0 = (Thrown error, w1) ->
  Applications.POST env request w0
  = (mkResponse (Mongodb.getHttpStatus (Some error))
       (Mongodb.createErrorResponse (Some error) "MongoClient.connect"), w1) /\
  (valid (Validation.validateContentType request) = true ->
   (exists v, Validation.validateOrigin env request = Ok v /\ valid v = true) ->
   ApplicationsV2.POST env request w0 = (ApplicationsV2.catchResponse env error, w1) /\
   (errName error <> "ValidationError" ->
    status (ApplicationsV2.catchResponse env error) = 500)).
Proof.
  intros Hconnect. split.
  - unfold Applications.POST, Applications.handle.
    assert (Hfirst : tryCatch (Mongodb.connectDB env ;; ret tt)
                       (fun dbError =>
                          respond (mkResponse (Mongodb.getHttpStatus (Some dbError))
                                     (Mongodb.createErrorResponse (Some dbError)
                                        "MongoClient.connect")))
                       w0
                     = (Return (mkResponse (Mongodb.getHttpStatus (Some error))
                                  (Mongodb.createErrorResponse (Some error)
                                     "MongoClient.connect")), w1)).
    { unfold tryCatch. now rewrite (bind_thrown _ _ w0 w1 error Hconnect). }
    now rewrite (bind_return _ _ w0 w1 _ Hfirst).
  - intros Hc (v & Ho & Hv). split.
    + unfold ApplicationsV2.POST, ApplicationsV2.handle.
      rewrite Hc, Ho. cbn [negb].
      rewrite bind_returnIf_false.
      rewrite bind_liftResult_ok.
      rewrite Hv. cbn [negb].
      rewrite bind_returnIf_false.
      now rewrite (bind_thrown _ _ w0 w1 error Hconnect).
    + intros Hname. unfold ApplicationsV2.catchResponse.
      apply String.eqb_neq in Hname. rewrite Hname. reflexivity.
Qed.

Lemma connection_failure_answers_witness :
  status (fst (Applications.POST (sampleEnv true true false)
                 (sampleRequest "ada@forms.example") emptyWorld)) = 504 /\
  status (fst (ApplicationsV2.POST (sampleEnv true true false)
                 (sampleRequest "ada@forms.example") emptyWorld)) = 500.
Proof.
  destruct (connection_failure_answers (sampleEnv true true false)
              (sampleRequest "ada@forms.example") emptyWorld
              (snd (Mongodb.connectDB (sampleEnv true true false) emptyWorld))
              (mkError "MongoNetworkError" "connection timed out" None None [])
              eq_refl) as [H1 H2].
  destruct H2 as [H2 H500];
    [reflexivity | eexists; split; reflexivity |].
  rewrite H1, H2. split; [reflexivity | apply H500; discriminate].
Defined.

(** ** What a submission leaves in the collections *)

Lemma optEqb_eq (a b : option string) : Application.optEqb a b = true <-> a = b.
Proof.
  destruct a as [x|], b as [y|]; cbn [Application.optEqb];
    try (split; [discriminate | discriminate]); [|tauto].
  rewrite String.eqb_eq. split; [now intros -> | now intros [= ->]].
Qed.

(** X27: a submission is all or nothing in the collections: either
    handler answers 201 with [success: true] after it appended exactly one
    application, or it answers with a failure and leaves the applications
    and the file records as they were. *)
Theorem post_all_or_nothing (env : Env) (request : Request) (w0 : World)
    (result : Response * World) :
  result = Applications.POST env request w0 \/
  result = ApplicationsV2.POST env request w0 ->
  (status (fst result) = 201 /\
   member "success" (body (fst result)) = Some (JBool true) /\
   exists application,
     applications (snd result) = (applications w0 ++ [application])%list /\
     docEmailAddress application
     = Application.castWith Application.emailSetters
         (match formData request with
          | Ok fd => formGet fd "emailAddress"
          | Throw _ => FVNull
          end)) \/
  (isFailure (fst result) /\
   applications (snd result) = applications w0 /\
   fileUploads (snd result) = fileUploads w0).
Proof.
  assert (Hgen : forall pf rf dup success,
             (forall a, status (success a) = 201 /\
                        member "success" (body (success a)) = Some (JBool true)) ->
             outcome env request w0 pf rf dup success result ->
             (status (fst result) = 201 /\
              member "success" (body (fst result)) = Some (JBool true) /\
              exists application,
                applications (snd result) = (applications w0 ++ [application])%list /\
                docEmailAddress application
                = Application.castWith Application.emailSetters
                    (match formData request with
                     | Ok fd => formGet fd "emailAddress"
                     | Throw _ => FVNull
                     end)) \/
             (isFailure (fst result) /\
              applications (snd result) = applications w0 /\
              fileUploads (snd result) = fileUploads w0)).
  { intros pf rf dup success Hs
      [(fd & application & [Hfd _] & (Ha & _) & He & Hr)|[Hf Hstop]].
    - left. rewrite Hr. destruct (Hs application) as [H201 Hbody].
      split; [exact H201|]. split; [exact Hbody|].
      exists application. rewrite Hfd. auto.
    - right. split; [exact Hf|].
      destruct Hstop as [(Ha & Hu & _)|[[(Ha & Hu & _) _]|[(Ha & Hu & _) _]]]; auto. }
  intros [-> | ->].
  - eapply (Hgen _ _ duplicateResponseV1 successV1);
      [now split | apply postV1_outcome].
  - eapply (Hgen _ _ duplicateResponseV2 successV2);
      [now split | apply postV2_outcome].
Qed.

Lemma post_all_or_nothing_witness :
  exists application,
    applications (snd (Applications.POST (sampleEnv true true true)
                         (sampleRequest " Ada@Forms.Example ") emptyWorld))
    = [application] /\
    docEmailAddress application = Some "ada@forms.example".
Proof.
  destruct (post_all_or_nothing (sampleEnv true true true)
              (sampleRequest " Ada@Forms.Example ") emptyWorld _
              (or_introl eq_refl))
    as [(_ & _ & application & Ha & He)|([_ Hs] & _)].
  - exists application. split; [exact Ha | exact He].
  - exfalso. apply Hs. reflexivity.
Defined.

Lemma NoDup_snoc {A} (l : list A) (x : A) :
  NoDup l -> ~ In x l -> NoDup (l ++ [x]).
Proof.
  induction 1 as [|y l Hy Hl IH]; intros Hx; cbn [app].
  - constructor; [intros [] | constructor].
  - constructor.
    + intros Hin. apply in_app_or in Hin as [Hin|[<-|[]]]; [now apply Hy|].
      apply Hx. now left.
    + apply IH. intros Hin. apply Hx. now right.
Qed.

(** X28: no two stored applications share an address: when the
    addresses in the collection are pairwise different before a submission
    to either handler, they are after it. *)
Theorem post_keeps_addresses_unique (env : Env) (request : Request) (w0 : World)
    (result : Response * World) :
  result = Applications.POST env request w0 \/
  result = ApplicationsV2.POST env request w0 ->
  NoDup (map docEmailAddress (applications w0)) ->
  NoDup (map docEmailAddress (applications (snd result))).
Proof.
  assert (Hgen : forall pf rf dup success,
             outcome env request w0 pf rf dup success result ->
             NoDup (map docEmailAddress (applications w0)) ->
             NoDup (map docEmailAddress (applications (snd result)))).
  { intros pf rf dup success
      [(fd & application & (_ & _ & _ & _ & _ & _ & _ & Hfind) & (Ha & _) & He & _)
      |[_ Hstop]] Hnodup.
    - rewrite Ha, map_app. cbn [map]. apply NoDup_snoc; [exact Hnodup|].
      intros Hin. apply in_map_iff in Hin as (d & Hd & Hin).
      pose proof (find_none _ _ Hfind d Hin) as Hno.
      unfold duplicateOf in Hno. rewrite <- He, Hd in Hno.
      assert (Application.optEqb (docEmailAddress application)
                (docEmailAddress application) = true) by now apply optEqb_eq.
      congruence.
    - destruct Hstop as [(Ha & _)|[[(Ha & _) _]|[(Ha & _) _]]]; now rewrite Ha. }
  intros [-> | ->].
  - apply (Hgen _ _ _ _ (postV1_outcome env request w0)).
  - apply (Hgen _ _ _ _ (postV2_outcome env request w0)).
Qed.

Lemma post_keeps_addresses_unique_witness :
  let env := sampleEnv true true true in
  let w1 := snd (ApplicationsV2.POST env (sampleRequest "ada@forms.example")
                   emptyWorld) in
  NoDup (map docEmailAddress
           (applications
              (snd (Applications.POST env (sampleRequest " ADA@forms.example") w1)))).
Proof.
  intros env w1.
  apply (post_keeps_addresses_unique env (sampleRequest " ADA@forms.example") w1 _
           (or_introl eq_refl)).
  apply (post_keeps_addresses_unique env (sampleRequest "ada@forms.example")
           emptyWorld _ (or_intror eq_refl)).
  constructor.
Defined.

(** ** The two validators side by side *)

(** X29: a file the browser-side check [validateFileClient] accepts as an
    image or as a PDF is accepted by [validateFile] of [validation.js]
    under the matching category, provided its declared type is not
    [image/jpg] (which only the browser-side list holds) and its name does
    not begin with [http://] or [https://]. *)
Theorem client_accepted_is_server_accepted (file : File)
    (clientCategory category : string) :
  clientCategory = "image" /\ category = "IMAGE" \/
  clientCategory = "pdf" /\ category = "PDF" ->
  accepts (FileValidation.validateFileClient file clientCategory) = true ->
  type file <> "image/jpg" ->
  Validation.containsExternalUrl (name file) = false ->
  Validation.validateFile (FVFile file) category
  = Ok (mkValidation true None (Some (Validation.sanitizeFilename (name file)))
          (Some (arrayBuffer file))).
Proof.
  intros Hcat Hclient Hjpg Hurl.
  assert (Hparts : accepts (FileValidation.validateFileType file clientCategory) = true /\
                   valid (FileValidation.validateFileSize file clientCategory) = true /\
                   FileValidation.validateFileSignature (arrayBuffer file) (type file)
                   = Ok true).
  { revert Hclient. unfold FileValidation.validateFileClient, FileValidation.validateFile.
    destruct (FileValidation.validateFileType file clientCategory) as [typeValidation|e];
      [|discriminate].
    cbn [accepts].
    destruct (valid typeValidation) eqn:Et; cbn [negb accepts]; [|congruence].
    destruct (valid (FileValidation.validateFileSize file clientCategory)) eqn:Es;
      cbn [negb accepts]; [|congruence].
    destruct (FileValidation.validateFileSignature (arrayBuffer file) (type file))
      as [[|]|e]; cbn [negb accepts valid invalid]; [auto | discriminate | discriminate]. }
  destruct Hparts as (Ht & Hs & Hsig).
  assert (Hserver : Validation.validateMimeType file category
                    = Ok (mkValidation true None None None) /\
                    valid (Validation.validateFileSize file category) = true).
  { destruct Hcat as [[-> ->]|[-> ->]].
    - rewrite (validateFileType_valid file "image" _ eq_refl) in Ht.
      apply andb_true_iff in Ht as [Ht _]. apply arrayIncludes_In in Ht.
      cbn [snd FileValidation.allowedTypes In] in Ht.
      split.
      + assert (Hin : In (type file) ["image/jpeg"; "image/png"; "image/webp"])
          by (cbn [In]; destruct Ht as [Ht|[Ht|[Ht|[Ht|[]]]]]; auto; congruence).
        apply arrayIncludes_In in Hin. unfold Validation.validateMimeType.
        change (Validation.ALLOWED_MIME_TYPES "IMAGE")
          with (Js.Own ["image/jpeg"; "image/png"; "image/webp"]).
        cbv beta iota. now rewrite Hin.
      + revert Hs.
        rewrite (validateFileSize_valid file "IMAGE" (5 * 1024 * 1024) eq_refl).
        unfold FileValidation.validateFileSize.
        change (FileValidation.FILE_CONFIG "image")
          with (Js.Own (FileValidation.mkConfig
                          ["image/jpeg"; "image/jpg"; "image/png"; "image/webp"]
                          [".jpg"; ".jpeg"; ".png"; ".webp"]
                          (5 * 1024 * 1024) "Image")).
        cbv beta iota. cbn [FileValidation.maxSize].
        destruct (size file >? 5 * 1024 * 1024); [discriminate|].
        destruct (size file =? 0); [discriminate | reflexivity].
    - rewrite (validateFileType_valid file "pdf" _ eq_refl) in Ht.
      apply andb_true_iff in Ht as [Ht _]. apply arrayIncludes_In in Ht.
      cbn [snd FileValidation.allowedTypes In] in Ht.
      split.
      + assert (Hin : In (type file) ["application/pdf"]) by (cbn [In]; tauto).
        apply arrayIncludes_In in Hin. unfold Validation.validateMimeType.
        change (Validation.ALLOWED_MIME_TYPES "PDF") with (Js.Own ["application/pdf"]).
        cbv beta iota. now rewrite Hin.
      + revert Hs.
        rewrite (validateFileSize_valid file "PDF" (10 * 1024 * 1024) eq_refl).
        unfold FileValidation.validateFileSize.
        change (FileValidation.FILE_CONFIG "pdf")
          with (Js.Own (FileValidation.mkConfig ["application/pdf"] [".pdf"]
                          (10 * 1024 * 1024) "PDF Document")).
        cbv beta iota. cbn [FileValidation.maxSize].
        destruct (size file >? 10 * 1024 * 1024); [discriminate|].
        destruct (size file =? 0); [discriminate | reflexivity]. }
  destruct Hserver as [Hm Hsz].
  unfold Validation.validateFile. rewrite Hurl, Hm, Hsz. cbn [negb valid].
  change (Validation.validateFileSignature (arrayBuffer file) (type file))
    with (FileValidation.validateFileSignature (arrayBuffer file) (type file)).
  now rewrite Hsig.
Qed.

Lemma client_accepted_is_server_accepted_witness :
  accepts (Validation.validateFile (FVFile jpegFile) "IMAGE") = true.
Proof.
  rewrite (client_accepted_is_server_accepted jpegFile "image" "IMAGE").
  - reflexivity.
  - left. split; reflexivity.
  - reflexivity.
  - discriminate.
  - reflexivity.
Defined.
